(** * Clinic-management backend: routes, token handling and seeding

    A shallow embedding of the Express handlers of
    [src/routes/login.js], [src/routes/admin.js], [src/routes/doctor.js],
    of [src/createAdmin.js] and of the start of the server ([server.js]).

    - A JavaScript object with string-valued properties (a request body,
      the properties of a stored document) is a [gmap string string]; an
      absent key is [undefined].
    - A stored Mongoose document is its [_id] together with its other
      properties.  A collection is the list of its documents in natural
      (insertion) order, and the store is one record of collections that
      the writing handlers thread through.
    - A handler is a function from the process environment, the clock, the
      store and the request to a response (and the new store when the
      handler writes). *)

From stdpp Require Import base option list strings gmap fin_maps sorting.
From Stdlib Require Import ZArith Lia.

Open Scope string_scope.
Open Scope list_scope.
Open Scope Z_scope.

(** ** JavaScript values *)

(** [!x] is false exactly for a defined, non-empty string. *)
Definition truthy (x : option string) : bool :=
  match x with
  | Some s => negb (String.eqb s "")
  | None => false
  end.

(** ** Documents and collections *)

Record document := Document {
  _id : string;
  props : gmap string string
}.

(** [doc.path]: [_id] is always set, every other path may be undefined. *)
Definition get (d : document) (k : string) : option string :=
  if String.eqb k "_id" then Some (_id d) else props d !! k.

(** [doc.path = v]; assigning [undefined] unsets the path. *)
Definition set_path (k : string) (v : option string) (d : document) : document :=
  Document (_id d) (partial_alter (fun _ => v) k (props d)).

(** A query filter [{ k1: v1, ..., kn: vn }] selects the documents whose
    paths hold exactly these values. *)
Definition filter_doc := list (string * option string).

Definition matches (q : filter_doc) (d : document) : bool :=
  forallb (fun kv => bool_decide (get d kv.1 = kv.2)) q.

(** [Model.find(q)] *)
Definition find (q : filter_doc) (coll : list document) : list document :=
  List.filter (matches q) coll.

(** [Model.findOne(q)]: the first match in natural order, or [null]. *)
Definition findOne (q : filter_doc) (coll : list document) : option document :=
  List.find (matches q) coll.

(** [Model.findById(id)] *)
Definition findById (id : string) (coll : list document) : option document :=
  findOne [("_id", Some id)] coll.

(** [Model.countDocuments(q)] *)
Definition countDocuments (q : filter_doc) (coll : list document) : nat :=
  length (find q coll).

(** [query.select('-password')]: an exclusion projection. *)
Definition select_without (k : string) (d : document) : document :=
  Document (_id d) (delete k (props d)).

(** [query.select('a b c')]: an inclusion projection; the [_id] stays. *)
Definition select_only (ks : list string) (d : document) : document :=
  Document (_id d) (filter (fun kv : string * string => kv.1 ∈ ks) (props d)).

(** [doc.toObject()] followed by [delete obj.password]. *)
Definition toObject (d : document) : document := d.

Definition delete_property (k : string) (o : document) : document :=
  Document (_id o) (delete k (props o)).

#[global] Instance document_eq_dec : EqDecision document.
Proof. solve_decision. Defined.

(** The models used by the routes ([models/User.js], [models/Doctor.js],
    [models/Admin.js], [models/Appointment.js]). *)
Record store := Store {
  User : list document;
  Doctor : list document;
  Admin : list document;
  Appointment : list document
}.

(** Modelled from the spec: the schema files [models/*.js] are missing; the
    spec says that email uniqueness is enforced per role-specific collection
    and that the store reports duplicate-key violations (the handlers of
    [admin.js] look for error code 11000).  [duplicate_key ks d coll] holds
    when another document of [coll] agrees with [d] on a unique path. *)
Definition duplicate_key (ks : list string) (d : document) (coll : list document) : bool :=
  existsb (fun d' => negb (String.eqb (_id d') (_id d))
                     && existsb (fun k => bool_decide (get d' k = get d k)) ks) coll.

(** [new Model({...}).save()]: inserts a new document; [None] when the store
    rejects it (the promise rejects with code 11000). *)
Definition save_new (ks : list string) (d : document) (coll : list document)
  : option (list document) :=
  if existsb (fun d' => String.eqb (_id d') (_id d)) coll || duplicate_key ks d coll
  then None
  else Some (coll ++ [d]).

(** [doc.save()] on a document loaded from the collection: replaces the
    stored document that has its [_id]. *)
Definition save_loaded (ks : list string) (d : document) (coll : list document)
  : option (list document) :=
  if duplicate_key ks d coll then None
  else Some (map (fun d' => if String.eqb (_id d') (_id d) then d else d') coll).

Definition Doctor_unique : list string := ["email"; "licenseNumber"].
Definition Admin_unique : list string := ["email"].

(** [Model.findOneAndUpdate(q, upd, { new: true })]: sets the paths of [upd]
    on the first match and returns the updated document and collection, or
    [null] and no write when nothing matches. *)
Definition apply_update (upd : list (string * string)) (d : document) : document :=
  foldr (fun kv acc => set_path kv.1 (Some kv.2) acc) d upd.

Fixpoint findOneAndUpdate (q : filter_doc) (upd : list (string * string))
    (coll : list document) : option (document * list document) :=
  match coll with
  | [] => None
  | d :: rest =>
      if matches q d then Some (apply_update upd d, apply_update upd d :: rest)
      else match findOneAndUpdate q upd rest with
           | Some (d', rest') => Some (d', d :: rest')
           | None => None
           end
  end.

(** [query.populate('patientId', 'firstName lastName')]: the referenced
    user, projected, or [null]. *)
Definition populate_patientId (users : list document) (a : document) : option document :=
  match get a "patientId" with
  | Some pid => select_only ["firstName"; "lastName"] <$> findById pid users
  | None => None
  end.

(** ** Tokens *)

(** The decoded payload: what [jwt.sign] is given plus the registered
    claims [iat] and [exp], in seconds. *)
Record claims := Claims {
  user_id : string;
  user_role : option string;
  iat : Z;
  exp : Z
}.

Record token := Token {
  payload : claims;
  signature : string
}.

#[global] Instance claims_eq_dec : EqDecision claims.
Proof. solve_decision. Defined.

#[global] Instance token_eq_dec : EqDecision token.
Proof. solve_decision. Defined.

(** The value of [req.header('Authorization')?.replace('Bearer ', '')] when
    the header is present: a compact serialization of a token, or any other
    string. *)
Inductive bearer :=
  | Opaque (s : string)
  | Jws (t : token).

(** [expiresIn: '24h'] and [expiresIn: '1h'], in seconds. *)
Definition hours (n : Z) : Z := n * 60 * 60.

(** ** Responses *)

Inductive json :=
  | JError (error : string)
  | JErrorMessage (error message : string)
  | JToken (tok : token)
  | JTokenRole (tok : token) (role : option string)
  | JDocument (d : document)
  | JDocuments (ds : list document)
  | JStrings (l : list string)
  | JTotalDoctors (totalDoctors : nat)
  | JMessageAdmin (message : string) (admin : document)
  | JMessageAppointment (message : string) (appointment : document)
      (patientId : option document).

Record response := Response {
  status : Z;
  body : json
}.

(** [process.env] *)
Record env := Env {
  JWT_SECRET : option string
}.

Definition res (code : Z) (b : json) : response := Response code b.

(** [a || b] on possibly undefined strings. *)
Definition or_else (a b : option string) : option string :=
  if truthy a then a else b.

(** The message of the error a rejected [save] carries. *)
Definition E11000 : string := "E11000 duplicate key error".

Section Backend.

(** The two primitives of the libraries the routes call: the HS256 tag
    that [jsonwebtoken] computes over the encoded payload under a secret,
    and [bcrypt.compare] on a plaintext and a stored hash. *)
Variable hs256 : string -> claims -> string.
Variable bcrypt_compare : string -> string -> bool.

(** Modelled from the spec: the schema [models/Appointment.js] is missing.
    The spec makes [patient_id] and [doctor_id] references and [date] a
    date, and the routes agree: they populate [patientId] and [doctorId],
    compare [date] with Date objects and take [new Date(app.date)].  So
    [_id], [doctorId] and [patientId] are object ids and [date] is a Date:
    Mongoose casts a string given for them and raises a CastError when it
    cannot.

    [castObjectId s] is the object id the string [s] is cast to, in the
    writing of [toString] and of JSON (24 hexadecimal digits, in lower
    case), and [None] when the cast fails; stored object ids are in this
    writing.  [timestamp s] is the instant, in milliseconds, of the Date
    that the non-empty string [s] is cast to, and [None] when the cast
    fails; a stored date is kept in the writing of JSON, of which
    [timestamp] is the instant, and dates are compared by their instants.

    The casts are modelled in the routes on appointments and in the
    deletion of a prescription, which answer for ids and dates that a
    request writes.  The profile routes look the id of the token up with
    [findById]; they are modelled for the ids the login routes sign, those
    of stored documents, which the cast leaves as they are.

    [CastError type value path model] is the message of the CastError
    that a query of the model raises for the value at the path; its
    wording belongs to the version of Mongoose. *)
Variable castObjectId : string -> option string.
Variable timestamp : string -> option Z.
Variable CastError : string -> string -> string -> string -> string.

(** *** Token service *)

(** [jwt.sign({ id, role }, secret, { expiresIn })] at clock [now]; throws
    ([None]) when the secret is missing or empty. *)
Definition jwt_sign (id : string) (role : option string) (secret : option string)
    (expiresIn : Z) (now : Z) : option token :=
  match secret with
  | Some s =>
      if truthy secret then
        let c := Claims id role now (now + expiresIn) in
        Some (Token c (hs256 s c))
      else None
  | None => None
  end.

(** [jwt.verify(token, secret)] at clock [now]; throws ([None]) when the
    secret is missing, the string is no token, the signature is not the
    one the secret gives, or the token has expired ([now >= exp]). *)
Definition jwt_verify (b : bearer) (secret : option string) (now : Z) : option claims :=
  match b, secret with
  | Jws t, Some s =>
      if truthy secret
         && String.eqb (signature t) (hs256 s (payload t))
         && (now <? exp (payload t))
      then Some (payload t)
      else None
  | _, _ => None
  end.

(** [await bcrypt.compare(data, hash)]; rejects ([None]) when an argument
    is undefined. *)
Definition compare (data hash : option string) : option bool :=
  match data, hash with
  | Some d, Some h => Some (bcrypt_compare d h)
  | _, _ => None
  end.

(** *** [routes/login.js]: POST /api/login
    (the handler appended to [routes/doctor.js] is the same code) *)

Definition login (e : env) (now : Z) (db : store) (req_body : gmap string string)
  : response :=
  let email := req_body !! "email" in
  let password := req_body !! "password" in
  let role := req_body !! "role" in
  if negb (truthy email) || negb (truthy password) || negb (truthy role) then
    res 400 (JError "Email, password, and role are required")
  else
    let user :=
      if bool_decide (role = Some "doctor") then
        findOne [("email", email)] (Doctor db)
      else if bool_decide (role = Some "admin") then
        findOne [("email", email)] (Admin db)
      else
        findOne [("email", email); ("role", role)] (User db) in
    match user with
    | None => res 400 (JError "Invalid email or role")
    | Some user =>
        if negb (truthy (get user "password")) then
          res 400 (JError "Invalid user data")
        else
          match compare password (get user "password") with
          | None => res 500 (JError "Server error")
          | Some false => res 400 (JError "Invalid password")
          | Some true =>
              if negb (truthy (JWT_SECRET e)) then
                res 500 (JError "Server configuration error")
              else
                match jwt_sign (_id user) (get user "role") (JWT_SECRET e)
                        (hours 24) now with
                | None => res 500 (JError "Server error")
                | Some tok => res 200 (JTokenRole tok (get user "role"))
                end
          end
    end.

(** *** [routes/admin.js] *)

Definition admin_auth (e : env) (now : Z) (header : option bearer)
  : response + claims :=
  match header with
  | None | Some (Opaque "") => inl (res 401 (JError "No token provided"))
  | Some b =>
      match jwt_verify b (JWT_SECRET e) now with
      | Some decoded =>
          if String.eqb (user_id decoded) "" then
            inl (res 401 (JError "Invalid token payload"))
          else inr decoded
      | None => inl (res 401 (JError "Invalid token"))
      end
  end.

(** POST /admin/login *)
Definition admin_login (e : env) (now : Z) (db : store) (req_body : gmap string string)
  : response :=
  let email := req_body !! "email" in
  let password := req_body !! "password" in
  match findOne [("email", email)] (Admin db) with
  | None => res 400 (JError "Invalid credentials")
  | Some admin =>
      match compare password (get admin "password") with
      | None => res 500 (JError "Server error")
      | Some false => res 400 (JError "Invalid credentials")
      | Some true =>
          match jwt_sign (_id admin) (Some "admin") (JWT_SECRET e) (hours 1) now with
          | None => res 500 (JError "Server error")
          | Some tok => res 200 (JToken tok)
          end
      end
  end.

(** GET /admin/profile *)
Definition admin_get_profile (e : env) (now : Z) (db : store)
    (header : option bearer) : response :=
  match admin_auth e now header with
  | inl r => r
  | inr user =>
      match select_without "password" <$> findById (user_id user) (Admin db) with
      | None => res 404 (JError "Admin not found")
      | Some admin => res 200 (JDocument admin)
      end
  end.

(** PUT /admin/profile *)
Definition admin_put_profile (e : env) (now : Z) (db : store)
    (header : option bearer) (req_body : gmap string string) : response * store :=
  match admin_auth e now header with
  | inl r => (r, db)
  | inr user =>
      match findById (user_id user) (Admin db) with
      | None => (res 404 (JError "Admin not found"), db)
      | Some admin =>
          let admin :=
            set_path "firstName" (or_else (req_body !! "firstName") (get admin "firstName")) admin in
          let admin :=
            set_path "lastName" (or_else (req_body !! "lastName") (get admin "lastName")) admin in
          let admin :=
            set_path "email" (or_else (req_body !! "email") (get admin "email")) admin in
          match save_loaded Admin_unique admin (Admin db) with
          | None => (res 500 (JError "Server error"), db)
          | Some admins =>
              let adminWithoutPassword := delete_property "password" (toObject admin) in
              (res 200 (JMessageAdmin "Profile updated successfully" adminWithoutPassword),
               Store (User db) (Doctor db) admins (Appointment db))
          end
      end
  end.

(** GET /admin/total-doctors *)
Definition admin_total_doctors (e : env) (now : Z) (db : store)
    (header : option bearer) : response :=
  match admin_auth e now header with
  | inl r => r
  | inr _ => res 200 (JTotalDoctors (countDocuments [] (Doctor db)))
  end.

(** *** [routes/doctor.js] *)

Definition doctor_auth (e : env) (now : Z) (header : option bearer)
  : response + claims :=
  match header with
  | None | Some (Opaque "") => inl (res 401 (JError "No token provided"))
  | Some b =>
      match jwt_verify b (JWT_SECRET e) now with
      | Some decoded => inr decoded
      | None => inl (res 401 (JError "Invalid token"))
      end
  end.

(** GET /doctor/profile *)
Definition doctor_get_profile (e : env) (now : Z) (db : store)
    (header : option bearer) : response :=
  match doctor_auth e now header with
  | inl r => r
  | inr user =>
      match select_without "password" <$> findById (user_id user) (Doctor db) with
      | None => res 404 (JError "Doctor not found")
      | Some doctor => res 200 (JDocument doctor)
      end
  end.

(** PUT /doctor/profile *)
Definition doctor_put_profile (e : env) (now : Z) (db : store)
    (header : option bearer) (req_body : gmap string string) : response * store :=
  match doctor_auth e now header with
  | inl r => (r, db)
  | inr user =>
      match findById (user_id user) (Doctor db) with
      | None => (res 404 (JError "Doctor not found"), db)
      | Some doctor =>
          let doctor := set_path "firstName" (req_body !! "firstName") doctor in
          let doctor := set_path "lastName" (req_body !! "lastName") doctor in
          let doctor := set_path "email" (req_body !! "email") doctor in
          let doctor := set_path "specialty" (req_body !! "specialty") doctor in
          let doctor := set_path "licenseNumber" (req_body !! "licenseNumber") doctor in
          let doctor := set_path "phoneNumber" (req_body !! "phoneNumber") doctor in
          match save_loaded Doctor_unique doctor (Doctor db) with
          | None => (res 500 (JErrorMessage "Server error" E11000), db)
          | Some doctors =>
              let doctorWithoutPassword := delete_property "password" (toObject doctor) in
              (res 200 (JDocument doctorWithoutPassword),
               Store (User db) doctors (Admin db) (Appointment db))
          end
      end
  end.

(** GET /doctor/all: the route is registered without [auth]. *)
Definition doctor_all (e : env) (now : Z) (db : store) (header : option bearer)
  : response :=
  let doctors :=
    map (select_only ["firstName"; "lastName"; "specialty"]) (find [] (Doctor db)) in
  res 200 (JDocuments doctors).

(** GET /doctor/available-slots *)
Definition allTimeSlots : list string :=
  ["10:00 AM"; "11:00 AM"; "12:00 PM"; "1:00 PM";
   "2:00 PM"; "3:00 PM"; "4:00 PM"; "5:00 PM"].

(** [bookedTimes.includes(slot)] *)
Definition includes (l : list (option string)) (s : string) : bool :=
  existsb (fun x => bool_decide (x = Some s)) l.

Definition availableSlots (bookedTimes : list (option string)) : list string :=
  List.filter (fun slot => negb (includes bookedTimes slot)) allTimeSlots.

(** The instant of the date an appointment holds, if it holds one. *)
Definition date_key (a : document) : option Z := get a "date" ≫= timestamp.

(** What a [date] is cast to: an instant, [null] for an undefined date
    and for the empty string ([Some None]), or a CastError ([None]). *)
Definition cast_date (date : option string) : option (option Z) :=
  match date with
  | None => Some None
  | Some s =>
      if String.eqb s "" then Some None
      else
        match timestamp s with
        | Some t => Some (Some t)
        | None => None
        end
  end.

(** The times of [Appointment.find({ doctorId, date })], [date] being the
    instant the query's date was cast to. *)
Definition bookedTimes (db : store) (doctorId : string) (date : option Z)
  : list (option string) :=
  let bookedAppointments :=
    List.filter (fun app => bool_decide (date_key app = date))
      (find [("doctorId", Some doctorId)] (Appointment db)) in
  map (fun app => get app "time") bookedAppointments.

Definition doctor_available_slots (e : env) (now : Z) (db : store)
    (header : option bearer) (date : option string) : response :=
  match doctor_auth e now header with
  | inl r => r
  | inr user =>
      let doctorId := user_id user in
      match castObjectId doctorId with
      | None =>
          res 500 (JErrorMessage "Server error"
                     (CastError "ObjectId" doctorId "doctorId" "Appointment"))
      | Some doctor =>
          match cast_date date with
          | None =>
              res 500 (JErrorMessage "Server error"
                         (CastError "date" (default "" date) "date"
                            "Appointment"))
          | Some instant =>
              res 200 (JStrings (availableSlots (bookedTimes db doctor instant)))
          end
      end
  end.

(** PATCH /doctor/appointment/:appointmentId/:status *)
Definition validStatuses : list string := ["scheduled"; "completed"; "cancelled"].

Definition doctor_patch_appointment (e : env) (now : Z) (db : store)
    (header : option bearer) (appointmentId status : string) : response * store :=
  match doctor_auth e now header with
  | inl r => (r, db)
  | inr user =>
      if negb (bool_decide (status ∈ validStatuses)) then
        (res 400 (JError "Invalid status"), db)
      else
        let doctorId := user_id user in
        match castObjectId appointmentId, castObjectId doctorId with
        | None, _ =>
            (res 500 (JErrorMessage "Server error"
                        (CastError "ObjectId" appointmentId "_id"
                           "Appointment")),
             db)
        | Some _, None =>
            (res 500 (JErrorMessage "Server error"
                        (CastError "ObjectId" doctorId "doctorId"
                           "Appointment")),
             db)
        | Some appointment, Some doctor =>
            match findOneAndUpdate
                    [("_id", Some appointment); ("doctorId", Some doctor)]
                    [("status", status)] (Appointment db) with
            | None => (res 404 (JError "Appointment not found or unauthorized"), db)
            | Some (updatedAppointment, appointments) =>
                (res 200 (JMessageAppointment "Appointment status updated"
                            updatedAppointment
                            (populate_patientId (User db) updatedAppointment)),
                 Store (User db) (Doctor db) (Admin db) appointments)
            end
        end
  end.

End Backend.

(** *** [createAdmin.js] *)

Definition seed_email : string := "admin@gmail.com".
Definition seed_password : string := "admin123".

(** [new Admin({ ... })] with the object id [oid] Mongoose gives it. *)
Definition seed_admin (oid : string) : document :=
  Document oid
    (<["firstName" := "Admin"]>
       (<["lastName" := "Test"]>
          (<["email" := seed_email]>
             (<["password" := seed_password]>
                (<["role" := "admin"]> ∅))))).

(** The store after a call of [createAdmin]. *)
Definition createAdmin (oid : string) (db : store) : store :=
  match findOne [("email", Some seed_email)] (Admin db) with
  | Some existingAdmin => db
  | None =>
      let admin := seed_admin oid in
      match save_new Admin_unique admin (Admin db) with
      | Some admins => Store (User db) (Doctor db) admins (Appointment db)
      | None => db
      end
  end.

(** *** [server.js]

    The module imports [createAdmin] and never calls it.  Its statements
    set up the middleware, open the connection to the database, mount the
    routers and listen; none of them reads or writes a collection.  So the
    store the first request meets is the store the process found. *)
Definition server_start (db : store) : store := db.

(** ** The other routes of [admin.js] and [doctor.js] *)

(** [`${x}`] in a template string. *)
Definition template (x : option string) : string := default "undefined" x.

(** The object literal [{ k1, ..., kn }] of variables destructured from a
    request body: an undefined variable sets no path of the new document. *)
Definition pick (ks : list string) (o : gmap string string) : gmap string string :=
  filter (fun kv : string * string => kv.1 ∈ ks) o.

(** [Model.findOneAndDelete(q)]: removes the first match and returns it with
    the remaining collection, or [null] and no write. *)
Fixpoint findOneAndDelete (q : filter_doc) (coll : list document)
  : option (document * list document) :=
  match coll with
  | [] => None
  | d :: rest =>
      if matches q d then Some (d, rest)
      else match findOneAndDelete q rest with
           | Some (d', rest') => Some (d', d :: rest')
           | None => None
           end
  end.

(** A row of GET /doctor/patients-with-appointments: the patient's object
    with the two dates added ([null] is [None]). *)
Record patient_row := PatientRow {
  patient : document;
  lastVisit : option string;
  nextAppointment : option string
}.

(** Response bodies of these routes, next to those of [json]. *)
Inductive json_more :=
  | JMessage (message : string)
  | JMessageNewAppointment (message : string) (appointment : document)
  | JMessagePrescription (message : string) (prescription : document)
  | JTotalPatients (totalPatients : nat)
  | JPatientOverview (rows : list (string * nat))
  | JPatientsWithAppointments (rows : list patient_row).

Record reply := Reply {
  code : Z;
  content : json + json_more
}.

(** A response of the middleware, passed on as it is. *)
Definition pass (r : response) : reply := Reply (status r) (inl (body r)).

(** The message of the error [bcrypt.hash] rejects with when its data is
    undefined. *)
Definition bcrypt_arguments_required : string := "data and salt arguments required".

Section Routes.

(** [bcrypt.hash(password, 10)] is a function of the password and of the
    salt it draws; [defaults name] holds the default values the schema of
    the model [name] declares (the schema files are not in the repository). *)
Variable hs256 : string -> claims -> string.
Variable bcrypt_hash : string -> string -> string.
Variable defaults : string -> gmap string string.

(** The casts of Mongoose and the message of a CastError, as in the
    section above; [toISOString t] is the writing of the instant [t] that a
    Date has in JSON; [ValidationError model paths] is the message of the
    error with which [save] rejects a document of the model whose paths
    [paths] hold values that could not be cast. *)
Variable castObjectId : string -> option string.
Variable timestamp : string -> option Z.
Variable toISOString : Z -> string.
Variable CastError : string -> string -> string -> string -> string.
Variable ValidationError : string -> list (string * string) -> string.

(** [new Model(o)] with the object id [oid] Mongoose gives it. *)
Definition new_document (name : string) (oid : string) (o : gmap string string)
  : document :=
  Document oid (o ∪ defaults name).

(** *** [routes/admin.js], continued *)

(** POST /admin/add-doctor *)
Definition admin_add_doctor (e : env) (now : Z) (db : store)
    (header : option bearer) (req_body : gmap string string) (oid salt : string)
  : reply * store :=
  match admin_auth hs256 e now header with
  | inl r => (pass r, db)
  | inr user =>
      if negb (bool_decide (user_role user = Some "admin")) then
        (Reply 403 (inl (JError "Not authorized to add doctors")), db)
      else
        match req_body !! "password" with
        | None => (Reply 400 (inl (JError bcrypt_arguments_required)), db)
        | Some password =>
            let hashedPassword := bcrypt_hash password salt in
            let doctor :=
              new_document "Doctor" oid
                (<["password" := hashedPassword]>
                   (pick ["firstName"; "lastName"; "email"; "specialty";
                          "licenseNumber"; "phoneNumber"] req_body)) in
            match save_new Doctor_unique doctor (Doctor db) with
            | Some doctors =>
                (Reply 201 (inr (JMessage "Doctor added successfully")),
                 Store (User db) doctors (Admin db) (Appointment db))
            | None =>
                (Reply 400 (inl (JError "Email or license number already exists")), db)
            end
        end
  end.

(** POST /admin/add-admin *)
Definition admin_add_admin (e : env) (now : Z) (db : store)
    (header : option bearer) (req_body : gmap string string) (oid salt : string)
  : reply * store :=
  match admin_auth hs256 e now header with
  | inl r => (pass r, db)
  | inr user =>
      if negb (bool_decide (user_role user = Some "admin")) then
        (Reply 403 (inl (JError "Not authorized to add admins")), db)
      else
        match req_body !! "password" with
        | None => (Reply 400 (inl (JError bcrypt_arguments_required)), db)
        | Some password =>
            let hashedPassword := bcrypt_hash password salt in
            let admin :=
              new_document "Admin" oid
                (<["password" := hashedPassword]>
                   (pick ["firstName"; "lastName"; "email"] req_body)) in
            match save_new Admin_unique admin (Admin db) with
            | Some admins =>
                (Reply 201 (inr (JMessage "Admin added successfully")),
                 Store (User db) (Doctor db) admins (Appointment db))
            | None => (Reply 400 (inl (JError "Email already exists")), db)
            end
        end
  end.

(** GET /admin/total-patients *)
Definition admin_total_patients (e : env) (now : Z) (db : store)
    (header : option bearer) : reply :=
  match admin_auth hs256 e now header with
  | inl r => pass r
  | inr _ =>
      Reply 200 (inr (JTotalPatients
                        (countDocuments [("role", Some "patient")] (User db))))
  end.

(** GET /admin/patient-overview *)
Definition admin_patient_overview (e : env) (now : Z) (db : store)
    (header : option bearer) : reply :=
  match admin_auth hs256 e now header with
  | inl r => pass r
  | inr _ =>
      let patients :=
        map (select_only ["firstName"; "lastName"])
          (find [("role", Some "patient")] (User db)) in
      let patientOverview :=
        map (fun patient =>
               let appointmentCount :=
                 countDocuments [("patientId", Some (_id patient))] (Appointment db) in
               ((template (get patient "firstName") ++ " "
                 ++ template (get patient "lastName"))%string,
                appointmentCount))
          patients in
      Reply 200 (inr (JPatientOverview patientOverview))
  end.

(** *** [routes/doctor.js], continued *)

(** The paths of a new appointment whose value cannot be cast to the type
    of the path, each with its value; [save] validates the document and
    rejects it when there is one. *)
Definition invalid_paths (appointment : document) : list (string * string) :=
  let invalid (path : string) (fits : string -> bool) :=
    match get appointment path with
    | Some value => if fits value then [] else [(path, value)]
    | None => []
    end in
  invalid "patientId" (fun value => bool_decide (is_Some (castObjectId value)))
  ++ invalid "doctorId" (fun value => bool_decide (is_Some (castObjectId value)))
  ++ invalid "date"
       (fun value => bool_decide (is_Some (cast_date timestamp (Some value)))).

(** A path of a new document holds the value it was given, cast to the
    type of the path where the cast succeeds ([cast] gives [Some None] for
    a value that is cast to [null]). *)
Definition cast_path (cast : string -> option (option string)) (path : string)
    (d : document) : document :=
  match get d path ≫= cast with
  | Some value => set_path path value d
  | None => d
  end.

(** [new Appointment(o)] *)
Definition new_appointment (oid : string) (o : gmap string string) : document :=
  cast_path (fun value => Some <$> castObjectId value) "patientId"
    (cast_path (fun value => Some <$> castObjectId value) "doctorId"
       (cast_path
          (fun value => fmap (M:=option) toISOString <$> cast_date timestamp (Some value))
          "date"
          (new_document "Appointment" oid o))).

(** POST /doctor/schedule-appointment *)
Definition doctor_schedule_appointment (e : env) (now : Z) (db : store)
    (header : option bearer) (req_body : gmap string string) (oid : string)
  : reply * store :=
  match doctor_auth hs256 e now header with
  | inl r => (pass r, db)
  | inr user =>
      let doctorId := user_id user in
      let o :=
        <["doctorId" := doctorId]>
          (pick ["patientId"; "date"; "time"; "reason"] req_body) in
      let appointment := new_appointment oid o in
      match invalid_paths (new_document "Appointment" oid o) with
      | _ :: _ as paths =>
          (Reply 500 (inl (JErrorMessage "Server error"
                             (ValidationError "Appointment" paths))),
           db)
      | [] =>
          match save_new [] appointment (Appointment db) with
          | Some appointments =>
              (Reply 201 (inr (JMessageNewAppointment
                                 "Appointment scheduled successfully" appointment)),
               Store (User db) (Doctor db) (Admin db) appointments)
          | None => (Reply 500 (inl (JErrorMessage "Server error" E11000)), db)
          end
      end
  end.

(** POST /doctor/prescribe-medication; the route reads and writes the
    Prescription collection only. *)
Definition doctor_prescribe_medication (e : env) (now : Z)
    (prescriptions : list document) (header : option bearer)
    (req_body : gmap string string) (oid : string) : reply * list document :=
  match doctor_auth hs256 e now header with
  | inl r => (pass r, prescriptions)
  | inr user =>
      let doctorId := user_id user in
      let prescription :=
        new_document "Prescription" oid
          (<["doctorId" := doctorId]>
             (pick ["patientId"; "medication"; "dosage"; "frequency"; "tilldate"]
                req_body)) in
      match save_new [] prescription prescriptions with
      | Some saved =>
          (Reply 201 (inr (JMessagePrescription "Medication prescribed successfully"
                             prescription)), saved)
      | None => (Reply 500 (inl (JErrorMessage "Server error" E11000)), prescriptions)
      end
  end.

(** GET /doctor/prescriptions *)
Definition doctor_prescriptions (e : env) (now : Z) (prescriptions : list document)
    (header : option bearer) : reply :=
  match doctor_auth hs256 e now header with
  | inl r => pass r
  | inr user =>
      Reply 200 (inl (JDocuments
                        (find [("doctorId", Some (user_id user))] prescriptions)))
  end.

(** GET /doctor/prescriptions/patient/:patientId *)
Definition doctor_prescriptions_by_patient (e : env) (now : Z)
    (prescriptions : list document) (header : option bearer) (patientId : string)
  : reply :=
  match doctor_auth hs256 e now header with
  | inl r => pass r
  | inr user =>
      Reply 200 (inl (JDocuments
                        (find [("doctorId", Some (user_id user));
                               ("patientId", Some patientId)] prescriptions)))
  end.

(** DELETE /doctor/prescriptions/:id.  The [_id] of a prescription is an
    object id, as that of every document, and the [:id] of the request is
    cast to one; the routes never populate a prescription, so they do not
    show the type of its [doctorId], which is compared as it is, as in the
    routes above. *)
Definition doctor_delete_prescription (e : env) (now : Z)
    (prescriptions : list document) (header : option bearer) (id : string)
  : reply * list document :=
  match doctor_auth hs256 e now header with
  | inl r => (pass r, prescriptions)
  | inr user =>
      match castObjectId id with
      | None =>
          (Reply 500 (inl (JErrorMessage "Server error"
                             (CastError "ObjectId" id "_id" "Prescription"))),
           prescriptions)
      | Some _id =>
          match findOneAndDelete
                  [("_id", Some _id); ("doctorId", Some (user_id user))]
                  prescriptions with
          | None => (Reply 404 (inl (JError "Prescription not found")), prescriptions)
          | Some (prescription, rest) =>
              (Reply 200 (inr (JMessage "Prescription deleted successfully")), rest)
          end
      end
  end.

End Routes.


Section Visits.

(** [timestamp s] is [new Date(s).getTime()] for a stored date [s], in
    milliseconds, and [None] for an invalid date; [castObjectId] is the
    cast of Mongoose and [CastError] the message of its failure, as in the
    sections above. *)
Variable hs256 : string -> claims -> string.
Variable castObjectId : string -> option string.
Variable timestamp : string -> option Z.
Variable CastError : string -> string -> string -> string -> string.

(** The order of [sort({ date: 1 })] on a Date path: by the instant, a
    missing date first. *)
Definition date_le (a b : document) : Prop :=
  match date_key timestamp a, date_key timestamp b with
  | None, _ => True
  | Some _, None => False
  | Some x, Some y => x <= y
  end.

#[local] Instance date_le_dec : RelDecision date_le.
Proof.
  intros a b. unfold date_le.
  destruct (date_key timestamp a), (date_key timestamp b); apply _.
Defined.






End Visits.


(** The unique index on [_id] holds in a collection. *)
Definition unique_id (coll : list document) : Prop := NoDup (map _id coll).

(** ** Specification vocabulary *)

(** The collection and filter the login handler uses for a role: doctors
    and admins are looked up by email in their own collection, every other
    role by email and role among the users. *)
Definition credential_record (db : store) (email role : option string)
  : option document :=
  if bool_decide (role = Some "doctor") then findOne [("email", email)] (Doctor db)
  else if bool_decide (role = Some "admin") then findOne [("email", email)] (Admin db)
  else findOne [("email", email); ("role", role)] (User db).

(** The three ways a complete login request fails authentication. *)
Inductive failure := NoSuchUser | NoPassword | HashMismatch.

Definition failure_message (f : failure) : string :=
  match f with
  | NoSuchUser => "Invalid email or role"
  | NoPassword => "Invalid user data"
  | HashMismatch => "Invalid password"
  end.

Definition complete (req_body : gmap string string) : Prop :=
  truthy (req_body !! "email") = true
  ∧ truthy (req_body !! "password") = true
  ∧ truthy (req_body !! "role") = true.

Inductive fails_authentication (bcrypt_compare : string -> string -> bool)
    (db : store) (req_body : gmap string string) : failure -> Prop :=
  | fails_no_user :
      complete req_body ->
      credential_record db (req_body !! "email") (req_body !! "role") = None ->
      fails_authentication bcrypt_compare db req_body NoSuchUser
  | fails_no_password user :
      complete req_body ->
      credential_record db (req_body !! "email") (req_body !! "role") = Some user ->
      truthy (get user "password") = false ->
      fails_authentication bcrypt_compare db req_body NoPassword
  | fails_mismatch user password hash :
      complete req_body ->
      credential_record db (req_body !! "email") (req_body !! "role") = Some user ->
      get user "password" = Some hash ->
      truthy (Some hash) = true ->
      req_body !! "password" = Some password ->
      bcrypt_compare password hash = false ->
      fails_authentication bcrypt_compare db req_body HashMismatch.

(** The token a login response carries, if any. *)
Definition issued_token (r : response) : option token :=
  match body r with
  | JToken tok => Some tok
  | JTokenRole tok _ => Some tok
  | _ => None
  end.

Definition lifetime (tok : token) : Z := exp (payload tok) - iat (payload tok).

(** No stored appointment has this id and belongs to this doctor: the id
    is unknown, or the appointment is another doctor's. *)
Definition not_own_appointment (db : store) (appointmentId doctorId : string) : Prop :=
  ∀ a, a ∈ Appointment db -> _id a = appointmentId -> get a "doctorId" ≠ Some doctorId.

(** The unique index on [email] holds in a collection. *)
Definition unique_email (coll : list document) : Prop :=
  NoDup (map (fun d => get d "email") coll).

(** [oid] is not the id of a stored document. *)
Definition fresh (oid : string) (coll : list document) : Prop :=
  ∀ d, d ∈ coll -> _id d ≠ oid.

(** The property names of a returned object other than [_id]. *)
Definition has_property (d : document) (k : string) : Prop := is_Some (props d !! k).

(** The profile object a response carries, if any. *)
Definition returned_object (r : response) : option document :=
  match body r with
  | JDocument o => Some o
  | JMessageAdmin _ o => Some o
  | _ => None
  end.

(** ** A concrete clinic, used to run the handlers *)

Definition demo_hs256 (secret : string) (c : claims) : string :=
  (secret ++ "/" ++ user_id c ++ "/" ++ default "" (user_role c))%string.

Definition demo_compare (password hash : string) : bool :=
  String.eqb hash ("$" ++ password)%string.

Definition obj (l : list (string * string)) : gmap string string := list_to_map l.

Definition demo_db : store :=
  Store
    [ Document "64a0000000000000000000c1"
        (obj [("email", "pat@clinic"); ("role", "patient");
              ("firstName", "Pat"); ("password", "$pat-pw")]) ]
    [ Document "64a0000000000000000000d1"
        (obj [("email", "ann@clinic"); ("firstName", "Ann");
              ("lastName", "Lee"); ("specialty", "ENT");
              ("licenseNumber", "L-1"); ("password", "$ann-pw")]);
      Document "64a0000000000000000000d2"
        (obj [("email", "bob@clinic"); ("firstName", "Bob");
              ("lastName", "Ray"); ("specialty", "Eye");
              ("licenseNumber", "L-2")]) ]
    [ Document "64a0000000000000000000a1"
        (obj [("email", "root@clinic"); ("firstName", "Root");
              ("role", "admin"); ("password", "$root-pw")]) ]
    [ Document "64a0000000000000000000e1"
        (obj [("patientId", "64a0000000000000000000c1");
              ("doctorId", "64a0000000000000000000d1");
              ("date", "2025-01-10T00:00:00.000Z"); ("time", "10:00 AM");
              ("status", "scheduled")]);
      Document "64a0000000000000000000e2"
        (obj [("patientId", "64a0000000000000000000c1");
              ("doctorId", "64a0000000000000000000d2");
              ("date", "2025-01-10T00:00:00.000Z"); ("time", "11:00 AM");
              ("status", "scheduled")]) ].

Definition demo_env : env := Env (Some "s3cret").

(** The message of a CastError in the wording of Mongoose 8, and a
    message of a ValidationError that names the paths. *)
Definition dquote : string := String (Ascii.ascii_of_nat 34) EmptyString.

Definition quoted (s : string) : string := (dquote ++ s ++ dquote)%string.

Definition demo_CastError (type value path model : string) : string :=
  ("Cast to " ++ type ++ " failed for value " ++ quoted value
   ++ " (type string) at path " ++ quoted path ++ " for model " ++ quoted model)%string.

Definition demo_ValidationError (model : string) (paths : list (string * string))
  : string :=
  (model ++ " validation failed: " ++ String.concat ", " (map fst paths))%string.

(** The cast of the strings of 24 hexadecimal digits to object ids. *)
Definition hexadecimal (c : Ascii.ascii) : bool :=
  let n := Ascii.nat_of_ascii c in
  ((48 <=? n) && (n <=? 57) || (65 <=? n) && (n <=? 70)
   || (97 <=? n) && (n <=? 102))%nat.

Definition lower_case (c : Ascii.ascii) : Ascii.ascii :=
  let n := Ascii.nat_of_ascii c in
  if ((65 <=? n) && (n <=? 90))%nat then Ascii.ascii_of_nat (n + 32) else c.

Definition demo_cast (s : string) : option string :=
  let digits := String.list_ascii_of_string s in
  if (length digits =? 24)%nat && forallb hexadecimal digits
  then Some (String.string_of_list_ascii (map lower_case digits))
  else None.

Definition credentials (email password role : string) : gmap string string :=
  obj [("email", email); ("password", password); ("role", role)].

(** The tokens POST /api/login issues at clock 1000 to the patient and to
    the first doctor of the demo store. *)
Definition demo_patient_token : token :=
  Token (Claims "64a0000000000000000000c1" (Some "patient") 1000 87400)
    "s3cret/64a0000000000000000000c1/patient".

Definition demo_doctor_token : token :=
  Token (Claims "64a0000000000000000000d1" None 1000 87400)
    "s3cret/64a0000000000000000000d1/".

(** The token POST /admin/login issues at clock 1000 to the admin of the
    demo store. *)
Definition demo_admin_token : token :=
  Token (Claims "64a0000000000000000000a1" (Some "admin") 1000 4600)
    "s3cret/64a0000000000000000000a1/admin".

Definition demo_hash (password salt : string) : string := ("$" ++ password)%string.

Definition demo_defaults (name : string) : gmap string string :=
  if String.eqb name "Appointment" then obj [("status", "scheduled")] else ∅.

Definition demo_prescriptions : list document :=
  [ Document "64a0000000000000000000f1"
      (obj [("patientId", "64a0000000000000000000c1");
            ("doctorId", "64a0000000000000000000d1");
            ("medication", "Ibuprofen"); ("dosage", "200mg")]);
    Document "64a0000000000000000000f2"
      (obj [("patientId", "64a0000000000000000000c1");
            ("doctorId", "64a0000000000000000000d2");
            ("medication", "Timolol"); ("dosage", "1 drop")]) ].


Definition demo_days : list (string * Z) :=
  [ ("2025-01-01", 1735689600000); ("2025-01-10", 1736467200000);
    ("2025-01-11", 1736553600000); ("2025-02-01", 1738368000000);
    ("2025-03-01", 1740787200000) ].

(** The dates of [demo_days], written as a day or as a day and the time of
    its midnight. *)
Definition demo_timestamp (date : string) : option Z :=
  snd <$> List.find
            (fun day => String.eqb date day.1
                        || String.eqb date (day.1 ++ "T00:00:00.000Z")%string)
            demo_days.

Definition demo_toISOString (t : Z) : string :=
  match List.find (fun day => t =? day.2) demo_days with
  | Some day => (day.1 ++ "T00:00:00.000Z")%string
  | None => "Invalid Date"
  end.


Definition demo_admin_record : document :=
  Document "64a0000000000000000000a1"
    (obj [("email", "root@clinic"); ("firstName", "Root");
          ("role", "admin"); ("password", "$root-pw")]).

Definition demo_doctor_record : document :=
  Document "64a0000000000000000000d1"
    (obj [("email", "ann@clinic"); ("firstName", "Ann");
          ("lastName", "Lee"); ("specialty", "ENT");
          ("licenseNumber", "L-1"); ("password", "$ann-pw")]).


(** Request bodies. *)
Definition demo_new_doctor : gmap string string :=
  obj [("email", "cy@clinic"); ("password", "cy-pw"); ("firstName", "Cy");
       ("licenseNumber", "L-3")].

Definition demo_new_admin : gmap string string :=
  obj [("email", "eve@clinic"); ("password", "eve-pw")].

Definition demo_booking : gmap string string :=
  obj [("patientId", "64a0000000000000000000c1"); ("date", "2025-01-10");
       ("time", "2:00 PM"); ("doctorId", "64a0000000000000000000d2")].

Definition demo_prescription : gmap string string :=
  obj [("patientId", "64a0000000000000000000c1"); ("medication", "Aspirin")].

Definition demo_profile_update : gmap string string :=
  obj [("email", "ann@new"); ("firstName", "Anna")].

(** ** Properties *)

Section Properties.

Variable hs256 : string -> claims -> string.
Variable bcrypt_compare : string -> string -> bool.
Variable castObjectId : string -> option string.
Variable timestamp : string -> option Z.
Variable CastError : string -> string -> string -> string -> string.

(** *** Login failures *)

Lemma login_lookup (db : store) (req_body : gmap string string) :
  credential_record db (req_body !! "email") (req_body !! "role")
  = (if bool_decide (req_body !! "role" = Some "doctor") then
       findOne [("email", req_body !! "email")] (Doctor db)
     else if bool_decide (req_body !! "role" = Some "admin") then
       findOne [("email", req_body !! "email")] (Admin db)
     else
       findOne [("email", req_body !! "email"); ("role", req_body !! "role")] (User db)).
Proof. reflexivity. Qed.

(** C1 (as amended): a complete login request that fails authentication is
    answered with status 400 and the error message of its cause. *)
Theorem login_failure_response (e : env) (now : Z) (db : store)
    (req_body : gmap string string) (f : failure) :
  fails_authentication bcrypt_compare db req_body f ->
  login hs256 bcrypt_compare e now db req_body
  = res 400 (JError (failure_message f))
  ∧ status (login hs256 bcrypt_compare e now db req_body) = 400.
Proof.
  intros Hf.
  assert (Hgoal : login hs256 bcrypt_compare e now db req_body
                  = res 400 (JError (failure_message f))).
  { destruct Hf as [(He & Hp & Hr) Hnone
                   | user (He & Hp & Hr) Huser Hpw
                   | user password hash (He & Hp & Hr) Huser Hhash Hth Hbody Hcmp];
      unfold login; rewrite He, Hp, Hr; cbn [negb orb];
      rewrite <- login_lookup.
    - by rewrite Hnone.
    - rewrite Huser. by rewrite Hpw.
    - rewrite Huser, Hhash, Hth, Hbody. cbn [negb compare]. by rewrite Hcmp. }
  split; [exact Hgoal | by rewrite Hgoal].
Qed.

(** *** Token service *)

Lemma jwt_sign_value (id : string) (role secret : option string) (expiresIn now : Z)
    (tok : token) :
  jwt_sign hs256 id role secret expiresIn now = Some tok ->
  ∃ s, secret = Some s ∧ truthy secret = true
       ∧ tok = Token (Claims id role now (now + expiresIn))
                     (hs256 s (Claims id role now (now + expiresIn))).
Proof.
  unfold jwt_sign. destruct secret as [s|]; [|done].
  destruct (truthy (Some s)) eqn:Ht; [|done].
  intros [= <-]. by exists s.
Qed.

Lemma jwt_sign_total (id : string) (role secret : option string) (expiresIn now : Z) :
  truthy secret = true ->
  ∃ tok, jwt_sign hs256 id role secret expiresIn now = Some tok.
Proof.
  unfold jwt_sign. destruct secret as [s|]; [|done].
  intros ->. eauto.
Qed.

Lemma jwt_verify_own (id : string) (role secret : option string)
    (expiresIn now t : Z) (tok : token) :
  jwt_sign hs256 id role secret expiresIn now = Some tok ->
  jwt_verify hs256 (Jws tok) secret t
  = if t <? now + expiresIn then Some (Claims id role now (now + expiresIn)) else None.
Proof.
  intros (s & -> & Ht & ->)%jwt_sign_value.
  unfold jwt_verify. rewrite Ht. cbn [payload signature exp].
  by rewrite String.eqb_refl.
Qed.

(** C2: a token signed for [{id, role}] verifies, under the same secret and
    before its expiry, to a payload whose identity is exactly that id and
    role (the middleware of [doctor.js] then attaches it to the request);
    from its expiry on, verification fails and the middleware answers 401. *)
Theorem token_round_trip (id : string) (role secret : option string)
    (expiresIn now t : Z) :
  truthy secret = true ->
  ∃ tok decoded,
    jwt_sign hs256 id role secret expiresIn now = Some tok
    ∧ exp (payload tok) = now + expiresIn
    ∧ user_id decoded = id ∧ user_role decoded = role
    ∧ (t < exp (payload tok) ->
         jwt_verify hs256 (Jws tok) secret t = Some decoded
         ∧ doctor_auth hs256 (Env secret) t (Some (Jws tok)) = inr decoded)
    ∧ (exp (payload tok) <= t ->
         jwt_verify hs256 (Jws tok) secret t = None
         ∧ doctor_auth hs256 (Env secret) t (Some (Jws tok))
           = inl (res 401 (JError "Invalid token"))).
Proof.
  intros Hs.
  destruct (jwt_sign_total id role secret expiresIn now Hs) as [tok Htok].
  pose proof (jwt_verify_own _ _ _ _ _ t _ Htok) as Hv.
  destruct (jwt_sign_value _ _ _ _ _ _ Htok) as (s & _ & _ & Heq).
  exists tok, (Claims id role now (now + expiresIn)).
  split; [done|]. split; [by subst tok|].
  split; [done|]. split; [done|].
  assert (Hexp : exp (payload tok) = now + expiresIn) by by subst tok.
  rewrite Hexp. unfold doctor_auth. cbn [JWT_SECRET]. rewrite Hv.
  split; intros Ht.
  - by rewrite (proj2 (Z.ltb_lt _ _) Ht).
  - by rewrite (proj2 (Z.ltb_ge _ _) Ht).
Qed.

(** *** Token lifetimes of the two login paths *)

Lemma jwt_sign_lifetime (id : string) (role secret : option string)
    (expiresIn now : Z) (tok : token) :
  jwt_sign hs256 id role secret expiresIn now = Some tok ->
  lifetime tok = expiresIn ∧ iat (payload tok) = now
  ∧ user_id (payload tok) = id ∧ user_role (payload tok) = role.
Proof.
  intros (s & _ & _ & ->)%jwt_sign_value. unfold lifetime. cbn.
  repeat split; lia.
Qed.

Lemma login_issues_24h (e : env) (now : Z) (db : store)
    (req_body : gmap string string) (tok : token) :
  issued_token (login hs256 bcrypt_compare e now db req_body) = Some tok ->
  iat (payload tok) = now ∧ lifetime tok = 86400.
Proof.
  unfold login.
  repeat match goal with
         | |- context [if ?b then _ else _] => destruct b
         | |- context [match ?x with _ => _ end] => destruct x eqn:?
         end; cbn; try discriminate.
  all: intros [= <-].
  all: match goal with
       | H : jwt_sign _ _ _ _ _ _ = Some _ |- _ =>
           apply jwt_sign_lifetime in H as (H & H' & _); split; [exact H' | exact H]
       end.
Qed.

Lemma admin_login_issues_1h (e : env) (now : Z) (db : store)
    (req_body : gmap string string) (tok : token) :
  issued_token (admin_login hs256 bcrypt_compare e now db req_body) = Some tok ->
  iat (payload tok) = now ∧ lifetime tok = 3600.
Proof.
  unfold admin_login.
  repeat match goal with
         | |- context [match ?x with _ => _ end] => destruct x eqn:?
         end; cbn; try discriminate.
  all: intros [= <-].
  all: match goal with
       | H : jwt_sign _ _ _ _ _ _ = Some _ |- _ =>
           apply jwt_sign_lifetime in H as (H & H' & _); split; [exact H' | exact H]
       end.
Qed.

(** An admin whose record is the first with its email, with the right
    password and a configured secret, is logged in by both paths. *)
Lemma admin_logs_in_both_ways (e : env) (now : Z) (db : store)
    (req_body : gmap string string) (email password hash : string)
    (admin : document) :
  req_body !! "email" = Some email ->
  req_body !! "password" = Some password ->
  req_body !! "role" = Some "admin" ->
  truthy (Some email) = true ->
  truthy (Some password) = true ->
  truthy (JWT_SECRET e) = true ->
  findOne [("email", Some email)] (Admin db) = Some admin ->
  get admin "password" = Some hash ->
  truthy (Some hash) = true ->
  bcrypt_compare password hash = true ->
  ∃ tok24 tok1,
    login hs256 bcrypt_compare e now db req_body
    = res 200 (JTokenRole tok24 (get admin "role"))
    ∧ admin_login hs256 bcrypt_compare e now db req_body = res 200 (JToken tok1)
    ∧ user_id (payload tok24) = _id admin
    ∧ user_id (payload tok1) = _id admin
    ∧ user_role (payload tok24) = get admin "role"
    ∧ user_role (payload tok1) = Some "admin".
Proof.
  intros He Hp Hr Hte Htp Hts Hfind Hhash Hth Hcmp.
  destruct (jwt_sign_total (_id admin) (get admin "role") (JWT_SECRET e)
              (hours 24) now Hts) as [tok24 H24].
  destruct (jwt_sign_total (_id admin) (Some "admin") (JWT_SECRET e)
              (hours 1) now Hts) as [tok1 H1].
  exists tok24, tok1.
  unfold login, admin_login.
  rewrite He, Hp, Hr, Hte, Htp. cbn [truthy String.eqb Ascii.eqb Bool.eqb negb orb].
  rewrite bool_decide_eq_false_2 by discriminate.
  rewrite bool_decide_eq_true_2 by reflexivity.
  rewrite Hfind, Hhash, Hth. cbn [negb compare]. rewrite Hcmp, Hts. cbn [negb].
  rewrite H24, H1.
  apply jwt_sign_lifetime in H24 as (_ & _ & ? & ?).
  apply jwt_sign_lifetime in H1 as (_ & _ & ? & ?).
  done.
Qed.

(** C3: every token the general login issues lives 24 hours and every
    token the admin login issues lives 1 hour; an admin who can log in
    gets a token from each path, so tokens of both lifetimes. *)
Theorem login_paths_token_lifetimes (e : env) (now : Z) (db : store)
    (req_body : gmap string string) (email password hash : string)
    (admin : document) :
  req_body !! "email" = Some email ->
  req_body !! "password" = Some password ->
  req_body !! "role" = Some "admin" ->
  truthy (Some email) = true ->
  truthy (Some password) = true ->
  truthy (JWT_SECRET e) = true ->
  findOne [("email", Some email)] (Admin db) = Some admin ->
  get admin "role" = Some "admin" ->
  get admin "password" = Some hash ->
  truthy (Some hash) = true ->
  bcrypt_compare password hash = true ->
  (∀ e' now' db' req_body' tok,
     issued_token (login hs256 bcrypt_compare e' now' db' req_body') = Some tok ->
     iat (payload tok) = now' ∧ exp (payload tok) = now' + 24 * 3600)
  ∧ (∀ e' now' db' req_body' tok,
       issued_token (admin_login hs256 bcrypt_compare e' now' db' req_body') = Some tok ->
       iat (payload tok) = now' ∧ exp (payload tok) = now' + 1 * 3600)
  ∧ ∃ tok24 tok1,
      issued_token (login hs256 bcrypt_compare e now db req_body) = Some tok24
      ∧ issued_token (admin_login hs256 bcrypt_compare e now db req_body) = Some tok1
      ∧ user_id (payload tok24) = _id admin ∧ user_role (payload tok24) = Some "admin"
      ∧ user_id (payload tok1) = _id admin ∧ user_role (payload tok1) = Some "admin"
      ∧ lifetime tok24 = 24 * 3600 ∧ lifetime tok1 = 1 * 3600.
Proof.
  intros He Hp Hr Hte Htp Hts Hfind Hrole Hhash Hth Hcmp.
  split.
  { intros e' now' db' req_body' tok [Hi Hl]%login_issues_24h.
    unfold lifetime in Hl. lia. }
  split.
  { intros e' now' db' req_body' tok [Hi Hl]%admin_login_issues_1h.
    unfold lifetime in Hl. lia. }
  destruct (admin_logs_in_both_ways e now db req_body email password hash admin)
    as (tok24 & tok1 & Hl & Ha & Hi24 & Hi1 & Hr24 & Hr1); try done.
  exists tok24, tok1.
  assert (H24 : issued_token (login hs256 bcrypt_compare e now db req_body) = Some tok24)
    by by rewrite Hl.
  assert (H1 : issued_token (admin_login hs256 bcrypt_compare e now db req_body) = Some tok1)
    by by rewrite Ha.
  rewrite Hrole in Hr24.
  repeat split; try done.
  - by eapply proj2, login_issues_24h.
  - by eapply proj2, admin_login_issues_1h.
Qed.

(** *** Queries *)

Lemma find_all (coll : list document) : find [] coll = coll.
Proof.
  unfold find. induction coll as [|d coll IH]; [done|].
  cbn. by rewrite IH.
Qed.

Lemma countDocuments_all (coll : list document) :
  countDocuments [] coll = length coll.
Proof. unfold countDocuments. by rewrite find_all. Qed.

Lemma findOneAndUpdate_none (q : filter_doc) (upd : list (string * string))
    (coll : list document) :
  (∀ d, d ∈ coll -> matches q d = false) ->
  findOneAndUpdate q upd coll = None.
Proof.
  induction coll as [|d coll IH]; intros Hall; [done|].
  cbn. rewrite (Hall d) by apply list_elem_of_here.
  rewrite IH; [done|]. intros d' Hd'. apply Hall. by apply list_elem_of_further.
Qed.

Lemma matches_id_doctor (appointmentId doctorId : string) (a : document) :
  matches [("_id", Some appointmentId); ("doctorId", Some doctorId)] a = true
  <-> _id a = appointmentId ∧ get a "doctorId" = Some doctorId.
Proof.
  unfold matches. cbn [forallb fst snd].
  rewrite andb_true_r, andb_true_iff, !bool_decide_eq_true.
  change (get a "_id") with (Some (_id a)).
  split; intros [H1 H2]; split; congruence.
Qed.

Lemma not_own_no_match (db : store) (appointmentId doctorId : string)
    (upd : list (string * string)) :
  not_own_appointment db appointmentId doctorId ->
  findOneAndUpdate [("_id", Some appointmentId); ("doctorId", Some doctorId)]
    upd (Appointment db) = None.
Proof.
  intros Hno. apply findOneAndUpdate_none. intros a Ha.
  apply not_true_is_false. intros [Hid Hdoc]%matches_id_doctor.
  by apply (Hno a Ha Hid).
Qed.

(** *** GET /admin/total-doctors *)

(** C4 (as amended): the route asks for a token the middleware accepts and
    for nothing else: a request with an unexpired token signed with the
    secret for a non-empty id and any role is answered with the number of
    stored doctors; a request the middleware refuses is answered 401. *)
Theorem total_doctors_for_any_role (e : env) (now : Z) (db : store)
    (id : string) (role : option string) (expiresIn issued : Z) (tok : token) :
  jwt_sign hs256 id role (JWT_SECRET e) expiresIn issued = Some tok ->
  id ≠ "" ->
  now < issued + expiresIn ->
  admin_total_doctors hs256 e now db (Some (Jws tok))
  = res 200 (JTotalDoctors (length (Doctor db)))
  ∧ ∀ header r,
      admin_auth hs256 e now header = inl r ->
      admin_total_doctors hs256 e now db header = r ∧ status r = 401.
Proof.
  intros Hsign Hid Hnow. split.
  - unfold admin_total_doctors, admin_auth.
    rewrite (jwt_verify_own _ _ _ _ _ now _ Hsign).
    rewrite (proj2 (Z.ltb_lt _ _) Hnow). cbn [user_id].
    rewrite (proj2 (String.eqb_neq _ _) Hid).
    by rewrite countDocuments_all.
  - intros header r Hauth. unfold admin_total_doctors. rewrite Hauth.
    split; [done|].
    unfold admin_auth in Hauth.
    repeat match type of Hauth with
           | context [match ?x with _ => _ end] => destruct x
           | context [if ?b then _ else _] => destruct b
           end; by inversion Hauth.
Qed.

(** *** PATCH /doctor/appointment/:appointmentId/:status *)

(** C5 (as amended): for a caller the middleware accepts and an
    appointment id that is unknown or belongs to another doctor's
    appointment, the answer does not tell the two cases apart and is never
    403, and nothing is written.  It is 400 for a status outside the
    three; for a valid status it is 500 'Server error' when the
    appointment id, or else the caller's id, cannot be cast to an object
    id, and 404 with one message otherwise. *)
Theorem patch_foreign_appointment (e : env) (now : Z) (db : store)
    (header : option bearer) (caller : claims) (appointmentId new_status : string) :
  doctor_auth hs256 e now header = inr caller ->
  (∀ appointment doctor,
     castObjectId appointmentId = Some appointment ->
     castObjectId (user_id caller) = Some doctor ->
     not_own_appointment db appointment doctor) ->
  doctor_patch_appointment hs256 castObjectId CastError e now db header appointmentId
    new_status
  = (if bool_decide (new_status ∈ validStatuses) then
       match castObjectId appointmentId, castObjectId (user_id caller) with
       | Some _, Some _ => res 404 (JError "Appointment not found or unauthorized")
       | Some _, None =>
           res 500 (JErrorMessage "Server error"
                      (CastError "ObjectId" (user_id caller) "doctorId"
                         "Appointment"))
       | None, _ =>
           res 500 (JErrorMessage "Server error"
                      (CastError "ObjectId" appointmentId "_id" "Appointment"))
       end
     else res 400 (JError "Invalid status"), db)
  ∧ status (doctor_patch_appointment hs256 castObjectId CastError e now db header
              appointmentId new_status).1 ≠ 403.
Proof.
  intros Hauth Hno.
  unfold doctor_patch_appointment. rewrite Hauth.
  destruct (bool_decide (new_status ∈ validStatuses)); cbn [negb]; [|done].
  destruct (castObjectId appointmentId) as [appointment|]; [|done].
  destruct (castObjectId (user_id caller)) as [doctor|]; [|done].
  by rewrite (not_own_no_match db appointment doctor) by by apply Hno.
Qed.

(** C6: a status outside [scheduled], [completed], [cancelled] is refused
    with 400 'Invalid status' once the caller is authenticated, and whoever
    the caller is the store is left as it was. *)
Theorem patch_invalid_status (e : env) (now : Z) (db : store)
    (header : option bearer) (appointmentId status : string) :
  status ∉ ["scheduled"; "completed"; "cancelled"] ->
  (doctor_patch_appointment hs256 castObjectId CastError e now db header appointmentId
    status).2
  = db
  ∧ (∀ caller, doctor_auth hs256 e now header = inr caller ->
       (doctor_patch_appointment hs256 castObjectId CastError e now db header appointmentId
          status).1
       = res 400 (JError "Invalid status"))
  ∧ (∀ r, doctor_auth hs256 e now header = inl r ->
       (doctor_patch_appointment hs256 castObjectId CastError e now db header appointmentId
          status).1 = r).
Proof.
  intros Hbad. unfold doctor_patch_appointment.
  change validStatuses with ["scheduled"; "completed"; "cancelled"].
  rewrite (bool_decide_eq_false_2 _ Hbad). cbn [negb].
  destruct (doctor_auth hs256 e now header) as [r|caller]; cbn [fst snd].
  - split; [done|]. split; [intros ? [=]|]. by intros ? [= ->].
  - split; [done|]. split; [done|]. intros ? [=].
Qed.

(** *** GET /doctor/available-slots *)

Lemma includes_spec (l : list (option string)) (s : string) :
  includes l s = true <-> Some s ∈ l.
Proof.
  unfold includes. rewrite existsb_exists. split.
  - intros (x & Hin & ->%bool_decide_eq_true). by apply list_elem_of_In.
  - intros Hin. exists (Some s). split; [by apply list_elem_of_In|].
    by apply bool_decide_eq_true.
Qed.

Lemma filter_keeps_order {A} (f : A -> bool) (l : list A) :
  sublist (List.filter f l) l.
Proof.
  induction l as [|x l IH]; cbn; [constructor|].
  destruct (f x); by constructor.
Qed.

Lemma filter_everything {A} (f : A -> bool) (l : list A) :
  (∀ x, x ∈ l -> f x = true) -> List.filter f l = l.
Proof.
  induction l as [|x l IH]; intros Hall; cbn; [done|].
  rewrite (Hall x) by apply list_elem_of_here.
  f_equal. apply IH. intros y Hy. apply Hall. by apply list_elem_of_further.
Qed.

Lemma filter_nothing {A} (f : A -> bool) (l : list A) :
  (∀ x, x ∈ l -> f x = false) -> List.filter f l = [].
Proof.
  induction l as [|x l IH]; intros Hall; cbn; [done|].
  rewrite (Hall x) by apply list_elem_of_here.
  apply IH. intros y Hy. apply Hall. by apply list_elem_of_further.
Qed.

Lemma availableSlots_elem (booked : list (option string)) (s : string) :
  s ∈ availableSlots booked <-> s ∈ allTimeSlots ∧ Some s ∉ booked.
Proof.
  unfold availableSlots.
  rewrite list_elem_of_In, filter_In, <- list_elem_of_In, negb_true_iff.
  rewrite <- includes_spec, not_true_iff_false. done.
Qed.

Lemma bookedTimes_elem (db : store) (doctorId : string) (date : option Z)
    (time : option string) :
  time ∈ bookedTimes timestamp db doctorId date
  <-> ∃ app, app ∈ Appointment db
             ∧ get app "doctorId" = Some doctorId
             ∧ date_key timestamp app = date
             ∧ get app "time" = time.
Proof.
  unfold bookedTimes, find. cbn zeta. rewrite list_elem_of_In, in_map_iff.
  split.
  - intros (app & Htime & Hin). apply filter_In in Hin as [Hin Hdate].
    apply filter_In in Hin as [Hin Hdoctor].
    exists app. split; [by apply list_elem_of_In|].
    unfold matches in Hdoctor. cbn [forallb fst snd] in Hdoctor.
    rewrite andb_true_r in Hdoctor.
    apply bool_decide_eq_true in Hdoctor, Hdate. done.
  - intros (app & Hin & Hdoctor & Hdate & Htime).
    exists app. split; [done|].
    apply filter_In. split; [|by apply bool_decide_eq_true].
    apply filter_In. split; [by apply list_elem_of_In|].
    unfold matches. cbn [forallb fst snd]. rewrite andb_true_r.
    by apply bool_decide_eq_true.
Qed.

(** C7: for an authenticated doctor and a date, the route answers with the
    canonical slots that no appointment of that doctor on that date
    books, in the order of the canonical list: a sublist of the eight
    canonical slots, all eight in canonical order when none of them is
    booked, and the empty list when all eight are booked. *)
Theorem available_slots_result (e : env) (now : Z) (db : store)
    (header : option bearer) (date : option string) (caller : claims)
    (doctor : string) (instant : option Z) :
  doctor_auth hs256 e now header = inr caller ->
  castObjectId (user_id caller) = Some doctor ->
  cast_date timestamp date = Some instant ->
  let booked (s : string) :=
    ∃ app, app ∈ Appointment db
           ∧ get app "doctorId" = Some doctor
           ∧ date_key timestamp app = instant
           ∧ get app "time" = Some s in
  ∃ slots,
    doctor_available_slots hs256 castObjectId timestamp CastError e now db header date
    = res 200 (JStrings slots)
    ∧ sublist slots allTimeSlots
    ∧ (∀ s, s ∈ slots <-> s ∈ allTimeSlots ∧ ¬ booked s)
    ∧ ((∀ s, s ∈ allTimeSlots -> ¬ booked s) ->
       slots = ["10:00 AM"; "11:00 AM"; "12:00 PM"; "1:00 PM";
                "2:00 PM"; "3:00 PM"; "4:00 PM"; "5:00 PM"])
    ∧ ((∀ s, s ∈ allTimeSlots -> booked s) -> slots = []).
Proof.
  intros Hauth Hcaller Hdate booked.
  assert (Hbooked : ∀ s,
             booked s <-> Some s ∈ bookedTimes timestamp db doctor instant).
  { intros s. symmetry. apply bookedTimes_elem. }
  exists (availableSlots (bookedTimes timestamp db doctor instant)).
  split.
  { unfold doctor_available_slots. by rewrite Hauth, Hcaller, Hdate. }
  split; [apply filter_keeps_order|].
  split; [intros s; rewrite Hbooked; apply availableSlots_elem|].
  split.
  - intros Hfree. unfold availableSlots.
    rewrite filter_everything; [done|].
    intros s Hs. apply negb_true_iff, not_true_iff_false.
    rewrite includes_spec, <- Hbooked. by apply Hfree.
  - intros Hfull. unfold availableSlots. apply filter_nothing.
    intros s Hs. apply negb_false_iff, includes_spec, Hbooked. by apply Hfull.
Qed.

(** *** Projections and profiles *)

Lemma select_only_props (ks : list string) (d : document) (k : string) :
  props (select_only ks d) !! k = if decide (k ∈ ks) then props d !! k else None.
Proof.
  unfold select_only. cbn [props]. rewrite map_lookup_filter.
  destruct (props d !! k) as [v|] eqn:Hk; cbn; [|by destruct (decide _)].
  destruct (decide (k ∈ ks)) as [Hin|Hout].
  - by rewrite option_guard_True.
  - by rewrite option_guard_False.
Qed.

Lemma select_without_password (d : document) :
  get (select_without "password" d) "password" = None.
Proof. unfold get, select_without. cbn. apply lookup_delete_eq. Qed.

Lemma delete_property_password (d : document) :
  get (delete_property "password" (toObject d)) "password" = None.
Proof. unfold get, delete_property. cbn. apply lookup_delete_eq. Qed.

(** C9: GET /doctor/all answers every request, whatever its Authorization
    header, with one object per stored doctor, in order, carrying the
    doctor's [_id] and of its properties exactly [firstName], [lastName]
    and [specialty]. *)
Theorem doctor_all_is_public (e : env) (now : Z) (db : store)
    (header : option bearer) :
  doctor_all e now db header
  = res 200 (JDocuments
               (map (select_only ["firstName"; "lastName"; "specialty"]) (Doctor db)))
  ∧ doctor_all e now db header = doctor_all e now db None
  ∧ ∃ doctors,
      body (doctor_all e now db header) = JDocuments doctors
      ∧ length doctors = length (Doctor db)
      ∧ ∀ i d, Doctor db !! i = Some d ->
          ∃ d', doctors !! i = Some d'
                ∧ _id d' = _id d
                ∧ ∀ k, props d' !! k
                       = if decide (k ∈ ["firstName"; "lastName"; "specialty"])
                         then props d !! k else None.
Proof.
  assert (Heq : doctor_all e now db header
                = res 200 (JDocuments
                    (map (select_only ["firstName"; "lastName"; "specialty"])
                       (Doctor db)))).
  { unfold doctor_all. by rewrite find_all. }
  split; [exact Heq|]. split; [done|].
  eexists. split; [by rewrite Heq|]. split; [apply length_map|].
  intros i d Hd.
  exists (select_only ["firstName"; "lastName"; "specialty"] d).
  split.
  - change (map ?f ?l) with (f <$> l). by rewrite list_lookup_fmap, Hd.
  - split; [done|]. intros k. apply select_only_props.
Qed.

Lemma doctor_get_profile_object (e : env) (now : Z) (db : store)
    (header : option bearer) :
  let r := doctor_get_profile hs256 e now db header in
  status r = 200 ->
  ∃ o, returned_object r = Some o ∧ get o "password" = None.
Proof.
  cbn zeta. unfold doctor_get_profile.
  destruct (doctor_auth hs256 e now header) as [r|user] eqn:Hauth.
  - unfold doctor_auth in Hauth.
    repeat match type of Hauth with
           | context [match ?x with _ => _ end] => destruct x
           end; by inversion Hauth.
  - destruct (findById (user_id user) (Doctor db)) as [d|]; cbn; [|done].
    intros _. eexists. split; [done|]. apply select_without_password.
Qed.

Lemma admin_auth_refusal (e : env) (now : Z) (header : option bearer) (r : response) :
  admin_auth hs256 e now header = inl r -> status r = 401.
Proof.
  unfold admin_auth. intros Hauth.
  repeat match type of Hauth with
         | context [match ?x with _ => _ end] => destruct x
         | context [if ?b then _ else _] => destruct b
         end; by inversion Hauth.
Qed.

Lemma doctor_auth_refusal (e : env) (now : Z) (header : option bearer) (r : response) :
  doctor_auth hs256 e now header = inl r -> status r = 401.
Proof.
  unfold doctor_auth. intros Hauth.
  repeat match type of Hauth with
         | context [match ?x with _ => _ end] => destruct x
         end; by inversion Hauth.
Qed.

Lemma admin_get_profile_object (e : env) (now : Z) (db : store)
    (header : option bearer) :
  let r := admin_get_profile hs256 e now db header in
  status r = 200 ->
  ∃ o, returned_object r = Some o ∧ get o "password" = None.
Proof.
  cbn zeta. unfold admin_get_profile.
  destruct (admin_auth hs256 e now header) as [r|user] eqn:Hauth.
  - apply admin_auth_refusal in Hauth. by rewrite Hauth.
  - destruct (findById (user_id user) (Admin db)) as [d|]; cbn; [|done].
    intros _. eexists. split; [done|]. apply select_without_password.
Qed.

Lemma doctor_put_profile_object (e : env) (now : Z) (db : store)
    (header : option bearer) (req_body : gmap string string) :
  let r := (doctor_put_profile hs256 e now db header req_body).1 in
  status r = 200 ->
  ∃ o, returned_object r = Some o ∧ get o "password" = None.
Proof.
  cbn zeta. unfold doctor_put_profile.
  destruct (doctor_auth hs256 e now header) as [r|user] eqn:Hauth.
  - apply doctor_auth_refusal in Hauth. cbn [fst]. by rewrite Hauth.
  - destruct (findById (user_id user) (Doctor db)) as [d|]; cbn [fst]; [|done].
    destruct (save_loaded _ _ _); cbn [fst]; [|done].
    intros _. eexists. split; [done|]. apply delete_property_password.
Qed.

Lemma admin_put_profile_object (e : env) (now : Z) (db : store)
    (header : option bearer) (req_body : gmap string string) :
  let r := (admin_put_profile hs256 e now db header req_body).1 in
  status r = 200 ->
  ∃ o, returned_object r = Some o ∧ get o "password" = None.
Proof.
  cbn zeta. unfold admin_put_profile.
  destruct (admin_auth hs256 e now header) as [r|user] eqn:Hauth.
  - apply admin_auth_refusal in Hauth. cbn [fst]. by rewrite Hauth.
  - destruct (findById (user_id user) (Admin db)) as [d|]; cbn [fst]; [|done].
    destruct (save_loaded _ _ _); cbn [fst]; [|done].
    intros _. eexists. split; [done|]. apply delete_property_password.
Qed.

(** C10: every successful (status 200) answer of GET and PUT on
    /doctor/profile and /admin/profile carries a profile object, and that
    object has no [password] property, whatever the store holds. *)
Theorem profiles_never_return_password (e : env) (now : Z) (db : store)
    (header : option bearer) (req_body : gmap string string) (r : response) :
  r ∈ [ doctor_get_profile hs256 e now db header;
        (doctor_put_profile hs256 e now db header req_body).1;
        admin_get_profile hs256 e now db header;
        (admin_put_profile hs256 e now db header req_body).1 ] ->
  status r = 200 ->
  ∃ o, returned_object r = Some o
       ∧ get o "password" = None
       ∧ ¬ has_property o "password".
Proof.
  intros Hr Hok.
  assert (∃ o, returned_object r = Some o ∧ get o "password" = None)
    as (o & Ho & Hpw).
  { repeat (apply elem_of_cons in Hr as [-> | Hr]).
    - by apply doctor_get_profile_object.
    - by apply doctor_put_profile_object.
    - by apply admin_get_profile_object.
    - by apply admin_put_profile_object.
    - by apply elem_of_nil in Hr. }
  exists o. split; [done|]. split; [done|].
  unfold has_property. change (props o !! "password") with (get o "password").
  rewrite Hpw. by intros [? ?].
Qed.

End Properties.

(** *** The seeder *)

Lemma findOne_Some (q : filter_doc) (coll : list document) (d : document) :
  findOne q coll = Some d -> d ∈ coll ∧ matches q d = true.
Proof.
  intros [Hin Hm]%find_some. split; [by apply list_elem_of_In | done].
Qed.

Lemma findOne_None (q : filter_doc) (coll : list document) :
  findOne q coll = None -> ∀ d, d ∈ coll -> matches q d = false.
Proof.
  intros Hnone d Hd%list_elem_of_In. by apply (find_none _ _ Hnone).
Qed.

Lemma findOne_snoc (q : filter_doc) (coll : list document) (d : document) :
  (∀ d', d' ∈ coll -> matches q d' = false) ->
  matches q d = true ->
  findOne q (coll ++ [d]) = Some d.
Proof.
  unfold findOne. intros Hno Hd.
  induction coll as [|d' coll IH]; cbn [app List.find]; [by rewrite Hd|].
  rewrite (Hno d') by apply list_elem_of_here.
  apply IH. intros x Hx. apply Hno. by apply list_elem_of_further.
Qed.

Lemma matches_email (email : string) (d : document) :
  matches [("email", Some email)] d = true <-> get d "email" = Some email.
Proof.
  unfold matches. cbn [forallb fst snd].
  by rewrite andb_true_r, bool_decide_eq_true.
Qed.

Lemma find_email_unique (email : string) (coll : list document) :
  unique_email coll ->
  (length (find [("email", Some email)] coll) <= 1)%nat.
Proof.
  unfold unique_email, find.
  induction coll as [|d coll IH]; cbn [map List.filter]; intros Hnd; [cbn; lia|].
  apply NoDup_cons in Hnd as [Hd Hnd].
  destruct (matches [("email", Some email)] d) eqn:Hm; [|by apply IH].
  apply matches_email in Hm.
  rewrite filter_nothing; [cbn; lia|].
  intros d' Hd'. apply not_true_is_false. intros Hm'%matches_email.
  apply Hd. rewrite Hm, <- Hm'.
  apply list_elem_of_In, (in_map (fun d => get d "email")).
  by apply list_elem_of_In.
Qed.

Lemma find_email_found (email : string) (coll : list document) (d : document) :
  findOne [("email", Some email)] coll = Some d ->
  (1 <= length (find [("email", Some email)] coll))%nat.
Proof.
  intros [Hin Hm]%findOne_Some.
  assert (Hd : In d (find [("email", Some email)] coll)).
  { apply filter_In. split; [by apply list_elem_of_In | done]. }
  destruct (find [("email", Some email)] coll); [done | cbn; lia].
Qed.

Lemma save_new_seed (oid : string) (coll : list document) :
  findOne [("email", Some seed_email)] coll = None ->
  fresh oid coll ->
  save_new Admin_unique (seed_admin oid) coll = Some (coll ++ [seed_admin oid]).
Proof.
  intros Hnone Hfresh. unfold save_new.
  assert (Hid : existsb (fun d' => String.eqb (_id d') (_id (seed_admin oid))) coll
                = false).
  { apply not_true_is_false. intros (d & Hd & Heq%String.eqb_eq)%existsb_exists.
    by apply (Hfresh d); [apply list_elem_of_In|]. }
  assert (Hdup : duplicate_key Admin_unique (seed_admin oid) coll = false).
  { apply not_true_is_false. unfold duplicate_key.
    intros (d & Hd & [_ Hk]%andb_true_iff)%existsb_exists.
    cbn [Admin_unique existsb] in Hk. rewrite orb_false_r in Hk.
    apply bool_decide_eq_true in Hk.
    change (get (seed_admin oid) "email") with (Some seed_email) in Hk.
    apply matches_email in Hk.
    rewrite (findOne_None _ _ Hnone d) in Hk; [done|by apply list_elem_of_In]. }
  by rewrite Hid, Hdup.
Qed.

(** A call of the seeder, on a store whose admin emails are unique and
    with a new object id for the record it may create, leaves exactly one
    admin with the seed email: a store that has one is returned as it is,
    and a store that has none gets one more admin record, whose [password]
    is the seed password itself. *)
Lemma createAdmin_seeds_one_admin (oid : string) (db : store) :
  unique_email (Admin db) ->
  fresh oid (Admin db) ->
  countDocuments [("email", Some "admin@gmail.com")] (Admin (createAdmin oid db)) = 1%nat
  ∧ (is_Some (findOne [("email", Some "admin@gmail.com")] (Admin db)) ->
     createAdmin oid db = db)
  ∧ (findOne [("email", Some "admin@gmail.com")] (Admin db) = None ->
     createAdmin oid db
     = Store (User db) (Doctor db) (Admin db ++ [seed_admin oid]) (Appointment db)
     ∧ get (seed_admin oid) "email" = Some "admin@gmail.com"
     ∧ get (seed_admin oid) "password" = Some "admin123").
Proof.
  intros Huniq Hfresh. change "admin@gmail.com" with seed_email.
  unfold createAdmin, countDocuments.
  destruct (findOne [("email", Some seed_email)] (Admin db)) as [existing|] eqn:Hfind.
  - split; [|split; [done|intros [=]]].
    pose proof (find_email_unique seed_email _ Huniq).
    pose proof (find_email_found _ _ _ Hfind). lia.
  - rewrite (save_new_seed oid _ Hfind Hfresh). cbn [Admin].
    split; [|split; [by intros [? [=]]|done]].
    unfold find. rewrite List.filter_app, List.length_app.
    rewrite (filter_nothing _ (Admin db)) by by apply findOne_None.
    reflexivity.
Qed.

(** C8: the seeder is not run at process start.  On a store without an
    admin of the seed email, a call of [createAdmin] would leave exactly
    one, with the seed password stored as it is; but [server.js] only
    imports the function, so after the start of the server the store is
    as it was, it holds no admin with the seed email, and a login of the
    seed account is refused. *)
Theorem server_start_skips_the_seeder (hs256 : string -> claims -> string)
    (bcrypt_compare : string -> string -> bool) (e : env) (now : Z) (db : store)
    (oid : string) (req_body : gmap string string) :
  unique_email (Admin db) ->
  fresh oid (Admin db) ->
  findOne [("email", Some "admin@gmail.com")] (Admin db) = None ->
  req_body !! "email" = Some "admin@gmail.com" ->
  (countDocuments [("email", Some "admin@gmail.com")] (Admin (createAdmin oid db))
   = 1%nat
   ∧ findOne [("email", Some "admin@gmail.com")] (Admin (createAdmin oid db))
     = Some (seed_admin oid)
   ∧ get (seed_admin oid) "password" = Some "admin123")
  ∧ server_start db = db
  ∧ countDocuments [("email", Some "admin@gmail.com")] (Admin (server_start db))
    = 0%nat
  ∧ admin_login hs256 bcrypt_compare e now (server_start db) req_body
    = res 400 (JError "Invalid credentials").
Proof.
  intros Huniq Hfresh Hnone Hemail.
  destruct (createAdmin_seeds_one_admin oid db Huniq Hfresh) as (Hone & _ & Hnew).
  destruct (Hnew Hnone) as (Hstore & _ & Hpassword).
  split; [split; [exact Hone|split; [|exact Hpassword]]|].
  { rewrite Hstore. cbn [Admin].
    apply findOne_snoc; [by apply findOne_None|done]. }
  split; [done|]. unfold server_start. split.
  - unfold countDocuments, find.
    rewrite filter_nothing; [done|]. by apply findOne_None.
  - unfold admin_login. rewrite Hemail. by rewrite Hnone.
Qed.

(** ** The handlers at work on the demo store *)

(** The second appointment of the demo store is not the first doctor's. *)
Lemma demo_not_own : not_own_appointment demo_db "64a0000000000000000000e2"
    "64a0000000000000000000d1".
Proof.
  intros a Ha Hid.
  repeat (apply elem_of_cons in Ha as [-> | Ha]); try discriminate Hid.
  - vm_compute. discriminate.
  - by apply elem_of_nil in Ha.
Qed.

(** C1, counterexample: three complete login requests of the demo store
    fail for the three causes and receive three different responses. *)
Lemma login_failures_are_distinguishable :
  let login := login demo_hs256 demo_compare demo_env 1000 demo_db in
  let unknown := credentials "nobody@clinic" "ann-pw" "doctor" in
  let unset := credentials "bob@clinic" "bob-pw" "doctor" in
  let wrong := credentials "ann@clinic" "wrong" "doctor" in
  fails_authentication demo_compare demo_db unknown NoSuchUser
  ∧ fails_authentication demo_compare demo_db unset NoPassword
  ∧ fails_authentication demo_compare demo_db wrong HashMismatch
  ∧ login unknown = res 400 (JError "Invalid email or role")
  ∧ login unset = res 400 (JError "Invalid user data")
  ∧ login wrong = res 400 (JError "Invalid password")
  ∧ login unknown ≠ login unset
  ∧ login unset ≠ login wrong
  ∧ login unknown ≠ login wrong.
Proof.
  cbn zeta.
  split; [apply fails_no_user; [repeat split|]; reflexivity|].
  split; [eapply fails_no_password; [repeat split| |]; reflexivity|].
  split; [eapply fails_mismatch; [repeat split| | | | |]; reflexivity|].
  repeat split; try reflexivity; vm_compute; discriminate.
Qed.

(** A wrong password for the first doctor of the demo store. *)
Lemma login_failure_response_witness :
  fails_authentication demo_compare demo_db
    (credentials "ann@clinic" "wrong" "doctor") HashMismatch
  ∧ login demo_hs256 demo_compare demo_env 1000 demo_db
      (credentials "ann@clinic" "wrong" "doctor")
    = res 400 (JError "Invalid password")
  ∧ status (login demo_hs256 demo_compare demo_env 1000 demo_db
              (credentials "ann@clinic" "wrong" "doctor")) = 400.
Proof.
  assert (Hf : fails_authentication demo_compare demo_db
                 (credentials "ann@clinic" "wrong" "doctor") HashMismatch).
  { eapply fails_mismatch; [repeat split| | | | |]; reflexivity. }
  split; [exact Hf|].
  exact (login_failure_response demo_hs256 demo_compare demo_env 1000 demo_db
           (credentials "ann@clinic" "wrong" "doctor") HashMismatch Hf).
Defined.

(** A token signed for the first doctor at clock 1000 and read at clock 2000. *)
Lemma token_round_trip_witness :
  truthy (Some "s3cret") = true
  ∧ ∃ tok decoded,
      jwt_sign demo_hs256 "64a0000000000000000000d1" None (Some "s3cret") 86400 1000 =
          Some tok
      ∧ exp (payload tok) = 1000 + 86400
      ∧ user_id decoded = "64a0000000000000000000d1" ∧ user_role decoded = None
      ∧ (2000 < exp (payload tok) ->
           jwt_verify demo_hs256 (Jws tok) (Some "s3cret") 2000 = Some decoded
           ∧ doctor_auth demo_hs256 (Env (Some "s3cret")) 2000 (Some (Jws tok))
             = inr decoded)
      ∧ (exp (payload tok) <= 2000 ->
           jwt_verify demo_hs256 (Jws tok) (Some "s3cret") 2000 = None
           ∧ doctor_auth demo_hs256 (Env (Some "s3cret")) 2000 (Some (Jws tok))
             = inl (res 401 (JError "Invalid token"))).
Proof.
  split; [reflexivity|].
  apply (token_round_trip demo_hs256 "64a0000000000000000000d1" None (Some "s3cret") 86400
      1000 2000).
  reflexivity.
Defined.

(** The admin of the demo store logs in through both paths. *)
Lemma login_paths_token_lifetimes_witness :
  ∃ tok24 tok1,
    issued_token (login demo_hs256 demo_compare demo_env 1000 demo_db
                    (credentials "root@clinic" "root-pw" "admin")) = Some tok24
    ∧ issued_token (admin_login demo_hs256 demo_compare demo_env 1000 demo_db
                      (credentials "root@clinic" "root-pw" "admin")) = Some tok1
    ∧ user_id (payload tok24) = "64a0000000000000000000a1" ∧ user_role (payload tok24) =
        Some "admin"
    ∧ user_id (payload tok1) = "64a0000000000000000000a1" ∧ user_role (payload tok1) =
        Some "admin"
    ∧ lifetime tok24 = 24 * 3600 ∧ lifetime tok1 = 1 * 3600.
Proof.
  refine (proj2 (proj2
    (login_paths_token_lifetimes demo_hs256 demo_compare demo_env 1000 demo_db
       (credentials "root@clinic" "root-pw" "admin")
       "root@clinic" "root-pw" "$root-pw"
       demo_admin_record
       _ _ _ _ _ _ _ _ _ _ _))); reflexivity.
Defined.

(** C4, counterexample: the patient of the demo store logs in through
    POST /api/login, and GET /admin/total-doctors answers the token it gets,
    whose role is not admin, with the number of doctors. *)
Lemma total_doctors_answers_a_patient :
  login demo_hs256 demo_compare demo_env 1000 demo_db
    (credentials "pat@clinic" "pat-pw" "patient")
  = res 200 (JTokenRole demo_patient_token (Some "patient"))
  ∧ admin_auth demo_hs256 demo_env 2000 (Some (Jws demo_patient_token))
    = inr (Claims "64a0000000000000000000c1" (Some "patient") 1000 87400)
  ∧ Some "patient" ≠ Some "admin"
  ∧ length (Doctor demo_db) = 2%nat
  ∧ admin_total_doctors demo_hs256 demo_env 2000 demo_db (Some (Jws demo_patient_token))
    = res 200 (JTotalDoctors 2).
Proof. repeat split; try reflexivity. discriminate. Qed.

(** The patient token of the demo store at clock 2000. *)
Lemma total_doctors_for_any_role_witness :
  admin_total_doctors demo_hs256 demo_env 2000 demo_db (Some (Jws demo_patient_token))
  = res 200 (JTotalDoctors (length (Doctor demo_db)))
  ∧ ∀ header r,
      admin_auth demo_hs256 demo_env 2000 header = inl r ->
      admin_total_doctors demo_hs256 demo_env 2000 demo_db header = r ∧ status r = 401.
Proof.
  apply (total_doctors_for_any_role demo_hs256 demo_env 2000 demo_db
           "64a0000000000000000000c1" (Some "patient") 86400 1000 demo_patient_token).
  - reflexivity.
  - discriminate.
  - lia.
Defined.

(** C5, counterexample: the first doctor of the demo store patches the
    appointment of the second doctor with a status outside the valid set,
    and is answered 400, not 404; it patches an appointment id that is no
    object id, which no stored appointment has, with a valid status, and
    is answered 500, not 404. *)
Lemma patch_foreign_appointment_bad_status :
  let patch :=
    doctor_patch_appointment demo_hs256 demo_cast demo_CastError demo_env 2000 demo_db
      (Some (Jws demo_doctor_token)) in
  doctor_auth demo_hs256 demo_env 2000 (Some (Jws demo_doctor_token))
  = inr (Claims "64a0000000000000000000d1" None 1000 87400)
  ∧ not_own_appointment demo_db "64a0000000000000000000e2" "64a0000000000000000000d1"
  ∧ (patch "64a0000000000000000000e2" "postponed").1
    = res 400 (JError "Invalid status")
  ∧ status (patch "64a0000000000000000000e2" "postponed").1 ≠ 404
  ∧ (∀ a, a ∈ Appointment demo_db -> _id a ≠ "next")
  ∧ demo_cast "next" = None
  ∧ (patch "next" "completed").1
    = res 500 (JErrorMessage "Server error"
                 (demo_CastError "ObjectId" "next" "_id" "Appointment"))
  ∧ status (patch "next" "completed").1 ≠ 404.
Proof.
  cbn zeta.
  split; [reflexivity|]. split; [exact demo_not_own|].
  split; [reflexivity|]. split; [vm_compute; discriminate|].
  split.
  { intros a Ha.
    repeat (apply elem_of_cons in Ha as [-> | Ha]); try discriminate.
    by apply elem_of_nil in Ha. }
  split; [reflexivity|]. split; [reflexivity|]. vm_compute. discriminate.
Qed.

(** The first doctor marks the second doctor's appointment completed. *)
Lemma patch_foreign_appointment_witness :
  doctor_patch_appointment demo_hs256 demo_cast demo_CastError demo_env 2000 demo_db
    (Some (Jws demo_doctor_token)) "64a0000000000000000000e2" "completed"
  = (res 404 (JError "Appointment not found or unauthorized"), demo_db)
  ∧ status (doctor_patch_appointment demo_hs256 demo_cast demo_CastError demo_env 2000
    demo_db
              (Some (Jws demo_doctor_token)) "64a0000000000000000000e2"
              "completed").1 ≠ 403.
Proof.
  apply (patch_foreign_appointment demo_hs256 demo_cast demo_CastError demo_env 2000 demo_db
           (Some (Jws demo_doctor_token))
           (Claims "64a0000000000000000000d1" None 1000 87400)
           "64a0000000000000000000e2" "completed").
  - reflexivity.
  - intros appointment doctor [= <-] [= <-]. exact demo_not_own.
Defined.

(** The first doctor sets its own appointment to an unknown status. *)
Lemma patch_invalid_status_witness :
  ("postponed" ∉ ["scheduled"; "completed"; "cancelled"])
  ∧ (doctor_patch_appointment demo_hs256 demo_cast demo_CastError demo_env 2000 demo_db
       (Some (Jws demo_doctor_token)) "64a0000000000000000000e1" "postponed").2 = demo_db
  ∧ (doctor_patch_appointment demo_hs256 demo_cast demo_CastError demo_env 2000 demo_db
       (Some (Jws demo_doctor_token)) "64a0000000000000000000e1" "postponed").1
    = res 400 (JError "Invalid status").
Proof.
  assert (Hbad : "postponed" ∉ ["scheduled"; "completed"; "cancelled"]).
  { apply (bool_decide_eq_false_1 _). reflexivity. }
  split; [exact Hbad|].
  destruct (patch_invalid_status demo_hs256 demo_cast demo_CastError demo_env 2000 demo_db
              (Some (Jws demo_doctor_token)) "64a0000000000000000000e1" "postponed" Hbad)
    as (Hdb & Hres & _).
  split; [exact Hdb|]. apply (Hres (Claims "64a0000000000000000000d1" None 1000 87400)).
      reflexivity.
Defined.

(** The slots of the first doctor on a day with one booking; the request
    writes the day, the store the day and the time of its midnight. *)
Lemma available_slots_result_witness :
  let booked (s : string) :=
    ∃ app, app ∈ Appointment demo_db
           ∧ get app "doctorId" = Some "64a0000000000000000000d1"
           ∧ date_key demo_timestamp app = Some 1736467200000
           ∧ get app "time" = Some s in
  ∃ slots,
    doctor_available_slots demo_hs256 demo_cast demo_timestamp demo_CastError demo_env
      2000 demo_db
      (Some (Jws demo_doctor_token)) (Some "2025-01-10")
    = res 200 (JStrings slots)
    ∧ sublist slots allTimeSlots
    ∧ (∀ s, s ∈ slots <-> s ∈ allTimeSlots ∧ ¬ booked s)
    ∧ ((∀ s, s ∈ allTimeSlots -> ¬ booked s) ->
       slots = ["10:00 AM"; "11:00 AM"; "12:00 PM"; "1:00 PM";
                "2:00 PM"; "3:00 PM"; "4:00 PM"; "5:00 PM"])
    ∧ ((∀ s, s ∈ allTimeSlots -> booked s) -> slots = []).
Proof.
  apply (available_slots_result demo_hs256 demo_cast demo_timestamp demo_CastError
    demo_env 2000
           demo_db (Some (Jws demo_doctor_token)) (Some "2025-01-10")
           (Claims "64a0000000000000000000d1" None 1000 87400)
           "64a0000000000000000000d1" (Some 1736467200000)); reflexivity.
Defined.

(** Starting the server on the demo store, which has no admin with the
    seed email. *)
Lemma server_start_skips_the_seeder_witness :
  (countDocuments [("email", Some "admin@gmail.com")]
     (Admin (createAdmin "64a0000000000000000000a2" demo_db)) = 1%nat
   ∧ findOne [("email", Some "admin@gmail.com")]
       (Admin (createAdmin "64a0000000000000000000a2" demo_db))
     = Some (seed_admin "64a0000000000000000000a2")
   ∧ get (seed_admin "64a0000000000000000000a2") "password" = Some "admin123")
  ∧ server_start demo_db = demo_db
  ∧ countDocuments [("email", Some "admin@gmail.com")] (Admin (server_start demo_db))
    = 0%nat
  ∧ admin_login demo_hs256 demo_compare demo_env 1000 (server_start demo_db)
      (credentials "admin@gmail.com" "admin123" "admin")
    = res 400 (JError "Invalid credentials").
Proof.
  apply (server_start_skips_the_seeder demo_hs256 demo_compare demo_env 1000 demo_db
           "64a0000000000000000000a2"
           (credentials "admin@gmail.com" "admin123" "admin")).
  - apply (bool_decide_eq_true_1 _). reflexivity.
  - intros d Hd. apply list_elem_of_singleton in Hd as ->. discriminate.
  - reflexivity.
  - reflexivity.
Defined.

(** The profile of the first doctor, whose record holds a hash. *)
Lemma profiles_never_return_password_witness :
  ∃ o, returned_object
         (doctor_get_profile demo_hs256 demo_env 2000 demo_db
            (Some (Jws demo_doctor_token))) = Some o
       ∧ get o "password" = None
       ∧ ¬ has_property o "password".
Proof.
  apply (profiles_never_return_password demo_hs256 demo_env 2000 demo_db
           (Some (Jws demo_doctor_token)) ∅).
  - apply list_elem_of_here.
  - reflexivity.
Defined.

(** ** Further properties of the routes *)

Section MoreProperties.

Variable hs256 : string -> claims -> string.
Variable bcrypt_compare : string -> string -> bool.
Variable bcrypt_hash : string -> string -> string.
Variable defaults : string -> gmap string string.
Variable castObjectId : string -> option string.
Variable timestamp : string -> option Z.
Variable toISOString : Z -> string.
Variable CastError : string -> string -> string -> string -> string.
Variable ValidationError : string -> list (string * string) -> string.

(** *** Logging in *)

(** X1: a login request in which the email, the password or the role is
    absent or the empty string is answered 400 'Email, password, and role
    are required', whatever the store and the environment hold. *)
Theorem login_incomplete_request (e : env) (now : Z) (db : store)
    (req_body : gmap string string) :
  ¬ complete req_body ->
  login hs256 bcrypt_compare e now db req_body
  = res 400 (JError "Email, password, and role are required").
Proof.
  intros Hinc. unfold login, complete in *.
  destruct (truthy (req_body !! "email")); [|done].
  destruct (truthy (req_body !! "password")); [|done].
  destruct (truthy (req_body !! "role")); [|done].
  by destruct Hinc.
Qed.

Lemma login_success_inv (e : env) (now : Z) (db : store)
    (req_body : gmap string string) :
  status (login hs256 bcrypt_compare e now db req_body) = 200
  -> ∃ user password hash,
        complete req_body
        ∧ credential_record db (req_body !! "email") (req_body !! "role") = Some user
        ∧ req_body !! "password" = Some password
        ∧ get user "password" = Some hash
        ∧ truthy (Some hash) = true
        ∧ bcrypt_compare password hash = true
        ∧ truthy (JWT_SECRET e) = true
        ∧ ∃ tok,
            login hs256 bcrypt_compare e now db req_body
            = res 200 (JTokenRole tok (get user "role"))
            ∧ jwt_sign hs256 (_id user) (get user "role") (JWT_SECRET e)
                (24 * 3600) now = Some tok
            ∧ payload tok = Claims (_id user) (get user "role") now (now + 24 * 3600).
Proof.
  unfold login. rewrite <- login_lookup.
  destruct (truthy (req_body !! "email")) eqn:He; [|done].
  destruct (truthy (req_body !! "password")) eqn:Hp; [|done].
  destruct (truthy (req_body !! "role")) eqn:Hr; [|done].
  cbn [negb orb].
  destruct (credential_record db _ _) as [user|] eqn:Huser; [|done].
  destruct (truthy (get user "password")) eqn:Hth; [|done].
  cbn [negb]. unfold compare.
  destruct (req_body !! "password") as [password|] eqn:Hpw; [|done].
  destruct (get user "password") as [hash|] eqn:Hhash; [|done].
  destruct (bcrypt_compare password hash) eqn:Hcmp; [|done].
  destruct (truthy (JWT_SECRET e)) eqn:Hs; [|done].
  cbn [negb].
  destruct (jwt_sign hs256 _ _ _ _ _) as [tok|] eqn:Hsign; [|done].
  intros _. exists user, password, hash.
  split; [by unfold complete; rewrite He, Hr, Hpw|].
  do 6 (split; [done|]). exists tok. split; [done|]. split; [exact Hsign|].
  apply jwt_sign_value in Hsign as (s & _ & _ & ->). done.
Qed.

Lemma login_accepts (e : env) (now : Z) (db : store) (req_body : gmap string string)
    (user : document) (password hash : string) :
  complete req_body ->
  credential_record db (req_body !! "email") (req_body !! "role") = Some user ->
  req_body !! "password" = Some password ->
  get user "password" = Some hash ->
  hash ≠ "" ->
  bcrypt_compare password hash = true ->
  truthy (JWT_SECRET e) = true ->
  ∃ tok,
    login hs256 bcrypt_compare e now db req_body
    = res 200 (JTokenRole tok (get user "role"))
    ∧ jwt_sign hs256 (_id user) (get user "role") (JWT_SECRET e) (24 * 3600) now
      = Some tok.
Proof.
  intros (He & Hp & Hr) Hrec Hpw Hhash Hne Hcmp Hs.
  destruct (jwt_sign_total hs256 (_id user) (get user "role") (JWT_SECRET e)
              (24 * 3600) now Hs) as [tok Htok].
  exists tok. split; [|done].
  unfold login. rewrite <- login_lookup. rewrite He, Hp, Hr, Hrec. cbn [negb orb].
  rewrite Hhash, Hpw. cbn [truthy compare].
  rewrite (proj2 (String.eqb_neq _ _) Hne), Hcmp, Hs. cbn [negb].
  change (hours 24) with (24 * 3600). by rewrite Htok.
Qed.

(** X2: POST /api/login answers 200 exactly when the request is complete,
    the collection of the requested role has a record for the email, the
    record has a non-empty password hash that [bcrypt.compare] accepts for
    the supplied password, and the signing secret is configured; the
    answer then carries a token signed for that record's id and role for
    24 hours and repeats the record's role. *)
Theorem login_succeeds_iff (e : env) (now : Z) (db : store)
    (req_body : gmap string string) :
  (status (login hs256 bcrypt_compare e now db req_body) = 200
   <-> ∃ user password hash,
         complete req_body
         ∧ credential_record db (req_body !! "email") (req_body !! "role") = Some user
         ∧ req_body !! "password" = Some password
         ∧ get user "password" = Some hash
         ∧ truthy (Some hash) = true
         ∧ bcrypt_compare password hash = true
         ∧ truthy (JWT_SECRET e) = true)
  ∧ ∀ user password hash,
      complete req_body ->
      credential_record db (req_body !! "email") (req_body !! "role") = Some user ->
      req_body !! "password" = Some password ->
      get user "password" = Some hash ->
      truthy (Some hash) = true ->
      bcrypt_compare password hash = true ->
      truthy (JWT_SECRET e) = true ->
      ∃ tok,
        login hs256 bcrypt_compare e now db req_body
        = res 200 (JTokenRole tok (get user "role"))
        ∧ jwt_sign hs256 (_id user) (get user "role") (JWT_SECRET e)
            (24 * 3600) now = Some tok
        ∧ payload tok = Claims (_id user) (get user "role") now (now + 24 * 3600).
Proof.
  assert (Hif : ∀ user password hash,
             complete req_body ->
             credential_record db (req_body !! "email") (req_body !! "role")
             = Some user ->
             req_body !! "password" = Some password ->
             get user "password" = Some hash ->
             truthy (Some hash) = true ->
             bcrypt_compare password hash = true ->
             truthy (JWT_SECRET e) = true ->
             ∃ tok,
               login hs256 bcrypt_compare e now db req_body
               = res 200 (JTokenRole tok (get user "role"))
               ∧ jwt_sign hs256 (_id user) (get user "role") (JWT_SECRET e)
                   (24 * 3600) now = Some tok
               ∧ payload tok
                 = Claims (_id user) (get user "role") now (now + 24 * 3600)).
  { intros user password hash Hc Hrec Hpw Hhash Hth Hcmp Hs.
    assert (Hne : hash ≠ "").
    { intros ->. discriminate Hth. }
    destruct (login_accepts e now db req_body user password hash
                Hc Hrec Hpw Hhash Hne Hcmp Hs) as (tok & Heq & Hsign).
    exists tok. split; [exact Heq|]. split; [exact Hsign|].
    apply jwt_sign_value in Hsign as (s & _ & _ & ->). done. }
  split; [split|exact Hif].
  - intros Hok. apply login_success_inv in Hok
      as (user & password & hash & Hc & Hrec & Hpw & Hhash & Hth & Hcmp & Hs & _).
    by exists user, password, hash.
  - intros (user & password & hash & Hc & Hrec & Hpw & Hhash & Hth & Hcmp & Hs).
    destruct (Hif user password hash Hc Hrec Hpw Hhash Hth Hcmp Hs)
      as (tok & Heq & _).
    by rewrite Heq.
Qed.

(** X3: the login handler reads one collection only, chosen by the
    requested role: the doctors for [doctor], the admins for [admin], the
    users for every other role.  Records of the other collections never
    decide a login. *)
Theorem login_reads_one_collection (e : env) (now : Z) (db db' : store)
    (req_body : gmap string string) :
  (if bool_decide (req_body !! "role" = Some "doctor") then Doctor db = Doctor db'
   else if bool_decide (req_body !! "role" = Some "admin") then Admin db = Admin db'
   else User db = User db') ->
  login hs256 bcrypt_compare e now db req_body
  = login hs256 bcrypt_compare e now db' req_body.
Proof.
  intros Hsame. unfold login.
  destruct (bool_decide (req_body !! "role" = Some "doctor"));
    [|destruct (bool_decide (req_body !! "role" = Some "admin"))];
    by rewrite Hsame.
Qed.

Lemma matches_id (id : string) (d : document) :
  matches [("_id", Some id)] d = true <-> _id d = id.
Proof.
  unfold matches. cbn [forallb fst snd].
  rewrite andb_true_r, bool_decide_eq_true.
  change (get d "_id") with (Some (_id d)). split; congruence.
Qed.

Lemma findById_Some (id : string) (coll : list document) (d : document) :
  findById id coll = Some d -> d ∈ coll ∧ _id d = id.
Proof. intros [Hin Hm]%findOne_Some. by apply matches_id in Hm. Qed.

Lemma findById_unique (coll : list document) (d : document) :
  unique_id coll -> d ∈ coll -> findById (_id d) coll = Some d.
Proof.
  unfold unique_id, findById, findOne.
  induction coll as [|d' coll IH]; intros Hnd Hin; [by apply elem_of_nil in Hin|].
  cbn [map] in Hnd. apply NoDup_cons in Hnd as [Hfirst Hnd].
  cbn [List.find].
  destruct (matches [("_id", Some (_id d))] d') eqn:Hm.
  - apply matches_id in Hm.
    apply elem_of_cons in Hin as [->|Hin]; [done|].
    exfalso. apply Hfirst. rewrite Hm.
    apply list_elem_of_In, (in_map _id). by apply list_elem_of_In.
  - apply elem_of_cons in Hin as [->|Hin]; [|by apply IH].
    apply not_true_iff_false in Hm. exfalso. apply Hm. by apply matches_id.
Qed.

(** X5: a doctor who logs in and then, before 24 hours have passed, asks
    for GET /doctor/profile with the token gets the very record the login
    found by email, without its password (doctor ids being unique). *)
Theorem login_then_profile (e : env) (now later : Z) (db : store)
    (req_body : gmap string string) (tok : token) (answered : option string) :
  unique_id (Doctor db) ->
  req_body !! "role" = Some "doctor" ->
  login hs256 bcrypt_compare e now db req_body = res 200 (JTokenRole tok answered) ->
  later < now + 24 * 3600 ->
  ∃ doctor,
    findOne [("email", req_body !! "email")] (Doctor db) = Some doctor
    ∧ doctor_get_profile hs256 e later db (Some (Jws tok))
      = res 200 (JDocument (select_without "password" doctor))
    ∧ get (select_without "password" doctor) "password" = None.
Proof.
  intros Huniq Hrole Hlogin Hlater.
  assert (Hok : status (login hs256 bcrypt_compare e now db req_body) = 200)
    by by rewrite Hlogin.
  apply login_success_inv in Hok
    as (user & password & hash & _ & Hrec & _ & _ & _ & _ & _ & tok' & Heq & Hsign & Hpay).
  rewrite Hlogin in Heq. injection Heq as -> ->.
  unfold credential_record in Hrec. rewrite Hrole in Hrec.
  rewrite bool_decide_eq_true_2 in Hrec by done.
  exists user. split; [done|]. split; [|apply select_without_password].
  pose proof (findOne_Some _ _ _ Hrec) as [Hin _].
  unfold doctor_get_profile, doctor_auth.
  rewrite (jwt_verify_own hs256 _ _ _ _ _ later _ Hsign).
  rewrite (proj2 (Z.ltb_lt _ _) Hlater). cbn [user_id].
  by rewrite (findById_unique _ _ Huniq Hin).
Qed.

(** X6: POST /admin/login gives one and the same answer, 400 'Invalid
    credentials', to a request whose email no admin has and to a request
    whose password [bcrypt.compare] rejects for the admin found. *)
Theorem admin_login_failures_alike (e : env) (now : Z) (db : store)
    (unknown wrong : gmap string string) (admin : document) (password hash : string) :
  findOne [("email", unknown !! "email")] (Admin db) = None ->
  findOne [("email", wrong !! "email")] (Admin db) = Some admin ->
  wrong !! "password" = Some password ->
  get admin "password" = Some hash ->
  bcrypt_compare password hash = false ->
  admin_login hs256 bcrypt_compare e now db unknown
  = admin_login hs256 bcrypt_compare e now db wrong
  ∧ admin_login hs256 bcrypt_compare e now db wrong
    = res 400 (JError "Invalid credentials").
Proof.
  intros Hnone Hsome Hpw Hhash Hcmp. unfold admin_login.
  rewrite Hnone, Hsome, Hpw, Hhash. cbn [compare]. by rewrite Hcmp.
Qed.

Lemma admin_login_success_inv (e : env) (now : Z) (db : store)
    (req_body : gmap string string) :
  status (admin_login hs256 bcrypt_compare e now db req_body) = 200
  -> ∃ admin password hash,
        findOne [("email", req_body !! "email")] (Admin db) = Some admin
        ∧ req_body !! "password" = Some password
        ∧ get admin "password" = Some hash
        ∧ bcrypt_compare password hash = true
        ∧ truthy (JWT_SECRET e) = true
        ∧ ∃ tok,
            admin_login hs256 bcrypt_compare e now db req_body = res 200 (JToken tok)
            ∧ jwt_sign hs256 (_id admin) (Some "admin") (JWT_SECRET e) (1 * 3600) now
              = Some tok
            ∧ payload tok = Claims (_id admin) (Some "admin") now (now + 1 * 3600).
Proof.
  unfold admin_login.
  destruct (findOne _ (Admin db)) as [admin|] eqn:Hfind; [|done].
  unfold compare.
  destruct (req_body !! "password") as [password|] eqn:Hpw; [|done].
  destruct (get admin "password") as [hash|] eqn:Hhash; [|done].
  destruct (bcrypt_compare password hash) eqn:Hcmp; [|done].
  destruct (jwt_sign hs256 _ _ _ _ _) as [tok|] eqn:Hsign; [|done].
  intros _. exists admin, password, hash. do 4 (split; [done|]).
  pose proof (jwt_sign_value hs256 _ _ _ _ _ _ Hsign) as (s & _ & Hs & Htok).
  split; [done|]. exists tok. split; [done|]. split; [exact Hsign|]. by subst tok.
Qed.

(** X7: POST /admin/login answers 200 exactly when the first admin with the
    request's email has a password hash that [bcrypt.compare] accepts for
    the supplied password and the signing secret is configured; the
    answer then carries a token signed for that admin's id and the role
    [admin] for one hour, whatever role the record holds. *)
Theorem admin_login_succeeds_iff (e : env) (now : Z) (db : store)
    (req_body : gmap string string) :
  (status (admin_login hs256 bcrypt_compare e now db req_body) = 200
   <-> ∃ admin password hash,
         findOne [("email", req_body !! "email")] (Admin db) = Some admin
         ∧ req_body !! "password" = Some password
         ∧ get admin "password" = Some hash
         ∧ bcrypt_compare password hash = true
         ∧ truthy (JWT_SECRET e) = true)
  ∧ ∀ admin password hash,
      findOne [("email", req_body !! "email")] (Admin db) = Some admin ->
      req_body !! "password" = Some password ->
      get admin "password" = Some hash ->
      bcrypt_compare password hash = true ->
      truthy (JWT_SECRET e) = true ->
      ∃ tok,
        admin_login hs256 bcrypt_compare e now db req_body = res 200 (JToken tok)
        ∧ jwt_sign hs256 (_id admin) (Some "admin") (JWT_SECRET e) (1 * 3600) now
          = Some tok
        ∧ payload tok = Claims (_id admin) (Some "admin") now (now + 1 * 3600).
Proof.
  assert (Hif : ∀ admin password hash,
             findOne [("email", req_body !! "email")] (Admin db) = Some admin ->
             req_body !! "password" = Some password ->
             get admin "password" = Some hash ->
             bcrypt_compare password hash = true ->
             truthy (JWT_SECRET e) = true ->
             ∃ tok,
               admin_login hs256 bcrypt_compare e now db req_body
               = res 200 (JToken tok)
               ∧ jwt_sign hs256 (_id admin) (Some "admin") (JWT_SECRET e)
                   (1 * 3600) now = Some tok
               ∧ payload tok
                 = Claims (_id admin) (Some "admin") now (now + 1 * 3600)).
  { intros admin password hash Hfind Hpw Hhash Hcmp Hs.
    destruct (jwt_sign_total hs256 (_id admin) (Some "admin") (JWT_SECRET e)
                (1 * 3600) now Hs) as [tok Htok].
    exists tok. split; [|split; [exact Htok|]].
    - unfold admin_login. rewrite Hfind, Hpw, Hhash. cbn [compare].
      rewrite Hcmp. change (hours 1) with (1 * 3600). by rewrite Htok.
    - apply jwt_sign_value in Htok as (s & _ & _ & ->). done. }
  split; [split|exact Hif].
  - intros Hok. apply admin_login_success_inv in Hok
      as (admin & password & hash & Hfind & Hpw & Hhash & Hcmp & Hs & _).
    by exists admin, password, hash.
  - intros (admin & password & hash & Hfind & Hpw & Hhash & Hcmp & Hs).
    destruct (Hif admin password hash Hfind Hpw Hhash Hcmp Hs) as (tok & Heq & _).
    by rewrite Heq.
Qed.

(** X8: without a signing secret (unset or empty) nobody gets in: both
    middlewares refuse every request with 401, and neither login route
    ever answers 200. *)
Theorem no_secret_no_access (e : env) (now : Z) (db : store)
    (header : option bearer) (req_body : gmap string string) :
  truthy (JWT_SECRET e) = false ->
  (∃ r, doctor_auth hs256 e now header = inl r ∧ status r = 401)
  ∧ (∃ r, admin_auth hs256 e now header = inl r ∧ status r = 401)
  ∧ status (login hs256 bcrypt_compare e now db req_body) ≠ 200
  ∧ status (admin_login hs256 bcrypt_compare e now db req_body) ≠ 200.
Proof.
  intros Hs.
  assert (Hv : ∀ b, jwt_verify hs256 b (JWT_SECRET e) now = None).
  { intros [s|t]; unfold jwt_verify; destruct (JWT_SECRET e); try done.
    by rewrite Hs. }
  split; [|split; [|split]].
  - unfold doctor_auth. destruct header as [[[|a s]|t]|]; rewrite ?Hv; by eexists.
  - unfold admin_auth. destruct header as [[[|a s]|t]|]; rewrite ?Hv; by eexists.
  - intros (? & ? & ? & _ & _ & _ & _ & _ & _ & Hs' & _)%login_success_inv.
    congruence.
  - intros (? & ? & ? & _ & _ & _ & _ & Hs' & _)%admin_login_success_inv.
    congruence.
Qed.

(** X9: the middleware of [admin.js] is the middleware of [doctor.js] with
    one more check: what it accepts the other accepts with the same decoded
    payload, and what the other accepts it accepts too unless the decoded id
    is empty, which it answers with 401 'Invalid token payload'. *)
Theorem admin_auth_and_doctor_auth (e : env) (now : Z) (header : option bearer) :
  match doctor_auth hs256 e now header with
  | inr decoded =>
      admin_auth hs256 e now header
      = if String.eqb (user_id decoded) ""
        then inl (res 401 (JError "Invalid token payload"))
        else inr decoded
  | inl r => admin_auth hs256 e now header = inl r
  end.
Proof.
  unfold doctor_auth, admin_auth.
  destruct header as [[[|a s]|t]|]; try done;
    by destruct (jwt_verify hs256 _ _ _).
Qed.

(** *** Saving documents *)

Lemma duplicate_key_false (ks : list string) (d : document) (coll : list document) :
  duplicate_key ks d coll = false
  <-> ∀ d', d' ∈ coll -> _id d' ≠ _id d -> ∀ k, k ∈ ks -> get d' k ≠ get d k.
Proof.
  unfold duplicate_key. rewrite <- not_true_iff_false, existsb_exists. split.
  - intros Hno d' Hin Hid k Hk Heq. apply Hno. exists d'.
    split; [by apply list_elem_of_In|].
    apply andb_true_iff. split.
    + by apply negb_true_iff, String.eqb_neq.
    + apply existsb_exists. exists k. split; [by apply list_elem_of_In|].
      by apply bool_decide_eq_true.
  - intros Hall (d' & Hin & [Hid Hk]%andb_true_iff).
    apply negb_true_iff, String.eqb_neq in Hid.
    apply existsb_exists in Hk as (k & Hk & Heq%bool_decide_eq_true).
    by apply (Hall d' (proj2 (list_elem_of_In _ _) Hin) Hid k
                (proj2 (list_elem_of_In _ _) Hk)).
Qed.

Lemma save_new_Some (ks : list string) (d : document) (coll saved : list document) :
  save_new ks d coll = Some saved
  <-> saved = coll ++ [d]
      ∧ fresh (_id d) coll
      ∧ ∀ d', d' ∈ coll -> ∀ k, k ∈ ks -> get d' k ≠ get d k.
Proof.
  unfold save_new, fresh.
  destruct (existsb (fun d' => String.eqb (_id d') (_id d)) coll) eqn:Hid.
  - cbn [orb]. split; [done|]. intros (_ & Hfresh & _). exfalso.
    apply existsb_exists in Hid as (d' & Hin & Heq%String.eqb_eq).
    by apply (Hfresh d'); [apply list_elem_of_In|].
  - cbn [orb].
    assert (Hfresh : ∀ d', d' ∈ coll -> _id d' ≠ _id d).
    { intros d' Hin Heq. apply not_true_iff_false in Hid. apply Hid.
      apply existsb_exists. exists d'. split; [by apply list_elem_of_In|].
      by apply String.eqb_eq. }
    destruct (duplicate_key ks d coll) eqn:Hdup.
    + split; [done|]. intros (_ & _ & Hall). exfalso.
      apply not_false_iff_true in Hdup. apply Hdup, duplicate_key_false.
      intros d' Hin _. by apply Hall.
    + split.
      * intros [= <-]. split; [done|]. split; [done|].
        intros d' Hin. apply (proj1 (duplicate_key_false _ _ _) Hdup d' Hin).
        by apply Hfresh.
      * by intros (-> & _ & _).
Qed.

Lemma unique_id_snoc (coll : list document) (d : document) :
  unique_id coll -> fresh (_id d) coll -> unique_id (coll ++ [d]).
Proof.
  unfold unique_id, fresh. intros Hnd Hfresh.
  rewrite map_app. apply NoDup_app. split; [done|]. split.
  - intros x Hx%list_elem_of_In%in_map_iff Hd.
    destruct Hx as (d' & <- & Hin). apply list_elem_of_singleton in Hd.
    by apply (Hfresh d'); [apply list_elem_of_In|].
  - apply NoDup_singleton.
Qed.

Lemma unique_email_snoc (coll : list document) (d : document) :
  unique_email coll ->
  (∀ d', d' ∈ coll -> get d' "email" ≠ get d "email") ->
  unique_email (coll ++ [d]).
Proof.
  unfold unique_email. intros Hnd Hnew.
  rewrite map_app. apply NoDup_app. split; [done|]. split.
  - intros x Hx%list_elem_of_In%in_map_iff Hd.
    destruct Hx as (d' & <- & Hin). apply list_elem_of_singleton in Hd.
    by apply (Hnew d'); [apply list_elem_of_In|].
  - apply NoDup_singleton.
Qed.

Lemma save_new_keeps_keys (ks : list string) (d : document)
    (coll saved : list document) :
  "email" ∈ ks ->
  save_new ks d coll = Some saved ->
  unique_id coll ∧ unique_email coll ->
  unique_id saved ∧ unique_email saved.
Proof.
  intros Hk (-> & Hfresh & Hall)%save_new_Some [Hid Hem]. split.
  - by apply unique_id_snoc.
  - apply unique_email_snoc; [done|]. intros d' Hin. by apply Hall.
Qed.

Lemma save_loaded_ids (ks : list string) (d : document) (coll saved : list document) :
  save_loaded ks d coll = Some saved -> map _id saved = map _id coll.
Proof.
  unfold save_loaded. destruct (duplicate_key ks d coll); [done|].
  intros [= <-]. rewrite map_map. apply map_ext. intros d'.
  destruct (String.eqb (_id d') (_id d)) eqn:Heq; [|done].
  by apply String.eqb_eq in Heq.
Qed.

Lemma save_loaded_keeps_keys (ks : list string) (d : document)
    (coll saved : list document) :
  "email" ∈ ks ->
  save_loaded ks d coll = Some saved ->
  unique_id coll ∧ unique_email coll ->
  unique_id saved ∧ unique_email saved.
Proof.
  intros Hk Hsave [Hid Hem]. split.
  { unfold unique_id. by rewrite (save_loaded_ids _ _ _ _ Hsave). }
  revert Hsave. unfold save_loaded.
  destruct (duplicate_key ks d coll) eqn:Hdup; [done|]. intros [= <-].
  assert (Hother : ∀ d', d' ∈ coll -> _id d' ≠ _id d ->
                         get d' "email" ≠ get d "email").
  { intros d' Hin Hne. by apply (proj1 (duplicate_key_false _ _ _) Hdup d'). }
  clear Hdup. unfold unique_id, unique_email in *.
  induction coll as [|d' coll IH]; [constructor|].
  cbn [map] in *. apply NoDup_cons in Hid as [Hid1 Hid], Hem as [Hem1 Hem].
  assert (Hrest : ∀ x, x ∈ coll -> _id x ≠ _id d -> get x "email" ≠ get d "email").
  { intros x Hx. apply Hother. by apply list_elem_of_further. }
  apply NoDup_cons. split; [|by apply IH].
  intros Hin%list_elem_of_In%in_map_iff. destruct Hin as (y & Hy & Hin).
  apply in_map_iff in Hin as (x & <- & Hx%list_elem_of_In).
  destruct (String.eqb (_id d') (_id d)) eqn:Hd';
    destruct (String.eqb (_id x) (_id d)) eqn:Hx'.
  - apply String.eqb_eq in Hd', Hx'. apply Hid1. rewrite Hd', <- Hx'.
    apply list_elem_of_In, (in_map _id). by apply list_elem_of_In.
  - apply String.eqb_neq in Hx'. by apply (Hrest x).
  - apply String.eqb_neq in Hd'. symmetry in Hy.
    by apply (Hother d' (list_elem_of_here _ _) Hd').
  - apply Hem1. rewrite <- Hy.
    apply list_elem_of_In, (in_map (fun d => get d "email")). by apply list_elem_of_In.
Qed.

(** *** Adding doctors and admins *)

Lemma pick_lookup (ks : list string) (o : gmap string string) (k : string) :
  pick ks o !! k = if decide (k ∈ ks) then o !! k else None.
Proof.
  unfold pick. rewrite map_lookup_filter.
  destruct (o !! k) as [v|] eqn:Hk; cbn; [|by destruct (decide _)].
  destruct (decide (k ∈ ks)) as [Hin|Hout].
  - by rewrite option_guard_True.
  - by rewrite option_guard_False.
Qed.

Lemma new_document_explicit (name oid : string) (o : gmap string string)
    (k v : string) :
  k ≠ "_id" -> o !! k = Some v -> get (new_document defaults name oid o) k = Some v.
Proof.
  intros Hk Ho. unfold get, new_document. cbn [_id props].
  rewrite (proj2 (String.eqb_neq _ _) Hk). by apply lookup_union_Some_l.
Qed.

(** X10: POST /admin/add-doctor and POST /admin/add-admin answer a token
    the middleware accepts but whose role is not [admin] with 403, and
    write nothing. *)
Theorem add_routes_require_admin (e : env) (now : Z) (db : store)
    (header : option bearer) (user : claims) (req_body : gmap string string)
    (oid salt : string) :
  admin_auth hs256 e now header = inr user ->
  user_role user ≠ Some "admin" ->
  admin_add_doctor hs256 bcrypt_hash defaults e now db header req_body oid salt
  = (Reply 403 (inl (JError "Not authorized to add doctors")), db)
  ∧ admin_add_admin hs256 bcrypt_hash defaults e now db header req_body oid salt
    = (Reply 403 (inl (JError "Not authorized to add admins")), db).
Proof.
  intros Hauth Hrole. unfold admin_add_doctor, admin_add_admin.
  rewrite Hauth. by rewrite (bool_decide_eq_false_2 _ Hrole).
Qed.

Lemma add_doctor_outcome (e : env) (now : Z) (db : store)
    (header : option bearer) (req_body : gmap string string) (oid salt : string) :
  let result :=
    admin_add_doctor hs256 bcrypt_hash defaults e now db header req_body oid salt in
  (code result.1 = 201 ->
   ∃ user password doctor,
     admin_auth hs256 e now header = inr user
     ∧ user_role user = Some "admin"
     ∧ req_body !! "password" = Some password
     ∧ result.2 = Store (User db) (Doctor db ++ [doctor]) (Admin db) (Appointment db)
     ∧ _id doctor = oid
     ∧ get doctor "password" = Some (bcrypt_hash password salt)
     ∧ (∀ k v, k ∈ ["firstName"; "lastName"; "email"; "specialty";
                      "licenseNumber"; "phoneNumber"] ->
               req_body !! k = Some v -> get doctor k = Some v)
     ∧ (∀ d, d ∈ Doctor db ->
             _id d ≠ oid
             ∧ get d "email" ≠ get doctor "email"
             ∧ get d "licenseNumber" ≠ get doctor "licenseNumber"))
  ∧ (code result.1 ≠ 201 -> result.2 = db).
Proof.
  cbn zeta. unfold admin_add_doctor.
  destruct (admin_auth hs256 e now header) as [r|user] eqn:Hauth.
  { apply admin_auth_refusal in Hauth. cbn. split; [lia|done]. }
  destruct (bool_decide (user_role user = Some "admin")) eqn:Hrole;
    cbn [negb]; [|by split].
  apply bool_decide_eq_true in Hrole.
  destruct (req_body !! "password") as [password|] eqn:Hpw; [|by split].
  destruct (save_new Doctor_unique _ (Doctor db)) as [doctors|] eqn:Hsave;
    cbn [fst snd code]; [|by split].
  split; [|done]. intros _.
  apply save_new_Some in Hsave as (-> & Hfresh & Hall).
  eexists user, password, _. do 4 (split; [done|]).
  split; [done|]. split; [|split].
  - apply new_document_explicit; [done|]. apply lookup_insert_eq.
  - intros k v Hk Hv. apply new_document_explicit.
    + intros ->. revert Hk. by rewrite !elem_of_cons, elem_of_nil; intros
        [|[|[|[|[|[|]]]]]].
    + rewrite lookup_insert_ne.
      * rewrite pick_lookup. by rewrite decide_True.
      * intros <-. revert Hk. by rewrite !elem_of_cons, elem_of_nil; intros
          [|[|[|[|[|[|]]]]]].
  - intros d Hd. split; [by apply Hfresh|].
    split; apply (Hall d Hd); unfold Doctor_unique;
      rewrite !elem_of_cons; auto.
Qed.

(** X11: when POST /admin/add-doctor answers 201 the caller's token had the
    role [admin], the store has gained exactly one doctor, at the end of the
    collection, whose password path holds [bcrypt.hash] of the supplied
    password and whose other paths hold what the body supplied, and no
    doctor stored before shares its email or licence number; every other
    answer leaves the store as it was. *)
Theorem add_doctor_effect (e : env) (now : Z) (db : store)
    (header : option bearer) (req_body : gmap string string) (oid salt : string) :
  let result :=
    admin_add_doctor hs256 bcrypt_hash defaults e now db header req_body oid salt in
  (code result.1 = 201 ->
   ∃ user password doctor,
     admin_auth hs256 e now header = inr user
     ∧ user_role user = Some "admin"
     ∧ req_body !! "password" = Some password
     ∧ result.2 = Store (User db) (Doctor db ++ [doctor]) (Admin db) (Appointment db)
     ∧ _id doctor = oid
     ∧ get doctor "password" = Some (bcrypt_hash password salt)
     ∧ (∀ k v, k ∈ ["firstName"; "lastName"; "email"; "specialty";
                      "licenseNumber"; "phoneNumber"] ->
               req_body !! k = Some v -> get doctor k = Some v)
     ∧ (∀ d, d ∈ Doctor db ->
             _id d ≠ oid
             ∧ get d "email" ≠ get doctor "email"
             ∧ get d "licenseNumber" ≠ get doctor "licenseNumber"))
  ∧ (code result.1 ≠ 201 -> result.2 = db).
Proof.
  intros result.
  destruct (add_doctor_outcome e now db header req_body oid salt) as [Hcreated Hother].
  split; [exact Hcreated | exact Hother].
Qed.

(** X12: POST /admin/add-doctor by an admin for an email that a stored
    doctor already has is answered 400 'Email or license number already
    exists', and nothing is written. *)
Theorem add_doctor_duplicate_email (e : env) (now : Z) (db : store)
    (header : option bearer) (user : claims) (req_body : gmap string string)
    (oid salt email : string) (existing : document) :
  admin_auth hs256 e now header = inr user ->
  user_role user = Some "admin" ->
  is_Some (req_body !! "password") ->
  req_body !! "email" = Some email ->
  existing ∈ Doctor db ->
  get existing "email" = Some email ->
  admin_add_doctor hs256 bcrypt_hash defaults e now db header req_body oid salt
  = (Reply 400 (inl (JError "Email or license number already exists")), db).
Proof.
  intros Hauth Hrole [password Hpw] Hemail Hin Hex. unfold admin_add_doctor.
  rewrite Hauth, (bool_decide_eq_true_2 _ Hrole), Hpw. cbn [negb].
  destruct (save_new Doctor_unique _ (Doctor db)) as [doctors|] eqn:Hsave; [|done].
  exfalso. apply save_new_Some in Hsave as (_ & _ & Hall).
  apply (Hall existing Hin "email"); [unfold Doctor_unique; rewrite elem_of_cons; auto|].
  rewrite Hex. symmetry. apply new_document_explicit; [done|].
  rewrite lookup_insert_ne by done. rewrite pick_lookup, decide_True; [done|].
  rewrite !elem_of_cons; auto.
Qed.

(** X13: a doctor added by POST /admin/add-doctor can log in: when the
    route answered 201 for a non-empty email and password, POST /api/login
    on the new store with that email, that password and the role [doctor]
    answers 200 with a token for the new doctor's id, provided
    [bcrypt.compare] accepts the password for the hash [bcrypt.hash] made
    of it, the hash is not empty and the signing secret is configured. *)
Theorem add_doctor_then_login (e : env) (now later : Z) (db : store)
    (header : option bearer) (req_body credentials : gmap string string)
    (oid salt email password : string) :
  let result :=
    admin_add_doctor hs256 bcrypt_hash defaults e now db header req_body oid salt in
  code result.1 = 201 ->
  req_body !! "email" = Some email ->
  req_body !! "password" = Some password ->
  email ≠ "" -> password ≠ "" ->
  bcrypt_hash password salt ≠ "" ->
  bcrypt_compare password (bcrypt_hash password salt) = true ->
  credentials !! "email" = Some email ->
  credentials !! "password" = Some password ->
  credentials !! "role" = Some "doctor" ->
  ∃ tok answered,
    login hs256 bcrypt_compare e later result.2 credentials
    = res 200 (JTokenRole tok answered)
    ∧ user_id (payload tok) = oid
    ∧ exp (payload tok) = later + 24 * 3600.
Proof.
  cbn zeta. intros Hok Hemail Hpw Hne Hpne Hhne Hcmp Hce Hcp Hcr.
  destruct (add_doctor_outcome e now db header req_body oid salt) as [Hcreated _].
  destruct (Hcreated Hok)
    as (user & password' & doctor & Hauth & Hrole & Hpw' & -> & Hid & Hhash & Hset & Hold).
  rewrite Hpw in Hpw'. injection Hpw' as <-.
  assert (Hdoc : get doctor "email" = Some email).
  { apply (Hset "email"); [rewrite !elem_of_cons; auto|done]. }
  assert (Hs : truthy (JWT_SECRET e) = true).
  { unfold admin_auth, jwt_verify in Hauth.
    destruct header as [[[|a s]|t]|]; try done;
      destruct (JWT_SECRET e); try done;
      by destruct (truthy (Some _)). }
  destruct (login_accepts e later
              (Store (User db) (Doctor db ++ [doctor]) (Admin db) (Appointment db))
              credentials doctor password (bcrypt_hash password salt))
    as (tok & Hlogin & Hsign); try done.
  - unfold complete. rewrite Hce, Hcp, Hcr. cbn.
    by rewrite (proj2 (String.eqb_neq _ _) Hne), (proj2 (String.eqb_neq _ _) Hpne).
  - unfold credential_record. rewrite Hcr, Hce.
    rewrite bool_decide_eq_true_2 by done. cbn [Doctor].
    apply findOne_snoc.
    + intros d' Hd'. apply not_true_iff_false. intros Hm%matches_email.
      destruct (Hold d' Hd') as (_ & Hdiff & _). congruence.
    + by apply matches_email.
  - exists tok, (get doctor "role"). split; [done|].
    apply jwt_sign_value in Hsign as (s & _ & _ & ->). by cbn.
Qed.

(** X14: the routes that write doctors and admins, and the seeder, keep
    the ids and the emails of both collections unique. *)
Theorem writers_keep_keys_unique (e : env) (now : Z) (db : store)
    (header : option bearer) (req_body : gmap string string) (oid salt : string)
    (db' : store) :
  unique_id (Doctor db) ∧ unique_email (Doctor db) ->
  unique_id (Admin db) ∧ unique_email (Admin db) ->
  db' ∈ [ (admin_add_doctor hs256 bcrypt_hash defaults e now db header
             req_body oid salt).2;
          (admin_add_admin hs256 bcrypt_hash defaults e now db header
             req_body oid salt).2;
          (doctor_put_profile hs256 e now db header req_body).2;
          (admin_put_profile hs256 e now db header req_body).2;
          createAdmin oid db ] ->
  (unique_id (Doctor db') ∧ unique_email (Doctor db'))
  ∧ (unique_id (Admin db') ∧ unique_email (Admin db')).
Proof.
  intros Hdoc Hadm Hin.
  assert (Hemail_d : "email" ∈ Doctor_unique)
    by (unfold Doctor_unique; rewrite elem_of_cons; auto).
  assert (Hemail_a : "email" ∈ Admin_unique)
    by (unfold Admin_unique; rewrite elem_of_cons; auto).
  repeat (apply elem_of_cons in Hin as [-> | Hin]);
    [| | | | |by apply elem_of_nil in Hin].
  - unfold admin_add_doctor.
    repeat match goal with
           | |- context [match ?x with _ => _ end] => destruct x eqn:?
           | |- context [if ?b then _ else _] => destruct b
           end; cbn [snd Doctor Admin]; try done.
    split; [|done]. eapply save_new_keeps_keys; [exact Hemail_d|eassumption|done].
  - unfold admin_add_admin.
    repeat match goal with
           | |- context [match ?x with _ => _ end] => destruct x eqn:?
           | |- context [if ?b then _ else _] => destruct b
           end; cbn [snd Doctor Admin]; try done.
    split; [done|]. eapply save_new_keeps_keys; [exact Hemail_a|eassumption|done].
  - unfold doctor_put_profile.
    repeat match goal with
           | |- context [match ?x with _ => _ end] => destruct x eqn:?
           end; cbn [snd Doctor Admin]; try done.
    split; [|done]. eapply save_loaded_keeps_keys; [exact Hemail_d|eassumption|done].
  - unfold admin_put_profile.
    repeat match goal with
           | |- context [match ?x with _ => _ end] => destruct x eqn:?
           end; cbn [snd Doctor Admin]; try done.
    split; [done|]. eapply save_loaded_keeps_keys; [exact Hemail_a|eassumption|done].
  - unfold createAdmin.
    repeat match goal with
           | |- context [match ?x with _ => _ end] => destruct x eqn:?
           end; cbn [snd Doctor Admin]; try done.
    split; [done|]. eapply save_new_keeps_keys; [exact Hemail_a|eassumption|done].
Qed.

Lemma add_admin_created (e : env) (now : Z) (db : store)
    (header : option bearer) (req_body : gmap string string) (oid salt : string) :
  code (admin_add_admin hs256 bcrypt_hash defaults e now db header
          req_body oid salt).1 = 201 ->
  ∃ user password admin,
    admin_auth hs256 e now header = inr user
    ∧ user_role user = Some "admin"
    ∧ req_body !! "password" = Some password
    ∧ (admin_add_admin hs256 bcrypt_hash defaults e now db header
         req_body oid salt).2
      = Store (User db) (Doctor db) (Admin db ++ [admin]) (Appointment db)
    ∧ _id admin = oid
    ∧ get admin "password" = Some (bcrypt_hash password salt)
    ∧ (∀ v, req_body !! "email" = Some v -> get admin "email" = Some v)
    ∧ (∀ d, d ∈ Admin db -> get d "email" ≠ get admin "email").
Proof.
  unfold admin_add_admin.
  destruct (admin_auth hs256 e now header) as [r|user] eqn:Hauth.
  { apply admin_auth_refusal in Hauth. cbn. lia. }
  destruct (bool_decide (user_role user = Some "admin")) eqn:Hrole;
    cbn [negb]; [|done].
  apply bool_decide_eq_true in Hrole.
  destruct (req_body !! "password") as [password|] eqn:Hpw; [|done].
  destruct (save_new Admin_unique _ (Admin db)) as [admins|] eqn:Hsave;
    cbn [fst snd code]; [|done].
  intros _. apply save_new_Some in Hsave as (-> & Hfresh & Hall).
  eexists user, password, _. do 4 (split; [done|]).
  split; [done|]. split; [|split].
  - apply new_document_explicit; [done|]. apply lookup_insert_eq.
  - intros v Hv. apply new_document_explicit; [done|].
    rewrite lookup_insert_ne by done. rewrite pick_lookup, decide_True; [done|].
    rewrite !elem_of_cons; auto.
  - intros d Hd. apply (Hall d Hd). unfold Admin_unique. rewrite elem_of_cons; auto.
Qed.

Lemma admin_auth_secret (e : env) (now : Z) (header : option bearer) (user : claims) :
  admin_auth hs256 e now header = inr user -> truthy (JWT_SECRET e) = true.
Proof.
  unfold admin_auth, jwt_verify. intros Hauth.
  destruct header as [[[|a s]|t]|]; try done;
    destruct (JWT_SECRET e); try done;
    by destruct (truthy (Some _)).
Qed.

(** X15: an admin added by POST /admin/add-admin can act as one: when the
    route answered 201 with a non-empty object id, POST /admin/login on the
    new store with the same email and password answers 200 with a token for
    the new admin and the role [admin], and for the hour that follows
    POST /admin/add-doctor answers that token neither 401 nor 403
    (provided [bcrypt.compare] accepts the password for its hash). *)
Theorem add_admin_then_act (e : env) (now later : Z) (db : store)
    (header : option bearer) (req_body credentials : gmap string string)
    (oid salt email password : string) :
  let result :=
    admin_add_admin hs256 bcrypt_hash defaults e now db header req_body oid salt in
  code result.1 = 201 ->
  oid ≠ "" ->
  req_body !! "email" = Some email ->
  req_body !! "password" = Some password ->
  bcrypt_compare password (bcrypt_hash password salt) = true ->
  credentials !! "email" = Some email ->
  credentials !! "password" = Some password ->
  ∃ tok,
    admin_login hs256 bcrypt_compare e later result.2 credentials = res 200 (JToken tok)
    ∧ payload tok = Claims oid (Some "admin") later (later + 1 * 3600)
    ∧ ∀ t db2 doctor_body oid2 salt2,
        t < later + 1 * 3600 ->
        code (admin_add_doctor hs256 bcrypt_hash defaults e t db2 (Some (Jws tok))
                doctor_body oid2 salt2).1 ≠ 401
        ∧ code (admin_add_doctor hs256 bcrypt_hash defaults e t db2 (Some (Jws tok))
                  doctor_body oid2 salt2).1 ≠ 403.
Proof.
  cbn zeta. intros Hok Hoid Hemail Hpw Hcmp Hce Hcp.
  destruct (add_admin_created e now db header req_body oid salt Hok)
    as (user & password' & admin & Hauth & Hrole & Hpw' & -> & Hid & Hhash & Hset & Hold).
  rewrite Hpw in Hpw'. injection Hpw' as <-.
  pose proof (admin_auth_secret _ _ _ _ Hauth) as Hs.
  destruct (jwt_sign_total hs256 (_id admin) (Some "admin") (JWT_SECRET e)
              (hours 1) later Hs) as [tok Htok].
  exists tok.
  assert (Hfind : findOne [("email", Some email)] (Admin db ++ [admin]) = Some admin).
  { apply findOne_snoc.
    - intros d' Hd'. apply not_true_iff_false. intros Hm%matches_email.
      apply (Hold d' Hd'). rewrite Hm. symmetry. by apply Hset.
    - apply matches_email. by apply Hset. }
  split; [|split].
  - unfold admin_login. cbn [Admin]. rewrite Hce, Hfind, Hcp, Hhash.
    cbn [compare]. by rewrite Hcmp, Htok.
  - apply jwt_sign_value in Htok as (s & _ & _ & ->). by rewrite Hid.
  - intros t db2 doctor_body oid2 salt2 Ht.
    unfold admin_add_doctor, admin_auth.
    rewrite (jwt_verify_own hs256 _ _ _ _ _ t _ Htok).
    change (hours 1) with (1 * 3600). rewrite (proj2 (Z.ltb_lt _ _) Ht).
    cbn [user_id user_role]. rewrite Hid, (proj2 (String.eqb_neq _ _) Hoid).
    rewrite bool_decide_eq_true_2 by done. cbn [negb].
    destruct (doctor_body !! "password"); [|by cbn].
    by destruct (save_new _ _ _).
Qed.

(** *** Updating profiles *)

Lemma get_set_path (k : string) (v : option string) (d : document) (k' : string) :
  k ≠ "_id" ->
  get (set_path k v d) k' = if decide (k = k') then v else get d k'.
Proof.
  intros Hk. unfold get, set_path. cbn [_id props].
  destruct (String.eqb k' "_id") eqn:Hid.
  - apply String.eqb_eq in Hid as ->. by rewrite decide_False.
  - apply lookup_partial_alter.
Qed.

Lemma set_path_same (k : string) (d : document) :
  k ≠ "_id" -> set_path k (get d k) d = d.
Proof.
  intros Hk. unfold set_path, get.
  rewrite (proj2 (String.eqb_neq _ _) Hk).
  destruct d as [i p]. cbn. by rewrite partial_alter_self.
Qed.

Lemma unique_email_inj (coll : list document) (d d' : document) :
  unique_email coll -> d ∈ coll -> d' ∈ coll ->
  get d "email" = get d' "email" -> d = d'.
Proof.
  unfold unique_email.
  induction coll as [|x coll IH]; intros Hnd Hd Hd' Heq; [by apply elem_of_nil in Hd|].
  cbn [map] in Hnd. apply NoDup_cons in Hnd as [Hx Hnd].
  assert (Hmem : ∀ y, y ∈ coll -> get y "email" ∈ map (fun d => get d "email") coll).
  { intros y Hy. apply list_elem_of_In, (in_map (fun d => get d "email")).
    by apply list_elem_of_In. }
  apply elem_of_cons in Hd as [->|Hd]; apply elem_of_cons in Hd' as [->|Hd'].
  - done.
  - exfalso. apply Hx. rewrite Heq. by apply Hmem.
  - exfalso. apply Hx. rewrite <- Heq. by apply Hmem.
  - by apply IH.
Qed.

Lemma unique_id_inj (coll : list document) (d d' : document) :
  unique_id coll -> d ∈ coll -> d' ∈ coll -> _id d = _id d' -> d = d'.
Proof.
  intros Hnd Hd Hd' Heq.
  pose proof (findById_unique coll d Hnd Hd) as H1.
  pose proof (findById_unique coll d' Hnd Hd') as H2.
  rewrite Heq in H1. congruence.
Qed.

Lemma replace_by_itself (coll : list document) (d : document) :
  unique_id coll -> d ∈ coll ->
  map (fun d' => if String.eqb (_id d') (_id d) then d else d') coll = coll.
Proof.
  intros Hnd Hd. rewrite <- (map_id coll) at 2. apply map_ext_in.
  intros d' Hd'%list_elem_of_In.
  destruct (String.eqb (_id d') (_id d)) eqn:Heq; [|done].
  apply String.eqb_eq in Heq. by apply (unique_id_inj coll).
Qed.

(** X16: when PUT /doctor/profile answers 200, the caller's own record
    is the only one that changed: its six profile paths now hold exactly
    what the body supplied (a path the body lacks is unset), its id, its
    password and every other path are as before, every other doctor's
    record and the other collections are untouched. *)
Theorem doctor_put_profile_effect (e : env) (now : Z) (db : store)
    (header : option bearer) (req_body : gmap string string) :
  let result := doctor_put_profile hs256 e now db header req_body in
  status result.1 = 200 ->
  ∃ user old updated,
    doctor_auth hs256 e now header = inr user
    ∧ findById (user_id user) (Doctor db) = Some old
    ∧ _id updated = _id old
    ∧ (∀ k, get updated k
            = if decide (k ∈ ["firstName"; "lastName"; "email"; "specialty";
                              "licenseNumber"; "phoneNumber"])
              then req_body !! k else get old k)
    ∧ result.1 = res 200 (JDocument (delete_property "password" updated))
    ∧ Doctor result.2
      = map (fun d => if String.eqb (_id d) (_id old) then updated else d) (Doctor db)
    ∧ User result.2 = User db ∧ Admin result.2 = Admin db
    ∧ Appointment result.2 = Appointment db.
Proof.
  cbn zeta. unfold doctor_put_profile.
  destruct (doctor_auth hs256 e now header) as [r|user] eqn:Hauth.
  { apply doctor_auth_refusal in Hauth. cbn [fst]. by rewrite Hauth. }
  destruct (findById (user_id user) (Doctor db)) as [old|] eqn:Hold; cbn [fst]; [|done].
  destruct (save_loaded Doctor_unique _ (Doctor db)) as [doctors|] eqn:Hsave;
    cbn [fst snd]; [|done].
  intros _.
  match goal with |- context [toObject ?d] => exists user, old, d end.
  split; [done|]. split; [done|]. split; [done|]. split.
  - intros k. rewrite !get_set_path by done.
    destruct (decide (k ∈ _)) as [Hin|Hout].
    + rewrite !elem_of_cons, elem_of_nil in Hin.
      destruct Hin as [->|[->|[->|[->|[->|[->|[]]]]]]];
        repeat case_decide; congruence.
    + repeat case_decide; try done; subst; exfalso; apply Hout;
        rewrite !elem_of_cons; auto 10.
  - split; [done|]. split; [|done].
    revert Hsave. unfold save_loaded. destruct (duplicate_key _ _ _); [done|].
    by intros [= <-].
Qed.

(** X17: PUT /admin/profile keeps what the body does not give: with a
    body in which [firstName], [lastName] and [email] are all absent or
    empty it answers 200 with the caller's profile and leaves the whole
    store as it was (admin ids and emails being unique). *)
Theorem admin_put_profile_blank (e : env) (now : Z) (db : store)
    (header : option bearer) (req_body : gmap string string)
    (user : claims) (admin : document) :
  unique_id (Admin db) ->
  unique_email (Admin db) ->
  admin_auth hs256 e now header = inr user ->
  findById (user_id user) (Admin db) = Some admin ->
  truthy (req_body !! "firstName") = false ->
  truthy (req_body !! "lastName") = false ->
  truthy (req_body !! "email") = false ->
  admin_put_profile hs256 e now db header req_body
  = (res 200 (JMessageAdmin "Profile updated successfully"
                (delete_property "password" admin)), db).
Proof.
  intros Hid Hem Hauth Hfind Hf Hl He.
  apply findById_Some in Hfind as Hin. destruct Hin as [Hin _].
  unfold admin_put_profile. rewrite Hauth, Hfind.
  unfold or_else. rewrite Hf, Hl, He.
  rewrite !set_path_same by done.
  assert (Hdup : duplicate_key Admin_unique admin (Admin db) = false).
  { apply duplicate_key_false. intros d' Hd' Hne k Hk Heq.
    unfold Admin_unique in Hk. apply list_elem_of_singleton in Hk as ->.
    apply Hne. f_equal. by apply (unique_email_inj (Admin db)). }
  unfold save_loaded. rewrite Hdup.
  rewrite (replace_by_itself _ _ Hid Hin). by destruct db.
Qed.

(** *** Appointments *)

Lemma findOneAndUpdate_Some (q : filter_doc) (upd : list (string * string))
    (coll coll' : list document) (d' : document) :
  findOneAndUpdate q upd coll = Some (d', coll')
  <-> ∃ pre d post,
        coll = pre ++ d :: post
        ∧ (∀ x, x ∈ pre -> matches q x = false)
        ∧ matches q d = true
        ∧ d' = apply_update upd d
        ∧ coll' = pre ++ d' :: post.
Proof.
  revert coll'. induction coll as [|x coll IH]; intros coll'; cbn [findOneAndUpdate].
  - split; [done|]. intros (pre & d & post & Heq & _). by destruct pre.
  - destruct (matches q x) eqn:Hx.
    + split.
      * intros [= <- <-]. exists [], x, coll. repeat split; try done.
        intros y Hy. by apply elem_of_nil in Hy.
      * intros (pre & d & post & Heq & Hpre & Hd & -> & ->).
        destruct pre as [|y pre]; cbn in Heq; injection Heq as -> ->; [done|].
        rewrite (Hpre y) in Hx by apply list_elem_of_here. done.
    + destruct (findOneAndUpdate q upd coll) as [[d2 rest']|] eqn:Hrec.
      * split.
        -- intros [= <- <-].
           destruct (proj1 (IH rest') eq_refl)
             as (pre & d & post & -> & Hpre & Hd & -> & ->).
           exists (x :: pre), d, post. repeat split; try done.
           intros y [->|Hy]%elem_of_cons; [done|by apply Hpre].
        -- intros (pre & d & post & Heq & Hpre & Hd & -> & ->).
           destruct pre as [|y pre]; cbn in Heq; injection Heq as -> ->.
           { by rewrite Hd in Hx. }
           assert (Hsome : Some (d2, rest')
                           = Some (apply_update upd d, pre ++ apply_update upd d :: post)).
           { apply (IH (pre ++ apply_update upd d :: post)).
             exists pre, d, post. repeat split; try done.
             intros z Hz. apply Hpre. by apply list_elem_of_further. }
           by injection Hsome as -> ->.
      * split; [done|].
        intros (pre & d & post & Heq & Hpre & Hd & -> & ->).
        destruct pre as [|y pre]; cbn in Heq; injection Heq as -> ->.
        { by rewrite Hd in Hx. }
        assert (Hsome : None
                        = Some (apply_update upd d, pre ++ apply_update upd d :: post)).
        { apply (IH (pre ++ apply_update upd d :: post)).
          exists pre, d, post. repeat split; try done.
          intros z Hz. apply Hpre. by apply list_elem_of_further. }
        done.
Qed.

Lemma get_status_update (new_status : string) (a : document) (k : string) :
  get (apply_update [("status", new_status)] a) k
  = if decide ("status" = k) then Some new_status else get a k.
Proof. cbn [apply_update foldr fst snd]. by apply get_set_path. Qed.

Lemma matches_status_update (q : filter_doc) (new_status : string) (a : document) :
  (∀ kv, kv ∈ q -> kv.1 ≠ "status") ->
  matches q (apply_update [("status", new_status)] a) = matches q a.
Proof.
  unfold matches. induction q as [|kv q IH]; intros Hq; [done|].
  cbn [forallb]. rewrite get_status_update.
  rewrite decide_False.
  - f_equal. apply IH. intros x Hx. apply Hq. by apply list_elem_of_further.
  - intros Heq. by apply (Hq kv); [apply list_elem_of_here|].
Qed.

(** X18: when PATCH /doctor/appointment/:appointmentId/:status answers 200,
    the status is one of the three valid ones and exactly one stored
    appointment changed: the first with that id and the caller as doctor,
    whose [status] now holds the new status while its other paths, every
    other appointment and the other collections are as before. *)
Theorem patch_appointment_effect (e : env) (now : Z) (db : store)
    (header : option bearer) (appointmentId new_status : string) :
  let result :=
    doctor_patch_appointment hs256 castObjectId CastError e now db header appointmentId
      new_status in
  status result.1 = 200 ->
  ∃ user pre a post,
    doctor_auth hs256 e now header = inr user
    ∧ new_status ∈ ["scheduled"; "completed"; "cancelled"]
    ∧ Appointment db = pre ++ a :: post
    ∧ castObjectId appointmentId = Some (_id a)
    ∧ castObjectId (user_id user) = get a "doctorId"
    ∧ result.2
      = Store (User db) (Doctor db) (Admin db)
          (pre ++ apply_update [("status", new_status)] a :: post)
    ∧ (∀ k, get (apply_update [("status", new_status)] a) k
            = if decide ("status" = k) then Some new_status else get a k).
Proof.
  cbn zeta. unfold doctor_patch_appointment.
  destruct (doctor_auth hs256 e now header) as [r|user] eqn:Hauth.
  { apply doctor_auth_refusal in Hauth. cbn [fst]. by rewrite Hauth. }
  destruct (bool_decide (new_status ∈ validStatuses)) eqn:Hvalid; cbn [negb fst];
    [|done].
  apply bool_decide_eq_true in Hvalid.
  destruct (castObjectId appointmentId) as [appointment|]; cbn [fst]; [|done].
  destruct (castObjectId (user_id user)) as [doctor|] eqn:Hcaller; cbn [fst];
    [|done].
  destruct (findOneAndUpdate _ _ (Appointment db)) as [[updated appointments]|] eqn:Hfind;
    cbn [fst snd]; [|done].
  intros _. apply findOneAndUpdate_Some in Hfind
    as (pre & a & post & Hcoll & _ & Hm & -> & ->).
  apply matches_id_doctor in Hm as [Hid Hdoc].
  exists user, pre, a, post. do 3 (split; [done|]).
  split; [by rewrite Hid|]. split; [by rewrite Hcaller, Hdoc|].
  split; [done|]. intros k. apply get_status_update.
Qed.

Lemma set_path_twice (k : string) (v : option string) (d : document) :
  set_path k v (set_path k v d) = set_path k v d.
Proof.
  unfold set_path. cbn [_id props]. f_equal. apply map_eq. intros j.
  rewrite !lookup_partial_alter. by case_decide.
Qed.

Lemma patch_appointment_store (e : env) (now : Z) (db : store)
    (header : option bearer) (appointmentId new_status : string) :
  let db' := (doctor_patch_appointment hs256 castObjectId CastError e now db header
                appointmentId new_status).2 in
  db' = db
  ∨ ∃ user appointment doctor pre a post,
      doctor_auth hs256 e now header = inr user
      ∧ new_status ∈ validStatuses
      ∧ castObjectId appointmentId = Some appointment
      ∧ castObjectId (user_id user) = Some doctor
      ∧ Appointment db = pre ++ a :: post
      ∧ (∀ x, x ∈ pre ->
              matches [("_id", Some appointment); ("doctorId", Some doctor)] x
              = false)
      ∧ matches [("_id", Some appointment); ("doctorId", Some doctor)] a = true
      ∧ db' = Store (User db) (Doctor db) (Admin db)
                (pre ++ apply_update [("status", new_status)] a :: post).
Proof.
  cbn zeta. unfold doctor_patch_appointment.
  destruct (doctor_auth hs256 e now header) as [r|user] eqn:Hauth; [by left|].
  destruct (bool_decide (new_status ∈ validStatuses)) eqn:Hvalid; cbn [negb];
    [|by left].
  apply bool_decide_eq_true in Hvalid.
  destruct (castObjectId appointmentId) as [appointment|] eqn:Hcast; [|by left].
  destruct (castObjectId (user_id user)) as [doctor|] eqn:Hcaller; [|by left].
  destruct (findOneAndUpdate _ _ (Appointment db)) as [[updated appointments]|] eqn:Hfind;
    [|by left].
  right. apply findOneAndUpdate_Some in Hfind
    as (pre & a & post & Hcoll & Hpre & Hm & -> & ->).
  by exists user, appointment, doctor, pre, a, post.
Qed.

(** X19: the status transition is idempotent: a second PATCH of the same
    appointment to the same status by the same doctor leaves the store as
    the first PATCH left it. *)
Theorem patch_appointment_idempotent (e : env) (now now' : Z) (db : store)
    (header header' : option bearer) (user user' : claims)
    (appointmentId new_status : string) :
  doctor_auth hs256 e now header = inr user ->
  doctor_auth hs256 e now' header' = inr user' ->
  user_id user' = user_id user ->
  (doctor_patch_appointment hs256 castObjectId CastError e now'
     (doctor_patch_appointment hs256 castObjectId CastError e now db header appointmentId
        new_status).2
     header' appointmentId new_status).2
  = (doctor_patch_appointment hs256 castObjectId CastError e now db header appointmentId
       new_status).2.
Proof.
  intros Hauth Hauth' Hsame.
  destruct (patch_appointment_store e now db header appointmentId new_status)
    as [Hsame_db
       | (u & appointment & doctor & pre & a & post & Hu & Hvalid & Hcast & Hcaller
          & Hcoll & Hpre & Hm & Hdb)].
  - rewrite Hsame_db. revert Hsame_db. unfold doctor_patch_appointment.
    rewrite Hauth, Hauth', Hsame.
    destruct (bool_decide (new_status ∈ validStatuses)); cbn [negb]; [|done].
    destruct (castObjectId appointmentId); [|done].
    destruct (castObjectId (user_id user)); [|done].
    destruct (findOneAndUpdate _ _ (Appointment db)) as [[updated appointments]|];
      [|done].
    cbn [snd]. intros Heq. by rewrite Heq.
  - rewrite Hu in Hauth. injection Hauth as ->.
    rewrite Hdb. unfold doctor_patch_appointment at 1.
    rewrite Hauth', Hsame, (bool_decide_eq_true_2 _ Hvalid), Hcast, Hcaller.
    cbn [negb Appointment].
    assert (Hq : ∀ kv : string * option string,
               kv ∈ [("_id", Some appointment); ("doctorId", Some doctor)] ->
               kv.1 ≠ "status").
    { intros kv. rewrite !elem_of_cons, elem_of_nil. by intros [->|[->|[]]]. }
    assert (Hfind : findOneAndUpdate
                      [("_id", Some appointment); ("doctorId", Some doctor)]
                      [("status", new_status)]
                      (pre ++ apply_update [("status", new_status)] a :: post)
                    = Some (apply_update [("status", new_status)] a,
                            pre ++ apply_update [("status", new_status)] a :: post)).
    { apply findOneAndUpdate_Some.
      exists pre, (apply_update [("status", new_status)] a), post.
      split; [done|]. split; [done|].
      split; [by rewrite matches_status_update|].
      cbn [apply_update foldr fst snd]. by rewrite set_path_twice. }
    by rewrite Hfind.
Qed.

Lemma date_key_status_update (new_status : string) (a : document) :
  date_key timestamp (apply_update [("status", new_status)] a) = date_key timestamp a.
Proof. unfold date_key. by rewrite get_status_update, decide_False. Qed.

Lemma bookedTimes_status_update (db : store) (pre post : list document)
    (a : document) (new_status doctorId : string) (date : option Z) :
  Appointment db = pre ++ a :: post ->
  bookedTimes timestamp
    (Store (User db) (Doctor db) (Admin db)
       (pre ++ apply_update [("status", new_status)] a :: post)) doctorId date
  = bookedTimes timestamp db doctorId date.
Proof.
  intros Hcoll. unfold bookedTimes, find. cbn [Appointment]. rewrite Hcoll.
  rewrite !List.filter_app. cbn [List.filter].
  rewrite matches_status_update.
  - destruct (matches _ a); [|done].
    cbn [List.filter]. rewrite date_key_status_update.
    destruct (bool_decide (date_key timestamp a = date)); [|done].
    rewrite !map_app. cbn [map]. by rewrite get_status_update, decide_False.
  - intros kv. rewrite !elem_of_cons, elem_of_nil. by intros [->|[]].
Qed.

(** X20: a status transition never changes what GET /doctor/available-slots
    answers: the slot of an appointment stays booked when the appointment
    is completed or cancelled. *)
Theorem patch_appointment_keeps_slots (e : env) (now : Z) (db : store)
    (header : option bearer) (appointmentId new_status : string)
    (e' : env) (now' : Z) (header' : option bearer) (date : option string) :
  doctor_available_slots hs256 castObjectId timestamp CastError e' now'
    (doctor_patch_appointment hs256 castObjectId CastError e now db header appointmentId
       new_status).2
    header' date
  = doctor_available_slots hs256 castObjectId timestamp CastError e' now' db header' date.
Proof.
  destruct (patch_appointment_store e now db header appointmentId new_status)
    as [-> | (u & appointment & doctor & pre & a & post & _ & _ & _ & _ & Hcoll & _
              & _ & ->)]; [done|].
  unfold doctor_available_slots.
  destruct (doctor_auth hs256 e' now' header'); [done|].
  destruct (castObjectId _); [|done].
  destruct (cast_date timestamp date); [|done].
  by rewrite (bookedTimes_status_update db pre post a).
Qed.

Lemma save_new_no_index (d : document) (coll : list document) :
  fresh (_id d) coll -> save_new [] d coll = Some (coll ++ [d]).
Proof.
  intros Hfresh. apply save_new_Some. split; [done|]. split; [done|].
  intros d' _ k Hk. by apply elem_of_nil in Hk.
Qed.

Lemma matches_doctor (doctorId : string) (d : document) :
  matches [("doctorId", Some doctorId)] d = true <-> get d "doctorId" = Some doctorId.
Proof.
  unfold matches. cbn [forallb fst snd]. by rewrite andb_true_r, bool_decide_eq_true.
Qed.

Lemma invalid_paths_nil (d : document) :
  invalid_paths castObjectId timestamp d = [] ->
  (∀ v, get d "patientId" = Some v -> is_Some (castObjectId v))
  ∧ (∀ v, get d "doctorId" = Some v -> is_Some (castObjectId v))
  ∧ (∀ v, get d "date" = Some v -> is_Some (cast_date timestamp (Some v))).
Proof.
  unfold invalid_paths. cbn zeta. intros Hvalid.
  apply app_nil in Hvalid as [Hp Hvalid]. apply app_nil in Hvalid as [Hd Ht].
  split; [|split]; intros v Hv.
  - rewrite Hv in Hp. by destruct (bool_decide (is_Some (castObjectId v))) eqn:H;
      [apply bool_decide_eq_true in H|].
  - rewrite Hv in Hd. by destruct (bool_decide (is_Some (castObjectId v))) eqn:H;
      [apply bool_decide_eq_true in H|].
  - rewrite Hv in Ht.
    by destruct (bool_decide (is_Some (cast_date timestamp (Some v)))) eqn:H;
      [apply bool_decide_eq_true in H|].
Qed.

Lemma cast_path_id (cast : string -> option (option string)) (path : string)
    (d : document) :
  _id (cast_path cast path d) = _id d.
Proof. unfold cast_path. by destruct (get d path ≫= cast). Qed.

Lemma get_cast_path_ne (cast : string -> option (option string)) (path : string)
    (d : document) (k : string) :
  path ≠ "_id" -> path ≠ k -> get (cast_path cast path d) k = get d k.
Proof.
  intros Hid Hne. unfold cast_path. destruct (get d path ≫= cast); [|done].
  by rewrite get_set_path, decide_False.
Qed.

Lemma get_cast_path_eq (cast : string -> option (option string)) (path : string)
    (d : document) (v : string) (w : option string) :
  path ≠ "_id" -> get d path = Some v -> cast v = Some w ->
  get (cast_path cast path d) path = w.
Proof.
  intros Hid Hv Hw. unfold cast_path. rewrite Hv. cbn [mbind option_bind].
  rewrite Hw. by rewrite get_set_path, decide_True.
Qed.

Lemma new_appointment_id (oid : string) (o : gmap string string) :
  _id (new_appointment defaults castObjectId timestamp toISOString oid o) = oid.
Proof. unfold new_appointment. by rewrite !cast_path_id. Qed.

(** X21: when POST /doctor/schedule-appointment answers 201 for a body
    with a date and a time, the date was cast to an instant (or to [null],
    when it is the empty string) and one appointment was appended whose
    doctor is the token's id (not anything the body says) and whose date
    writes that instant; from then on the free slots of that doctor at
    that instant are those that were free before except that time, and the
    bookings of every other doctor or instant are as before. *)
Theorem schedule_books_the_slot (e : env) (now : Z) (db : store)
    (header : option bearer) (req_body : gmap string string)
    (oid date time : string) :
  let result :=
    doctor_schedule_appointment hs256 defaults castObjectId timestamp toISOString
      ValidationError
      e now db header req_body oid in
  code result.1 = 201 ->
  req_body !! "date" = Some date ->
  req_body !! "time" = Some time ->
  (∀ t, timestamp date = Some t -> timestamp (toISOString t) = Some t) ->
  ∃ user doctor appointment instant,
    doctor_auth hs256 e now header = inr user
    ∧ castObjectId (user_id user) = Some doctor
    ∧ cast_date timestamp (Some date) = Some instant
    ∧ result.2
      = Store (User db) (Doctor db) (Admin db) (Appointment db ++ [appointment])
    ∧ _id appointment = oid
    ∧ get appointment "doctorId" = Some doctor
    ∧ get appointment "date" = toISOString <$> instant
    ∧ (∀ slot,
         slot ∈ availableSlots (bookedTimes timestamp result.2 doctor instant)
         <-> slot ∈ availableSlots (bookedTimes timestamp db doctor instant)
             ∧ slot ≠ time)
    ∧ (∀ doctorId instant',
         (doctorId, instant') ≠ (doctor, instant) ->
         bookedTimes timestamp result.2 doctorId instant'
         = bookedTimes timestamp db doctorId instant').
Proof.
  cbn zeta. intros Hok Hdate Htime Hiso. revert Hok.
  unfold doctor_schedule_appointment.
  destruct (doctor_auth hs256 e now header) as [r|user] eqn:Hauth.
  { apply doctor_auth_refusal in Hauth. cbn. lia. }
  set (o := <["doctorId" := user_id user]>
              (pick ["patientId"; "date"; "time"; "reason"] req_body)).
  set (raw := new_document defaults "Appointment" oid o).
  set (appointment :=
         new_appointment defaults castObjectId timestamp toISOString oid o).
  destruct (invalid_paths castObjectId timestamp raw)
    as [|path paths] eqn:Hvalid; cbn [fst snd code]; [|done].
  destruct (save_new [] appointment (Appointment db)) as [appointments|] eqn:Hsave;
    cbn [fst snd code]; [|done].
  intros _. apply save_new_Some in Hsave as (-> & _ & _).
  apply invalid_paths_nil in Hvalid as (_ & Hcaller & Hinstant).
  assert (Hraw_doc : get raw "doctorId" = Some (user_id user)).
  { apply new_document_explicit; [done|]. apply lookup_insert_eq. }
  assert (Hraw_date : get raw "date" = Some date).
  { apply new_document_explicit; [done|]. unfold o. rewrite lookup_insert_ne by done.
    rewrite pick_lookup, decide_True; [done|]. rewrite !elem_of_cons; auto. }
  assert (Hraw_time : get raw "time" = Some time).
  { apply new_document_explicit; [done|]. unfold o. rewrite lookup_insert_ne by done.
    rewrite pick_lookup, decide_True; [done|]. rewrite !elem_of_cons; auto. }
  destruct (Hcaller _ Hraw_doc) as [doctor Hdoctor].
  destruct (Hinstant _ Hraw_date) as [instant Hcast].
  assert (Hdoc : get appointment "doctorId" = Some doctor).
  { unfold appointment, new_appointment. fold raw.
    rewrite get_cast_path_ne by done.
    apply (get_cast_path_eq _ _ _ (user_id user)); [done| |by rewrite Hdoctor].
    by rewrite get_cast_path_ne. }
  assert (Hd : get appointment "date" = toISOString <$> instant).
  { unfold appointment, new_appointment. fold raw.
    rewrite !get_cast_path_ne by done.
    apply (get_cast_path_eq _ _ _ date); [done|done|]. by rewrite Hcast. }
  assert (Ht : get appointment "time" = Some time).
  { unfold appointment, new_appointment. fold raw.
    by rewrite !get_cast_path_ne. }
  assert (Hkey : date_key timestamp appointment = instant).
  { unfold date_key. rewrite Hd. destruct instant as [t|]; [|done].
    cbn [fmap option_fmap option_map mbind option_bind]. apply Hiso.
    revert Hcast. unfold cast_date. destruct (String.eqb date ""); [done|].
    by destruct (timestamp date) as [t'|]; [intros [= ->]|]. }
  assert (Hbooked : ∀ doctorId instant',
            bookedTimes timestamp
              (Store (User db) (Doctor db) (Admin db) (Appointment db ++ [appointment]))
              doctorId instant'
            = bookedTimes timestamp db doctorId instant'
              ++ (if decide (doctorId = doctor ∧ instant' = instant)
                  then [Some time] else [])).
  { intros doctorId instant'. unfold bookedTimes, find. cbn [Appointment].
    rewrite !List.filter_app, map_app. f_equal. cbn [List.filter].
    destruct (matches _ appointment) eqn:Hm.
    - apply matches_doctor in Hm. rewrite Hdoc in Hm. injection Hm as Hm.
      cbn [List.filter]. rewrite Hkey.
      destruct (bool_decide (instant = instant')) eqn:Hi.
      + apply bool_decide_eq_true in Hi. rewrite decide_True by done.
        cbn [map]. by rewrite Ht.
      + apply bool_decide_eq_false in Hi. rewrite decide_False; [done|].
        intros [_ Heq]. by apply Hi.
    - rewrite decide_False; [done|]. intros [-> _].
      apply not_true_iff_false in Hm. apply Hm. by apply matches_doctor. }
  exists user, doctor, appointment, instant. do 4 (split; [done|]).
  split; [apply new_appointment_id|]. do 2 (split; [done|]). split.
  - intros slot. rewrite !availableSlots_elem, Hbooked.
    rewrite decide_True by done.
    rewrite elem_of_app, list_elem_of_singleton. split.
    + intros [Hs Hfree]. split; [split; [done|]|]; intros Hbad; apply Hfree.
      * by left.
      * right. by rewrite Hbad.
    + intros [[Hs Hfree] Hne]. split; [done|].
      intros [Hb|[= Hb]]; [by apply Hfree|by apply Hne].
  - intros doctorId instant' Hne. rewrite Hbooked.
    rewrite decide_False; [by rewrite app_nil_r|].
    intros [-> ->]. by apply Hne.
Qed.

(** X22: POST /doctor/schedule-appointment never looks at the stored
    appointments: on two stores in which the new object id is unused it
    gives the same answer, so a slot that is already booked is booked again
    like a free one. *)
Theorem schedule_ignores_bookings (e : env) (now : Z) (db db' : store)
    (header : option bearer) (req_body : gmap string string) (oid : string) :
  fresh oid (Appointment db) ->
  fresh oid (Appointment db') ->
  (doctor_schedule_appointment hs256 defaults castObjectId timestamp toISOString
    ValidationError
     e now db header req_body oid).1
  = (doctor_schedule_appointment hs256 defaults castObjectId timestamp toISOString
    ValidationError
       e now db' header req_body oid).1
  ∧ (code (doctor_schedule_appointment hs256 defaults castObjectId timestamp
             toISOString ValidationError e now db header req_body oid).1 = 201 ->
     length (Appointment
               (doctor_schedule_appointment hs256 defaults castObjectId timestamp
                  toISOString ValidationError e now db header req_body oid).2)
     = S (length (Appointment db))).
Proof.
  intros Hfresh Hfresh'. unfold doctor_schedule_appointment.
  destruct (doctor_auth hs256 e now header) as [r|user] eqn:Hauth.
  { split; [done|]. apply doctor_auth_refusal in Hauth. cbn. lia. }
  destruct (invalid_paths castObjectId timestamp _); [|by split].
  rewrite !save_new_no_index by by rewrite new_appointment_id.
  cbn [fst snd Appointment]. split; [done|].
  intros _. rewrite length_app. cbn. lia.
Qed.

(** *** Prescriptions *)

Lemma find_elem (q : filter_doc) (coll : list document) (d : document) :
  d ∈ find q coll <-> d ∈ coll ∧ matches q d = true.
Proof. unfold find. by rewrite !list_elem_of_In, filter_In. Qed.

Lemma matches_doctor_patient (doctorId patientId : string) (d : document) :
  matches [("doctorId", Some doctorId); ("patientId", Some patientId)] d = true
  <-> get d "doctorId" = Some doctorId ∧ get d "patientId" = Some patientId.
Proof.
  unfold matches. cbn [forallb fst snd].
  by rewrite andb_true_r, andb_true_iff, !bool_decide_eq_true.
Qed.

Lemma filter_refines {A} (f g : A -> bool) (l : list A) :
  (∀ x, g x = true -> f x = true) ->
  sublist (List.filter g l) (List.filter f l).
Proof.
  intros Hgf. induction l as [|x l IH]; cbn [List.filter]; [constructor|].
  destruct (g x) eqn:Hg.
  - rewrite (Hgf x Hg). by constructor.
  - destruct (f x); [by constructor|done].
Qed.

(** X23: GET /doctor/prescriptions answers an authenticated doctor with
    exactly the stored prescriptions whose doctor is the token's id, in
    stored order, and GET /doctor/prescriptions/patient/:patientId with
    those of them that are for that patient: no prescription of another
    doctor is ever listed. *)
Theorem prescriptions_are_scoped (e : env) (now : Z) (prescriptions : list document)
    (header : option bearer) (patientId : string) (user : claims) :
  doctor_auth hs256 e now header = inr user ->
  ∃ own for_patient,
    doctor_prescriptions hs256 e now prescriptions header
    = Reply 200 (inl (JDocuments own))
    ∧ doctor_prescriptions_by_patient hs256 e now prescriptions header patientId
      = Reply 200 (inl (JDocuments for_patient))
    ∧ sublist own prescriptions
    ∧ sublist for_patient own
    ∧ (∀ p, p ∈ own
            <-> p ∈ prescriptions ∧ get p "doctorId" = Some (user_id user))
    ∧ (∀ p, p ∈ for_patient
            <-> p ∈ own ∧ get p "patientId" = Some patientId).
Proof.
  intros Hauth. unfold doctor_prescriptions, doctor_prescriptions_by_patient.
  rewrite Hauth. eexists _, _. split; [done|]. split; [done|].
  split; [apply filter_keeps_order|].
  split.
  { apply filter_refines. intros p [Hd _]%matches_doctor_patient.
    by apply matches_doctor. }
  assert (Hown : ∀ p, p ∈ find [("doctorId", Some (user_id user))] prescriptions
                      <-> p ∈ prescriptions ∧ get p "doctorId" = Some (user_id user)).
  { intros p. by rewrite find_elem, matches_doctor. }
  split; [done|].
  intros p. rewrite Hown, find_elem, matches_doctor_patient.
  split; [intros (H1 & H2 & H3) | intros ((H1 & H2) & H3)];
    repeat split; assumption.
Qed.

(** X24: when POST /doctor/prescribe-medication answers 201, one
    prescription was appended whose doctor is the token's id; from then on
    GET /doctor/prescriptions shows it, last, to that doctor and shows every
    other doctor what it showed before. *)
Theorem prescribe_then_listed (e : env) (now : Z) (prescriptions : list document)
    (header : option bearer) (req_body : gmap string string) (oid : string) :
  let result :=
    doctor_prescribe_medication hs256 defaults e now prescriptions header
      req_body oid in
  code result.1 = 201 ->
  ∃ user prescription,
    doctor_auth hs256 e now header = inr user
    ∧ result.2 = prescriptions ++ [prescription]
    ∧ _id prescription = oid
    ∧ get prescription "doctorId" = Some (user_id user)
    ∧ (∀ k v, k ∈ ["patientId"; "medication"; "dosage"; "frequency"; "tilldate"] ->
              req_body !! k = Some v -> get prescription k = Some v)
    ∧ ∀ e' now' header' reader,
        doctor_auth hs256 e' now' header' = inr reader ->
        doctor_prescriptions hs256 e' now' result.2 header'
        = Reply 200
            (inl (JDocuments
                    (find [("doctorId", Some (user_id reader))] prescriptions
                     ++ if decide (user_id reader = user_id user)
                        then [prescription] else []))).
Proof.
  cbn zeta. unfold doctor_prescribe_medication.
  destruct (doctor_auth hs256 e now header) as [r|user] eqn:Hauth.
  { apply doctor_auth_refusal in Hauth. cbn. lia. }
  destruct (save_new [] _ prescriptions) as [saved|] eqn:Hsave;
    cbn [fst snd code]; [|done].
  intros _. apply save_new_Some in Hsave as (-> & _ & _).
  match goal with
  | |- context [prescriptions ++ [?a]] => set (prescription := a)
  end.
  assert (Hdoc : get prescription "doctorId" = Some (user_id user)).
  { apply new_document_explicit; [done|]. apply lookup_insert_eq. }
  exists user, prescription. do 4 (split; [done|]). split.
  - intros k v Hk Hv. apply new_document_explicit.
    + intros ->. revert Hk. by rewrite !elem_of_cons, elem_of_nil; intros [|[|[|[|[|]]]]].
    + rewrite lookup_insert_ne.
      * rewrite pick_lookup. by rewrite decide_True.
      * intros <-. revert Hk. by rewrite !elem_of_cons, elem_of_nil; intros [|[|[|[|[|]]]]].
  - intros e' now' header' reader Hreader. unfold doctor_prescriptions.
    rewrite Hreader. do 3 f_equal. unfold find.
    rewrite List.filter_app. f_equal. cbn [List.filter].
    destruct (matches _ prescription) eqn:Hm.
    + apply matches_doctor in Hm. rewrite Hdoc in Hm. injection Hm as Hm.
      by rewrite decide_True.
    + apply not_true_iff_false in Hm. rewrite decide_False; [done|].
      intros Heq. apply Hm, matches_doctor. by rewrite Heq.
Qed.

Lemma findOneAndDelete_Some (q : filter_doc) (coll rest : list document)
    (d : document) :
  findOneAndDelete q coll = Some (d, rest)
  -> ∃ pre post,
       coll = pre ++ d :: post
       ∧ (∀ x, x ∈ pre -> matches q x = false)
       ∧ matches q d = true
       ∧ rest = pre ++ post.
Proof.
  revert rest. induction coll as [|x coll IH]; intros rest; cbn [findOneAndDelete];
    [done|].
  destruct (matches q x) eqn:Hx.
  - intros [= <- <-]. exists [], coll. repeat split; try done.
    intros y Hy. by apply elem_of_nil in Hy.
  - destruct (findOneAndDelete q coll) as [[d2 rest']|] eqn:Hrec; [|done].
    intros [= <- <-].
    destruct (IH rest' eq_refl) as (pre & post & -> & Hpre & Hd & ->).
    exists (x :: pre), post. repeat split; try done.
    intros y [->|Hy]%elem_of_cons; [done|by apply Hpre].
Qed.

Lemma findOneAndDelete_None (q : filter_doc) (coll : list document) :
  (∀ d, d ∈ coll -> matches q d = false) -> findOneAndDelete q coll = None.
Proof.
  induction coll as [|d coll IH]; intros Hall; [done|].
  cbn. rewrite (Hall d) by apply list_elem_of_here.
  rewrite IH; [done|]. intros d' Hd'. apply Hall. by apply list_elem_of_further.
Qed.

(** X25: DELETE /doctor/prescriptions/:id removes at most the caller's
    own prescription.  An id that cannot be cast to an object id is
    answered 500 'Server error'; one that can, but is unknown or belongs to
    another doctor's prescription, is answered 404; neither removes
    anything.  An answer 200 means that exactly one prescription with that
    id and the caller as doctor was removed, all others staying in place. *)
Theorem delete_prescription_effect (e : env) (now : Z)
    (prescriptions : list document) (header : option bearer) (id : string)
    (user : claims) :
  doctor_auth hs256 e now header = inr user ->
  let result :=
    doctor_delete_prescription hs256 castObjectId CastError e now prescriptions header id in
  (castObjectId id = None ->
   result
   = (Reply 500 (inl (JErrorMessage "Server error"
                        (CastError "ObjectId" id "_id" "Prescription"))),
      prescriptions))
  ∧ (∀ _id',
       castObjectId id = Some _id' ->
       (∀ p, p ∈ prescriptions -> _id p = _id' ->
             get p "doctorId" ≠ Some (user_id user)) ->
       result = (Reply 404 (inl (JError "Prescription not found")), prescriptions))
  ∧ (code result.1 = 200 ->
     ∃ pre p post,
       prescriptions = pre ++ p :: post
       ∧ castObjectId id = Some (_id p)
       ∧ get p "doctorId" = Some (user_id user)
       ∧ result.2 = pre ++ post)
  ∧ (code result.1 ≠ 200 -> result.2 = prescriptions).
Proof.
  intros Hauth. cbn zeta. unfold doctor_delete_prescription. rewrite Hauth.
  destruct (castObjectId id) as [_id'|]; [|by repeat split].
  split; [done|]. split; [|split].
  - intros ? [= <-] Hno. rewrite findOneAndDelete_None; [done|].
    intros p Hp. apply not_true_iff_false. intros [Hid Hdoc]%matches_id_doctor.
    by apply (Hno p).
  - destruct (findOneAndDelete _ prescriptions) as [[p rest]|] eqn:Hfind;
      cbn [fst snd code]; [|done].
    intros _.
    apply findOneAndDelete_Some in Hfind as (pre & post & -> & _ & Hm & ->).
    apply matches_id_doctor in Hm as [Hid Hdoc]. exists pre, p, post.
    by rewrite Hid.
  - by destruct (findOneAndDelete _ prescriptions) as [[p rest]|].
Qed.

(** *** The seeder, continued *)

Lemma createAdmin_cases (oid : string) (db : store) :
  fresh oid (Admin db) ->
  (is_Some (findOne [("email", Some seed_email)] (Admin db)) ∧ createAdmin oid db = db)
  ∨ (findOne [("email", Some seed_email)] (Admin db) = None
     ∧ createAdmin oid db
       = Store (User db) (Doctor db) (Admin db ++ [seed_admin oid]) (Appointment db)
     ∧ findOne [("email", Some seed_email)] (Admin db ++ [seed_admin oid])
       = Some (seed_admin oid)).
Proof.
  intros Hfresh. unfold createAdmin.
  destruct (findOne _ (Admin db)) as [existing|] eqn:Hfind; [left; eauto|].
  right. rewrite (save_new_seed oid _ Hfind Hfresh). split; [done|]. split; [done|].
  apply findOne_snoc; [by apply findOne_None|done].
Qed.

(** X26: the seeder only ever appends to the admins, at most one record,
    and is idempotent: with an unused object id it leaves users, doctors,
    appointments and the admins that exist in place, and running it again,
    with any object id, changes nothing more. *)
Theorem createAdmin_idempotent (oid oid' : string) (db : store) :
  fresh oid (Admin db) ->
  createAdmin oid' (createAdmin oid db) = createAdmin oid db
  ∧ User (createAdmin oid db) = User db
  ∧ Doctor (createAdmin oid db) = Doctor db
  ∧ Appointment (createAdmin oid db) = Appointment db
  ∧ ∃ added,
      Admin (createAdmin oid db) = Admin db ++ added ∧ (length added <= 1)%nat.
Proof.
  intros Hfresh.
  destruct (createAdmin_cases oid db Hfresh)
    as [[[existing Hfind] ->] | (Hnone & -> & Hfound)].
  - split; [|split; [done|split; [done|split; [done|]]]].
    + unfold createAdmin. by rewrite Hfind.
    + exists []. split; [by rewrite app_nil_r | cbn; lia].
  - split; [|split; [done|split; [done|split; [done|]]]].
    + unfold createAdmin at 1. cbn [Admin]. by rewrite Hfound.
    + exists [seed_admin oid]. split; [done|]. cbn. lia.
Qed.

(** X27: on a store without a seed admin the record the seeder creates
    holds the seed password where the login routes expect a hash, so both
    logins hand [bcrypt.compare] the seed password as data and as hash: the
    seeded admin is logged in (status 200) if that comparison succeeds, and
    is answered 400 'Invalid password' by POST /api/login and 400 'Invalid
    credentials' by POST /admin/login if it fails. *)
Theorem seeded_admin_login (e : env) (now : Z) (db : store) (oid : string)
    (credentials : gmap string string) :
  findOne [("email", Some "admin@gmail.com")] (Admin db) = None ->
  fresh oid (Admin db) ->
  truthy (JWT_SECRET e) = true ->
  credentials !! "email" = Some "admin@gmail.com" ->
  credentials !! "password" = Some "admin123" ->
  credentials !! "role" = Some "admin" ->
  if bcrypt_compare "admin123" "admin123" then
    status (login hs256 bcrypt_compare e now (createAdmin oid db) credentials) = 200
    ∧ status (admin_login hs256 bcrypt_compare e now (createAdmin oid db) credentials)
      = 200
  else
    login hs256 bcrypt_compare e now (createAdmin oid db) credentials
    = res 400 (JError "Invalid password")
    ∧ admin_login hs256 bcrypt_compare e now (createAdmin oid db) credentials
      = res 400 (JError "Invalid credentials").
Proof.
  intros Hnone Hfresh Hs He Hp Hr.
  destruct (createAdmin_cases oid db Hfresh)
    as [[[existing Hfind] _] | (_ & -> & Hfound)].
  { change seed_email with "admin@gmail.com" in Hfind. congruence. }
  change seed_email with "admin@gmail.com" in Hfound.
  destruct (jwt_sign_total hs256 oid (Some "admin") (JWT_SECRET e) (hours 24) now Hs)
    as [tok24 H24].
  destruct (jwt_sign_total hs256 oid (Some "admin") (JWT_SECRET e) (hours 1) now Hs)
    as [tok1 H1].
  unfold login, admin_login. rewrite He, Hp, Hr. cbn [truthy String.eqb Ascii.eqb
    Bool.eqb negb orb].
  rewrite bool_decide_eq_false_2 by discriminate.
  rewrite bool_decide_eq_true_2 by reflexivity.
  cbn [Admin]. rewrite Hfound.
  change (get (seed_admin oid) "password") with (Some "admin123").
  change (get (seed_admin oid) "role") with (Some "admin").
  change (_id (seed_admin oid)) with oid.
  cbn [truthy String.eqb Ascii.eqb Bool.eqb negb compare].
  destruct (bcrypt_compare "admin123" "admin123"); [|done].
  by rewrite Hs, H24, H1.
Qed.

(** *** Dashboards *)

(** X28: the two patient dashboards of [admin.js] agree: for a token the
    middleware accepts, GET /admin/patient-overview has one row per user
    with the role [patient], as many as GET /admin/total-patients counts,
    and each row counts the stored appointments of its patient. *)
Theorem patient_dashboards_agree (e : env) (now : Z) (db : store)
    (header : option bearer) (user : claims) :
  admin_auth hs256 e now header = inr user ->
  ∃ rows,
    admin_patient_overview hs256 e now db header
    = Reply 200 (inr (JPatientOverview rows))
    ∧ admin_total_patients hs256 e now db header
      = Reply 200 (inr (JTotalPatients (length rows)))
    ∧ ∀ i patient,
        find [("role", Some "patient")] (User db) !! i = Some patient ->
        rows !! i
        = Some ((template (get patient "firstName") ++ " "
                 ++ template (get patient "lastName"))%string,
                length (find [("patientId", Some (_id patient))] (Appointment db))).
Proof.
  intros Hauth. unfold admin_patient_overview, admin_total_patients.
  rewrite Hauth. eexists. split; [done|]. split.
  - by rewrite !length_map.
  - intros i patient Hi.
    change (map ?f ?l) with (f <$> l). rewrite !list_lookup_fmap, Hi. cbn.
    change (filter _ (props patient))
      with (props (select_only ["firstName"; "lastName"] patient)).
    rewrite !select_only_props.
    rewrite !decide_True by (rewrite !elem_of_cons; auto). done.
Qed.

End MoreProperties.

(** *** Patients with appointments *)

Section VisitProperties.

Variable hs256 : string -> claims -> string.
Variable castObjectId : string -> option string.
Variable timestamp : string -> option Z.
Variable CastError : string -> string -> string -> string -> string.

#[local] Instance date_le_total : Total (date_le timestamp).
Proof.
  intros a b. unfold date_le.
  destruct (date_key timestamp a), (date_key timestamp b); try tauto. lia.
Qed.

#[local] Instance date_le_trans : Transitive (date_le timestamp).
Proof.
  intros a b c. unfold date_le.
  destruct (date_key timestamp a), (date_key timestamp b),
    (date_key timestamp c); try tauto. lia.
Qed.














End VisitProperties.

(** ** The further properties at work on the demo store *)

Ltac demo_fresh :=
  let d := fresh "d" in
  let Hd := fresh "Hd" in
  intros d Hd;
  repeat (apply elem_of_cons in Hd as [-> | Hd]);
  try discriminate; by apply elem_of_nil in Hd.

Ltac demo_unique := apply (bool_decide_eq_true_1 _); reflexivity.

(** A login with an empty password. *)
Lemma login_incomplete_request_witness :
  login demo_hs256 demo_compare demo_env 1000 demo_db (credentials "ann@clinic" "" "doctor")
  = res 400 (JError "Email, password, and role are required").
Proof.
  apply (login_incomplete_request demo_hs256 demo_compare demo_env 1000 demo_db
           (credentials "ann@clinic" "" "doctor")).
  intros (_ & Hp & _). vm_compute in Hp. discriminate Hp.
Defined.

(** The first doctor of the demo store logs in. *)
Lemma login_succeeds_iff_witness :
  ∃ tok,
    login demo_hs256 demo_compare demo_env 1000 demo_db
      (credentials "ann@clinic" "ann-pw" "doctor")
    = res 200 (JTokenRole tok (get demo_doctor_record "role"))
    ∧ jwt_sign demo_hs256 (_id demo_doctor_record) (get demo_doctor_record "role")
        (JWT_SECRET demo_env) (24 * 3600) 1000 = Some tok
    ∧ payload tok
      = Claims (_id demo_doctor_record) (get demo_doctor_record "role") 1000
          (1000 + 24 * 3600).
Proof.
  apply (proj2 (login_succeeds_iff demo_hs256 demo_compare demo_env 1000 demo_db
                  (credentials "ann@clinic" "ann-pw" "doctor"))
           demo_doctor_record "ann-pw" "$ann-pw"); [repeat split|..]; reflexivity.
Defined.

(** The first doctor logs in on a store that has lost its users, admins and
    appointments. *)
Lemma login_reads_one_collection_witness :
  login demo_hs256 demo_compare demo_env 1000 demo_db
    (credentials "ann@clinic" "ann-pw" "doctor")
  = login demo_hs256 demo_compare demo_env 1000 (Store [] (Doctor demo_db) [] [])
      (credentials "ann@clinic" "ann-pw" "doctor").
Proof.
  apply (login_reads_one_collection demo_hs256 demo_compare demo_env 1000 demo_db
           (Store [] (Doctor demo_db) [] []) (credentials "ann@clinic" "ann-pw" "doctor")).
  reflexivity.
Defined.

(** The first doctor logs in at clock 1000 and reads the profile at 2000. *)
Lemma login_then_profile_witness :
  ∃ doctor,
    findOne [("email", credentials "ann@clinic" "ann-pw" "doctor" !! "email")]
      (Doctor demo_db) = Some doctor
    ∧ doctor_get_profile demo_hs256 demo_env 2000 demo_db (Some (Jws demo_doctor_token))
      = res 200 (JDocument (select_without "password" doctor))
    ∧ get (select_without "password" doctor) "password" = None.
Proof.
  apply (login_then_profile demo_hs256 demo_compare demo_env 1000 2000 demo_db
           (credentials "ann@clinic" "ann-pw" "doctor") demo_doctor_token None).
  - demo_unique.
  - reflexivity.
  - reflexivity.
  - lia.
Defined.

(** An unknown admin email and a wrong password for the demo admin. *)
Lemma admin_login_failures_alike_witness :
  admin_login demo_hs256 demo_compare demo_env 1000 demo_db
    (obj [("email", "nobody@clinic"); ("password", "root-pw")])
  = admin_login demo_hs256 demo_compare demo_env 1000 demo_db
      (obj [("email", "root@clinic"); ("password", "wrong")])
  ∧ admin_login demo_hs256 demo_compare demo_env 1000 demo_db
      (obj [("email", "root@clinic"); ("password", "wrong")])
    = res 400 (JError "Invalid credentials").
Proof.
  apply (admin_login_failures_alike demo_hs256 demo_compare demo_env 1000 demo_db
           (obj [("email", "nobody@clinic"); ("password", "root-pw")])
           (obj [("email", "root@clinic"); ("password", "wrong")])
           demo_admin_record "wrong" "$root-pw"); reflexivity.
Defined.

(** The admin of the demo store logs in through POST /admin/login. *)
Lemma admin_login_succeeds_iff_witness :
  ∃ tok,
    admin_login demo_hs256 demo_compare demo_env 1000 demo_db
      (obj [("email", "root@clinic"); ("password", "root-pw")])
    = res 200 (JToken tok)
    ∧ jwt_sign demo_hs256 (_id demo_admin_record) (Some "admin")
        (JWT_SECRET demo_env) (1 * 3600) 1000 = Some tok
    ∧ payload tok
      = Claims (_id demo_admin_record) (Some "admin") 1000 (1000 + 1 * 3600).
Proof.
  apply (proj2 (admin_login_succeeds_iff demo_hs256 demo_compare demo_env 1000
                  demo_db (obj [("email", "root@clinic"); ("password", "root-pw")]))
           demo_admin_record "root-pw" "$root-pw"); reflexivity.
Defined.

(** The demo store served without a signing secret. *)
Lemma no_secret_no_access_witness :
  (∃ r, doctor_auth demo_hs256 (Env None) 2000 (Some (Jws demo_doctor_token)) = inl r
        ∧ status r = 401)
  ∧ (∃ r, admin_auth demo_hs256 (Env None) 2000 (Some (Jws demo_doctor_token)) = inl r
          ∧ status r = 401)
  ∧ status (login demo_hs256 demo_compare (Env None) 2000 demo_db
              (credentials "ann@clinic" "ann-pw" "doctor")) ≠ 200
  ∧ status (admin_login demo_hs256 demo_compare (Env None) 2000 demo_db
              (credentials "ann@clinic" "ann-pw" "doctor")) ≠ 200.
Proof.
  apply (no_secret_no_access demo_hs256 demo_compare (Env None) 2000 demo_db
           (Some (Jws demo_doctor_token)) (credentials "ann@clinic" "ann-pw" "doctor")).
  reflexivity.
Defined.

(** The patient token on the two adding routes. *)
Lemma add_routes_require_admin_witness :
  admin_add_doctor demo_hs256 demo_hash demo_defaults demo_env 2000 demo_db
    (Some (Jws demo_patient_token)) demo_new_doctor "64a0000000000000000000d3" "salt"
  = (Reply 403 (inl (JError "Not authorized to add doctors")), demo_db)
  ∧ admin_add_admin demo_hs256 demo_hash demo_defaults demo_env 2000 demo_db
      (Some (Jws demo_patient_token)) demo_new_doctor "64a0000000000000000000d3" "salt"
    = (Reply 403 (inl (JError "Not authorized to add admins")), demo_db).
Proof.
  apply (add_routes_require_admin demo_hs256 demo_hash demo_defaults demo_env 2000
           demo_db (Some (Jws demo_patient_token))
           (Claims "64a0000000000000000000c1" (Some "patient") 1000 87400) demo_new_doctor
               "64a0000000000000000000d3" "salt").
  - reflexivity.
  - discriminate.
Defined.

(** The demo admin adds a doctor with the email of the first doctor. *)
Lemma add_doctor_duplicate_email_witness :
  admin_add_doctor demo_hs256 demo_hash demo_defaults demo_env 2000 demo_db
    (Some (Jws demo_admin_token))
    (obj [("email", "ann@clinic"); ("password", "pw"); ("licenseNumber", "L-9")])
    "64a0000000000000000000d3" "salt"
  = (Reply 400 (inl (JError "Email or license number already exists")), demo_db).
Proof.
  apply (add_doctor_duplicate_email demo_hs256 demo_hash demo_defaults demo_env 2000
           demo_db (Some (Jws demo_admin_token))
           (Claims "64a0000000000000000000a1" (Some "admin") 1000 4600)
           (obj [("email", "ann@clinic"); ("password", "pw"); ("licenseNumber", "L-9")])
           "64a0000000000000000000d3" "salt" "ann@clinic" demo_doctor_record).
  - reflexivity.
  - reflexivity.
  - by eexists.
  - reflexivity.
  - apply list_elem_of_here.
  - reflexivity.
Defined.

(** The demo admin adds a doctor, who then logs in. *)
Lemma add_doctor_then_login_witness :
  ∃ tok answered,
    login demo_hs256 demo_compare demo_env 3000
      (admin_add_doctor demo_hs256 demo_hash demo_defaults demo_env 2000 demo_db
         (Some (Jws demo_admin_token)) demo_new_doctor "64a0000000000000000000d3" "salt").2
      (credentials "cy@clinic" "cy-pw" "doctor")
    = res 200 (JTokenRole tok answered)
    ∧ user_id (payload tok) = "64a0000000000000000000d3"
    ∧ exp (payload tok) = 3000 + 24 * 3600.
Proof.
  apply (add_doctor_then_login demo_hs256 demo_compare demo_hash demo_defaults
           demo_env 2000 3000 demo_db (Some (Jws demo_admin_token)) demo_new_doctor
           (credentials "cy@clinic" "cy-pw" "doctor") "64a0000000000000000000d3" "salt"
               "cy@clinic" "cy-pw");
    try reflexivity; discriminate.
Defined.

(** The store after the demo admin has added a doctor. *)
Lemma writers_keep_keys_unique_witness :
  let db' := (admin_add_doctor demo_hs256 demo_hash demo_defaults demo_env 2000 demo_db
                (Some (Jws demo_admin_token)) demo_new_doctor "64a0000000000000000000d3"
                    "salt").2 in
  (unique_id (Doctor db') ∧ unique_email (Doctor db'))
  ∧ (unique_id (Admin db') ∧ unique_email (Admin db')).
Proof.
  apply (writers_keep_keys_unique demo_hs256 demo_hash demo_defaults demo_env 2000
           demo_db (Some (Jws demo_admin_token)) demo_new_doctor
               "64a0000000000000000000d3" "salt").
  - split; demo_unique.
  - split; demo_unique.
  - apply list_elem_of_here.
Defined.

(** The demo admin adds an admin, who then logs in and adds doctors. *)
Lemma add_admin_then_act_witness :
  let result :=
    admin_add_admin demo_hs256 demo_hash demo_defaults demo_env 2000 demo_db
      (Some (Jws demo_admin_token)) demo_new_admin "64a0000000000000000000a2" "salt" in
  ∃ tok,
    admin_login demo_hs256 demo_compare demo_env 3000 result.2 demo_new_admin
    = res 200 (JToken tok)
    ∧ payload tok = Claims "64a0000000000000000000a2" (Some "admin") 3000 (3000 + 1 * 3600)
    ∧ ∀ t db2 doctor_body oid2 salt2,
        t < 3000 + 1 * 3600 ->
        code (admin_add_doctor demo_hs256 demo_hash demo_defaults demo_env t db2
                (Some (Jws tok)) doctor_body oid2 salt2).1 ≠ 401
        ∧ code (admin_add_doctor demo_hs256 demo_hash demo_defaults demo_env t db2
                  (Some (Jws tok)) doctor_body oid2 salt2).1 ≠ 403.
Proof.
  apply (add_admin_then_act demo_hs256 demo_compare demo_hash demo_defaults
           demo_env 2000 3000 demo_db (Some (Jws demo_admin_token)) demo_new_admin
           demo_new_admin "64a0000000000000000000a2" "salt" "eve@clinic" "eve-pw");
    try reflexivity; discriminate.
Defined.

(** The first doctor changes email and first name. *)
Lemma doctor_put_profile_effect_witness :
  let result :=
    doctor_put_profile demo_hs256 demo_env 2000 demo_db
      (Some (Jws demo_doctor_token)) demo_profile_update in
  ∃ user old updated,
    doctor_auth demo_hs256 demo_env 2000 (Some (Jws demo_doctor_token)) = inr user
    ∧ findById (user_id user) (Doctor demo_db) = Some old
    ∧ _id updated = _id old
    ∧ (∀ k, get updated k
            = if decide (k ∈ ["firstName"; "lastName"; "email"; "specialty";
                              "licenseNumber"; "phoneNumber"])
              then demo_profile_update !! k else get old k)
    ∧ result.1 = res 200 (JDocument (delete_property "password" updated))
    ∧ Doctor result.2
      = map (fun d => if String.eqb (_id d) (_id old) then updated else d)
          (Doctor demo_db)
    ∧ User result.2 = User demo_db ∧ Admin result.2 = Admin demo_db
    ∧ Appointment result.2 = Appointment demo_db.
Proof.
  apply (doctor_put_profile_effect demo_hs256 demo_env 2000 demo_db
           (Some (Jws demo_doctor_token)) demo_profile_update).
  reflexivity.
Defined.

(** The demo admin sends an empty profile update. *)
Lemma admin_put_profile_blank_witness :
  admin_put_profile demo_hs256 demo_env 2000 demo_db (Some (Jws demo_admin_token)) ∅
  = (res 200 (JMessageAdmin "Profile updated successfully"
                (delete_property "password" demo_admin_record)), demo_db).
Proof.
  apply (admin_put_profile_blank demo_hs256 demo_env 2000 demo_db
           (Some (Jws demo_admin_token)) ∅ (Claims "64a0000000000000000000a1" (Some
               "admin") 1000 4600)
           demo_admin_record); try reflexivity; demo_unique.
Defined.

(** The first doctor cancels its first appointment, writing the id with
    capital digits. *)
Lemma patch_appointment_effect_witness :
  let result :=
    doctor_patch_appointment demo_hs256 demo_cast demo_CastError demo_env 2000 demo_db
      (Some (Jws demo_doctor_token)) "64A0000000000000000000E1" "cancelled" in
  ∃ user pre a post,
    doctor_auth demo_hs256 demo_env 2000 (Some (Jws demo_doctor_token)) = inr user
    ∧ "cancelled" ∈ ["scheduled"; "completed"; "cancelled"]
    ∧ Appointment demo_db = pre ++ a :: post
    ∧ demo_cast "64A0000000000000000000E1" = Some (_id a)
    ∧ demo_cast (user_id user) = get a "doctorId"
    ∧ result.2
      = Store (User demo_db) (Doctor demo_db) (Admin demo_db)
          (pre ++ apply_update [("status", "cancelled")] a :: post)
    ∧ (∀ k, get (apply_update [("status", "cancelled")] a) k
            = if decide ("status" = k) then Some "cancelled" else get a k).
Proof.
  apply (patch_appointment_effect demo_hs256 demo_cast demo_CastError demo_env 2000 demo_db
           (Some (Jws demo_doctor_token)) "64A0000000000000000000E1" "cancelled").
  reflexivity.
Defined.

(** The first doctor cancels its first appointment twice. *)
Lemma patch_appointment_idempotent_witness :
  (doctor_patch_appointment demo_hs256 demo_cast demo_CastError demo_env 3000
     (doctor_patch_appointment demo_hs256 demo_cast demo_CastError demo_env 2000 demo_db
        (Some (Jws demo_doctor_token)) "64a0000000000000000000e1" "cancelled").2
     (Some (Jws demo_doctor_token)) "64a0000000000000000000e1" "cancelled").2
  = (doctor_patch_appointment demo_hs256 demo_cast demo_CastError demo_env 2000 demo_db
       (Some (Jws demo_doctor_token)) "64a0000000000000000000e1" "cancelled").2.
Proof.
  apply (patch_appointment_idempotent demo_hs256 demo_cast demo_CastError demo_env 2000
    3000 demo_db
           (Some (Jws demo_doctor_token)) (Some (Jws demo_doctor_token))
           (Claims "64a0000000000000000000d1" None 1000 87400)
           (Claims "64a0000000000000000000d1" None 1000 87400)
           "64a0000000000000000000e1" "cancelled"); reflexivity.
Defined.

(** The first doctor books 2:00 PM on a day with a 10:00 AM appointment. *)
Lemma schedule_books_the_slot_witness :
  let result :=
    doctor_schedule_appointment demo_hs256 demo_defaults demo_cast demo_timestamp
      demo_toISOString demo_ValidationError demo_env 2000 demo_db (Some (Jws
        demo_doctor_token))
      demo_booking "64a0000000000000000000e3" in
  ∃ user doctor appointment instant,
    doctor_auth demo_hs256 demo_env 2000 (Some (Jws demo_doctor_token)) = inr user
    ∧ demo_cast (user_id user) = Some doctor
    ∧ cast_date demo_timestamp (Some "2025-01-10") = Some instant
    ∧ result.2
      = Store (User demo_db) (Doctor demo_db) (Admin demo_db)
          (Appointment demo_db ++ [appointment])
    ∧ _id appointment = "64a0000000000000000000e3"
    ∧ get appointment "doctorId" = Some doctor
    ∧ get appointment "date" = demo_toISOString <$> instant
    ∧ (∀ slot,
         slot ∈ availableSlots (bookedTimes demo_timestamp result.2 doctor instant)
         <-> slot ∈ availableSlots (bookedTimes demo_timestamp demo_db doctor instant)
             ∧ slot ≠ "2:00 PM")
    ∧ (∀ doctorId instant',
         (doctorId, instant') ≠ (doctor, instant) ->
         bookedTimes demo_timestamp result.2 doctorId instant'
         = bookedTimes demo_timestamp demo_db doctorId instant').
Proof.
  apply (schedule_books_the_slot demo_hs256 demo_defaults demo_cast demo_timestamp
           demo_toISOString demo_ValidationError demo_env 2000 demo_db (Some (Jws
             demo_doctor_token))
           demo_booking "64a0000000000000000000e3" "2025-01-10" "2:00 PM");
    try reflexivity.
  intros t Ht. vm_compute in Ht. injection Ht as <-. reflexivity.
Defined.

(** Booking on the demo store and on an empty store. *)
Lemma schedule_ignores_bookings_witness :
  let schedule (db : store) :=
    doctor_schedule_appointment demo_hs256 demo_defaults demo_cast demo_timestamp
      demo_toISOString demo_ValidationError demo_env 2000 db (Some (Jws demo_doctor_token))
      demo_booking "64a0000000000000000000e3" in
  (schedule demo_db).1 = (schedule (Store [] [] [] [])).1
  ∧ (code (schedule demo_db).1 = 201 ->
     length (Appointment (schedule demo_db).2) = S (length (Appointment demo_db))).
Proof.
  apply (schedule_ignores_bookings demo_hs256 demo_defaults demo_cast demo_timestamp
           demo_toISOString demo_ValidationError demo_env 2000 demo_db (Store [] [] [] [])
           (Some (Jws demo_doctor_token)) demo_booking "64a0000000000000000000e3");
    demo_fresh.
Defined.

(** The first doctor lists the demo prescriptions. *)
Lemma prescriptions_are_scoped_witness :
  ∃ own for_patient,
    doctor_prescriptions demo_hs256 demo_env 2000 demo_prescriptions
      (Some (Jws demo_doctor_token))
    = Reply 200 (inl (JDocuments own))
    ∧ doctor_prescriptions_by_patient demo_hs256 demo_env 2000 demo_prescriptions
        (Some (Jws demo_doctor_token)) "64a0000000000000000000c1"
      = Reply 200 (inl (JDocuments for_patient))
    ∧ sublist own demo_prescriptions
    ∧ sublist for_patient own
    ∧ (∀ p, p ∈ own
            <-> p ∈ demo_prescriptions
                ∧ get p "doctorId" = Some "64a0000000000000000000d1")
    ∧ (∀ p, p ∈ for_patient
            <-> p ∈ own ∧ get p "patientId" = Some "64a0000000000000000000c1").
Proof.
  apply (prescriptions_are_scoped demo_hs256 demo_env 2000 demo_prescriptions
           (Some (Jws demo_doctor_token)) "64a0000000000000000000c1"
           (Claims "64a0000000000000000000d1" None 1000 87400)).
  reflexivity.
Defined.

(** The first doctor prescribes to the demo patient. *)
Lemma prescribe_then_listed_witness :
  let result :=
    doctor_prescribe_medication demo_hs256 demo_defaults demo_env 2000
      demo_prescriptions (Some (Jws demo_doctor_token)) demo_prescription
          "64a0000000000000000000f3" in
  ∃ user prescription,
    doctor_auth demo_hs256 demo_env 2000 (Some (Jws demo_doctor_token)) = inr user
    ∧ result.2 = demo_prescriptions ++ [prescription]
    ∧ _id prescription = "64a0000000000000000000f3"
    ∧ get prescription "doctorId" = Some (user_id user)
    ∧ (∀ k v, k ∈ ["patientId"; "medication"; "dosage"; "frequency"; "tilldate"] ->
              demo_prescription !! k = Some v -> get prescription k = Some v)
    ∧ ∀ e' now' header' reader,
        doctor_auth demo_hs256 e' now' header' = inr reader ->
        doctor_prescriptions demo_hs256 e' now' result.2 header'
        = Reply 200
            (inl (JDocuments
                    (find [("doctorId", Some (user_id reader))] demo_prescriptions
                     ++ if decide (user_id reader = user_id user)
                        then [prescription] else []))).
Proof.
  apply (prescribe_then_listed demo_hs256 demo_defaults demo_env 2000
           demo_prescriptions (Some (Jws demo_doctor_token)) demo_prescription
               "64a0000000000000000000f3").
  reflexivity.
Defined.

(** The first doctor tries to delete the second doctor's prescription. *)
Lemma delete_prescription_effect_witness :
  doctor_delete_prescription demo_hs256 demo_cast demo_CastError demo_env 2000
    demo_prescriptions
    (Some (Jws demo_doctor_token)) "64a0000000000000000000f2"
  = (Reply 404 (inl (JError "Prescription not found")), demo_prescriptions).
Proof.
  refine (proj1 (proj2 (delete_prescription_effect demo_hs256 demo_cast demo_CastError
    demo_env 2000
                          demo_prescriptions (Some (Jws demo_doctor_token))
                          "64a0000000000000000000f2"
                          (Claims "64a0000000000000000000d1" None 1000 87400) _))
            "64a0000000000000000000f2" _ _).
  - reflexivity.
  - reflexivity.
  - intros p Hp Hid.
    repeat (apply elem_of_cons in Hp as [-> | Hp]); try discriminate Hid.
    + vm_compute. discriminate.
    + by apply elem_of_nil in Hp.
Defined.

(** Seeding the demo store twice. *)
Lemma createAdmin_idempotent_witness :
  createAdmin "64a0000000000000000000a3" (createAdmin "64a0000000000000000000a2" demo_db)
      = createAdmin "64a0000000000000000000a2" demo_db
  ∧ User (createAdmin "64a0000000000000000000a2" demo_db) = User demo_db
  ∧ Doctor (createAdmin "64a0000000000000000000a2" demo_db) = Doctor demo_db
  ∧ Appointment (createAdmin "64a0000000000000000000a2" demo_db) = Appointment demo_db
  ∧ ∃ added,
      Admin (createAdmin "64a0000000000000000000a2" demo_db) = Admin demo_db ++ added
      ∧ (length added <= 1)%nat.
Proof.
  apply (createAdmin_idempotent "64a0000000000000000000a2" "64a0000000000000000000a3"
      demo_db). demo_fresh.
Defined.

(** The seeded admin of the demo store tries both logins. *)
Lemma seeded_admin_login_witness :
  login demo_hs256 demo_compare demo_env 1000
    (createAdmin "64a0000000000000000000a2" demo_db)
    (credentials "admin@gmail.com" "admin123" "admin")
  = res 400 (JError "Invalid password")
  ∧ admin_login demo_hs256 demo_compare demo_env 1000
      (createAdmin "64a0000000000000000000a2" demo_db)
      (credentials "admin@gmail.com" "admin123" "admin")
    = res 400 (JError "Invalid credentials").
Proof.
  apply (seeded_admin_login demo_hs256 demo_compare demo_env 1000 demo_db
           "64a0000000000000000000a2"
           (credentials "admin@gmail.com" "admin123" "admin"));
    try reflexivity. demo_fresh.
Defined.

(** The demo admin reads both patient dashboards. *)
Lemma patient_dashboards_agree_witness :
  ∃ rows,
    admin_patient_overview demo_hs256 demo_env 2000 demo_db (Some (Jws demo_admin_token))
    = Reply 200 (inr (JPatientOverview rows))
    ∧ admin_total_patients demo_hs256 demo_env 2000 demo_db (Some (Jws demo_admin_token))
      = Reply 200 (inr (JTotalPatients (length rows)))
    ∧ ∀ i patient,
        find [("role", Some "patient")] (User demo_db) !! i = Some patient ->
        rows !! i
        = Some ((template (get patient "firstName") ++ " "
                 ++ template (get patient "lastName"))%string,
                length (find [("patientId", Some (_id patient))] (Appointment demo_db))).
Proof.
  apply (patient_dashboards_agree demo_hs256 demo_env 2000 demo_db
           (Some (Jws demo_admin_token)) (Claims "64a0000000000000000000a1" (Some "admin")
               1000 4600)).
  reflexivity.
Defined.

